(** * domdropio: the domain scoring engine

    A shallow embedding of the scoring code of the repository

      - [src/lib/quickAnalyzer.ts]   (InstantTrafficAnalyzer, HybridAnalyzer)
      - [src/lib/trafficAnalyzer.ts] (TrafficAnalyzer)
      - [scripts/trafficDetector.js] (AdvancedTrafficDetector)
      - [supabase/functions/analyze-domain/index.ts] (the persisting handler)

    Conventions of the embedding.

      - A JavaScript [number] is an exact rational ([Q]); equality of numbers
        is [Qeq].  Every constant of the code (1.5, 0.8, 0.5, ...) and every
        value the probes produce is a rational, and the only rounding the
        code asks for is [Math.round] / [Math.floor], which are modelled
        exactly.  The one [NaN] the code can produce, the count
        [parseInt] reads off a search page without digits, is modelled where
        it arises ([DetectorProbes.JsInt]) and where it flows
        ([DetectorRun.JsNumber]); the infinities are outside the model.
      - A JavaScript string is a [string] of 8-bit characters; [toLowerCase]
        acts on the letters [A-Z].
      - [Math.random()], [Date.now()], [new Date()] and the answers of the
        network are inputs of the functions that consult them: each call
        receives the values it would read.
      - An instant is its number of milliseconds since the epoch ([Z]); the
        ISO text written by [toISOString] is represented by that instant. *)

From Stdlib Require Import ZArith QArith Qround Qminmax Lqa String Ascii Bool.
From stdpp Require Import gmap strings list.

Local Open Scope Q_scope.

(** ** The JavaScript runtime functions the code calls *)

Module JS.

Definition Math_min (a b : Q) : Q := Qmin a b.
Definition Math_max (a b : Q) : Q := Qmax a b.
Definition Math_floor (x : Q) : Q := inject_Z (Qfloor x).
(** [Math.round] rounds to the nearest integer, ties towards +infinity. *)
Definition Math_round (x : Q) : Q := inject_Z (Qfloor (x + (1 # 2))).

Definition ge (a b : Q) : bool := Qle_bool b a.      (* a >= b *)
Definition gt (a b : Q) : bool := negb (Qle_bool a b). (* a >  b *)
Definition le (a b : Q) : bool := Qle_bool a b.      (* a <= b *)

(** [s.startsWith(p)] *)
Fixpoint startsWith (s p : string) : bool :=
  match p, s with
  | EmptyString, _ => true
  | String _ _, EmptyString => false
  | String a p', String b s' => Ascii.eqb a b && startsWith s' p'
  end.

(** [s.includes(sub)] *)
Fixpoint includes (s sub : string) : bool :=
  startsWith s sub ||
  match s with
  | EmptyString => false
  | String _ s' => includes s' sub
  end.

(** [s.endsWith(suf)]: some suffix of [s] is [suf]. *)
Fixpoint endsWith (s suf : string) : bool :=
  String.eqb s suf ||
  match s with
  | EmptyString => false
  | String _ s' => endsWith s' suf
  end.

(** [s.split(sep)] for a one-character separator. *)
Fixpoint split (sep : ascii) (s : string) : list string :=
  match s with
  | EmptyString => [EmptyString]
  | String c s' =>
      if Ascii.eqb c sep then EmptyString :: split sep s'
      else match split sep s' with
           | h :: t => String c h :: t
           | [] => [String c EmptyString]
           end
  end.

Definition is_digit (c : ascii) : bool :=
  let n := nat_of_ascii c in (48 <=? n)%nat && (n <=? 57)%nat.

(** The regular expression [[0-9]{n}] matched at the start of [s]. *)
Fixpoint digits_at (n : nat) (s : string) : bool :=
  match n with
  | O => true
  | S n' =>
      match s with
      | EmptyString => false
      | String c s' => is_digit c && digits_at n' s'
      end
  end.

(** [/[0-9]{n}/.test(s)]: the expression matches somewhere in [s]. *)
Fixpoint test_digits (n : nat) (s : string) : bool :=
  digits_at n s ||
  match s with
  | EmptyString => false
  | String _ s' => test_digits n s'
  end.

Definition lower_char (c : ascii) : ascii :=
  let n := nat_of_ascii c in
  if (65 <=? n)%nat && (n <=? 90)%nat then ascii_of_nat (n + 32) else c.

(** [s.toLowerCase()] *)
Fixpoint toLowerCase (s : string) : string :=
  match s with
  | EmptyString => EmptyString
  | String c s' => String (lower_char c) (toLowerCase s')
  end.

(** [xs.some(p)] *)
Definition some {A} (p : A -> bool) (xs : list A) : bool := existsb p xs.

End JS.

(** ** The analysis record ([src/types/analyzer]) *)

Record DomainAnalysis := mkDomainAnalysis {
  domain : string;
  status : string;
  traffic_score : Q;
  estimated_traffic : Q;
  archive_snapshots : Q;
  indexed_pages : Q;
  social_mentions : Q;
  web_presence : Q;
  mail_score : Q;
  has_redirect : bool;
  redirect_url : option string;
  is_parked : bool;
  last_checked : Z
}.

(** ** [InstantTrafficAnalyzer] ([src/lib/quickAnalyzer.ts]) *)

Module InstantTrafficAnalyzer.

Definition KNOWN_TLDS : list string := [".com"; ".net"; ".org"; ".io"]%string.

(** The entries the code writes into its [scores] breakdown; an absent
    entry contributes nothing to [score]. *)
Definition yearPattern (domain : string) : Q :=
  if JS.test_digits 4 domain then 10 else 0.
Definition tld (domain : string) : Q :=
  if JS.some (fun t => JS.endsWith domain t) KNOWN_TLDS then 20 else 0.
Definition length_bonus (domain : string) : Q :=
  if (String.length domain <? 15)%nat then 15 else 0.
Definition subdomains (domain : string) : Q :=
  if (2 <? List.length (JS.split "." domain))%nat then - (10) else 0.
Definition shopKeyword (domain : string) : Q :=
  if JS.includes domain "shop" then 5 else 0.
Definition blogKeyword (domain : string) : Q :=
  if JS.includes domain "blog" then 5 else 0.

Definition estimateScore (domain : string) : Q :=
  let score := 0 in
  let score := if JS.test_digits 4 domain then score + 10 else score in
  let score :=
    if JS.some (fun t => JS.endsWith domain t) KNOWN_TLDS
    then score + 20 else score in
  let score := if (String.length domain <? 15)%nat then score + 15 else score in
  let score :=
    if (2 <? List.length (JS.split "." domain))%nat then score - 10 else score in
  let score := if JS.includes domain "shop" then score + 5 else score in
  let score := if JS.includes domain "blog" then score + 5 else score in
  JS.Math_max 0 (JS.Math_min score 100).

(** [rnd] is the value of the one [Math.random()] call the taken branch
    makes. *)
Definition estimateTraffic (rnd : Q) (score : Q) : Q :=
  let traffic := 0 in
  if JS.ge score 90 then 15000 + JS.Math_floor (rnd * 5000)
  else if JS.ge score 80 then 10000 + JS.Math_floor (rnd * 5000)
  else if JS.ge score 70 then 5000 + JS.Math_floor (rnd * 5000)
  else if JS.ge score 60 then 2000 + JS.Math_floor (rnd * 3000)
  else if JS.ge score 50 then 1000 + JS.Math_floor (rnd * 1000)
  else if JS.ge score 40 then 500 + JS.Math_floor (rnd * 500)
  else if JS.ge score 30 then 200 + JS.Math_floor (rnd * 300)
  else if JS.ge score 20 then 50 + JS.Math_floor (rnd * 150)
  else if JS.ge score 10 then JS.Math_floor (rnd * 50)
  else traffic.

(** [now] is the instant [new Date()] reads. *)
Definition analyze (rnd : Q) (now : Z) (domain : string) : DomainAnalysis :=
  let trafficScore := estimateScore domain in
  let estimatedTraffic := estimateTraffic rnd trafficScore in
  {| domain := domain;
     status := "available";
     traffic_score := trafficScore;
     estimated_traffic := estimatedTraffic;
     archive_snapshots := 0;
     indexed_pages := 0;
     social_mentions := 0;
     web_presence := 0;
     mail_score := 0;
     has_redirect := false;
     redirect_url := None;
     is_parked := false;
     last_checked := now |}.

End InstantTrafficAnalyzer.

(** ** What the network answers *)

Module Net.

(** The result of [await fetch(...)] followed by [response.json()]:
    the request fails ([NetworkError]: timeout, connection refused), or a
    response arrives with its [ok] flag and a body that parses ([Some]) or
    is malformed ([None], [response.json()] rejects). *)
Inductive fetched (A : Type) : Type :=
| NetworkError
| Response (ok : bool) (json : option A).
Arguments NetworkError {A}.
Arguments Response {A} ok json.

(** The body of [https://dns.google/resolve]: [null], or an object whose
    optional [Answer] lists the records, each with its numeric [type]. *)
Inductive DnsJson : Type :=
| DnsNull
| DnsObject (Answer : option (list Z)).

(** A probe has failed: timeout, non-ok status, or malformed body. *)
Definition failed {A} (r : fetched A) : bool :=
  match r with
  | NetworkError => true
  | Response false _ => true
  | Response true None => true
  | Response true (Some _) => false
  end.

End Net.

(** ** [HybridAnalyzer] ([src/lib/quickAnalyzer.ts]) *)

Module HybridAnalyzer.
Import Net.

Definition CACHE_TTL : Z := 1000 * 60 * 60.
Definition BATCH_SIZE : nat := 3.

(** What one call of [analyze] reads from its surroundings. *)
Record Env := mkEnv {
  now_lookup : Z;            (* Date.now() at the cache check *)
  rnd_traffic : Q;           (* Math.random() in estimateTraffic *)
  now_instant : Z;           (* new Date() in InstantTrafficAnalyzer.analyze *)
  dns_response : fetched DnsJson;
  rnd_archive : Q;           (* the four Math.random() of the record *)
  rnd_indexed : Q;
  rnd_social : Q;
  rnd_web : Q;
  now_final : Z              (* new Date() of the record *)
}.

(** [checkDNS] catches every failure itself and answers [false]. *)
Definition checkDNS (r : fetched DnsJson) : bool :=
  match r with
  | NetworkError => false
  | Response false _ => false
  | Response true None => false
  | Response true (Some DnsNull) => false
  | Response true (Some (DnsObject None)) => false
  | Response true (Some (DnsObject (Some answer))) =>
      (0 <? List.length answer)%nat
  end.

(** The cache test of [analyze]: an entry younger than [CACHE_TTL]. *)
Definition cached_fresh (cache : gmap string DomainAnalysis)
    (now : Z) (domain : string) : option DomainAnalysis :=
  match cache !! domain with
  | Some cached =>
      if (now - last_checked cached <? CACHE_TTL)%Z then Some cached else None
  | None => None
  end.

(** [analyze] runs without interruption up to its first [await]: it
    either answers from the cache or holds the instant estimate while the
    DNS request is in flight. *)
Inductive started : Type :=
| Cached (cached : DomainAnalysis)
| Pending (instant : DomainAnalysis).

Definition analyze_start (cache : gmap string DomainAnalysis)
    (e : Env) (domain : string) : started :=
  match cached_fresh cache (now_lookup e) domain with
  | Some cached => Cached cached
  | None =>
      Pending (InstantTrafficAnalyzer.analyze (rnd_traffic e) (now_instant e) domain)
  end.

(** The rest of [analyze], once the DNS answer is there.  [checkDNS] does
    not throw, so the [catch] branch that would return [instant] is never
    entered. *)
Definition analyze_resume (e : Env) (instant : DomainAnalysis) : DomainAnalysis :=
  let dnsActive := checkDNS (dns_response e) in
  {| domain := domain instant;
     status := if dnsActive then "registered" else "available";
     traffic_score :=
       JS.Math_round (traffic_score instant * (if dnsActive then 3 # 2 else 4 # 5));
     estimated_traffic := estimated_traffic instant;
     archive_snapshots := JS.Math_floor (rnd_archive e * 10);
     indexed_pages := JS.Math_floor (rnd_indexed e * 100);
     social_mentions := JS.Math_floor (rnd_social e * 50);
     web_presence := JS.Math_floor (rnd_web e * 100);
     mail_score := 0;
     has_redirect := false;
     redirect_url := None;
     is_parked := false;
     last_checked := now_final e |}.

(** One call of [analyze] run to its end: the record and the cache after. *)
Definition analyze (cache : gmap string DomainAnalysis) (e : Env)
    (domain : string) : DomainAnalysis * gmap string DomainAnalysis :=
  match analyze_start cache e domain with
  | Cached cached => (cached, cache)
  | Pending instant =>
      let analysis := analyze_resume e instant in
      (analysis, <[domain := analysis]> cache)
  end.

(** [await Promise.all(batch.map(domain => this.analyze(domain)))].
    The calls of a group all start, in order, on the cache as the group
    found it; the pending ones then resume in the order [arrival] in which
    their DNS answers arrive (positions within the group), each writing
    its record to the cache; [Promise.all] lists the records by position. *)
Definition group_started (cache : gmap string DomainAnalysis)
    (calls : list (Env * string)) : list (Env * string * started) :=
  List.map (fun c => (c, analyze_start cache (fst c) (snd c))) calls.

Definition group_result (c : Env * string * started) : DomainAnalysis :=
  match c with
  | (_, _, Cached cached) => cached
  | (e, _, Pending instant) => analyze_resume e instant
  end.

Definition group_write (sts : list (Env * string * started))
    (cache : gmap string DomainAnalysis) (k : nat) : gmap string DomainAnalysis :=
  match sts !! k with
  | Some (e, d, Pending instant) => <[d := analyze_resume e instant]> cache
  | _ => cache
  end.

Definition promise_all (cache : gmap string DomainAnalysis)
    (calls : list (Env * string)) (arrival : list nat)
  : list DomainAnalysis * gmap string DomainAnalysis :=
  let sts := group_started cache calls in
  (List.map group_result sts, List.fold_left (group_write sts) arrival cache).

(** [domains.slice(i, j)] *)
Definition slice {A} (xs : list A) (i j : nat) : list A :=
  List.firstn (j - i) (List.skipn i xs).

(** The [for] loop of [analyzeBatch]; [envs k] is what the call for
    [domains[k]] reads and [arrival i] the arrival order within the group
    that starts at [i].  [fuel] bounds the number of iterations. *)
Fixpoint analyzeBatch_loop (envs : nat -> Env) (arrival : nat -> list nat)
    (domains : list string) (fuel : nat) (i : nat)
    (results : list DomainAnalysis) (cache : gmap string DomainAnalysis)
  : option (list DomainAnalysis * gmap string DomainAnalysis) :=
  match fuel with
  | O => None
  | S fuel' =>
      if (i <? List.length domains)%nat then
        let batch := slice domains i (i + BATCH_SIZE) in
        let calls := List.map (fun kd => (envs (i + fst kd)%nat, snd kd))
                       (List.combine (List.seq 0 (List.length batch)) batch) in
        let '(analysis, cache') := promise_all cache calls (arrival i) in
        analyzeBatch_loop envs arrival domains fuel' (i + BATCH_SIZE)%nat
          (results ++ analysis) cache'
      else Some (results, cache)
  end.

Definition analyzeBatch (envs : nat -> Env) (arrival : nat -> list nat)
    (cache : gmap string DomainAnalysis) (domains : list string)
  : option (list DomainAnalysis * gmap string DomainAnalysis) :=
  analyzeBatch_loop envs arrival domains (S (List.length domains)) 0 [] cache.

End HybridAnalyzer.

(** ** [TrafficAnalyzer] ([src/lib/trafficAnalyzer.ts]) *)

Module TrafficAnalyzer.
Import Net.

Record AnalysisProgress := mkProgress {
  step : string;
  message : string;
  progress : Q
}.

(** A call either returns or throws. *)
Inductive outcome (A : Type) : Type :=
| Returns (a : A)
| Throws.
Arguments Returns {A} a.
Arguments Throws {A}.

(** Sequencing: a statement that throws ends the block
    ([m ;; k] runs [k] only when [m] returns). *)
#[export] Instance outcome_bind : MBind outcome :=
  fun A B (k : A -> outcome B) (m : outcome A) =>
    match m with
    | Returns a => k a
    | Throws => Throws
    end.

(** A [Date] object: its time value, or [NaN] for an invalid date. *)
Inductive JsDate : Type :=
| InvalidDate
| DateAt (t : Z).

(** The [closest] entry of the Wayback availability answer. *)
Record Closest := mkClosest {
  timestamp : option string;   (* absent or empty: [None] *)
  available : bool
}.
Record ArchivedSnapshots := mkArchived { closest : option Closest }.
Inductive ArchiveJson : Type :=
| ArchiveNull
| ArchiveObject (archived_snapshots : option ArchivedSnapshots).

Record ArchiveHistory := mkHistory {
  snapshots : Q;
  recentSnapshots : Q;
  lastSeen : option JsDate
}.

Record DnsStatus := mkDns {
  hasNameservers : bool;
  hasWebsite : bool
}.

Record Metrics := mkMetrics {
  m_recentSnapshots : Q;
  m_totalSnapshots : Q;
  m_hasWebsite : bool;
  m_lastSeen : option JsDate
}.

(** The record [analyzeDomain] resolves to. *)
Record Analysis := mkAnalysis {
  traffic_score : Q;
  estimated_traffic : Q;
  archive_snapshots : Q;
  last_checked : Z;
  status : string
}.

(** What one call of [analyzeDomain] reads from its surroundings. *)
Record Env := mkEnv {
  onProgress : option (AnalysisProgress -> outcome unit);
  dns_response : fetched DnsJson;
  archive_response : fetched ArchiveJson;
  now_archive : Z;       (* new Date() in checkArchiveHistory *)
  now_score : Z;         (* new Date() in calculateTrafficScore *)
  rnd : Q;               (* Math.random() in estimateTraffic *)
  now_return : Z         (* new Date() of the returned record *)
}.

Section Calendar.
(** The calendar of the runtime, in its local time zone:
    [dateOfTimestamp ts] is [new Date(year, month, day)] for the three
    fields read off the text [ts] (lines 48-51), and
    [threeMonthsBefore now] is [now] after [setMonth(getMonth() - 3)]. *)
Variable dateOfTimestamp : string -> JsDate.
Variable threeMonthsBefore : Z -> Z.

Definition emitProgress (cb : option (AnalysisProgress -> outcome unit))
    (step message : string) (progress : Q) : outcome unit :=
  match cb with
  | Some onProgress =>
      onProgress {| step := step; message := message; progress := progress |}
  | None => Returns tt
  end.

Definition archive_fallback : ArchiveHistory :=
  {| snapshots := 0; recentSnapshots := 0; lastSeen := None |}.

(** [lastSeen > threeMonthsAgo]; a comparison with [NaN] is false. *)
Definition date_after (d : JsDate) (t : Z) : bool :=
  match d with
  | InvalidDate => false
  | DateAt u => (t <? u)%Z
  end.

Definition checkArchiveHistory (now : Z) (r : fetched ArchiveJson)
  : ArchiveHistory :=
  match r with
  | NetworkError => archive_fallback
  | Response false _ => archive_fallback
  | Response true None => archive_fallback
  | Response true (Some ArchiveNull) => archive_fallback
  | Response true (Some (ArchiveObject None)) => archive_fallback
  | Response true (Some (ArchiveObject (Some arch))) =>
      match closest arch with
      | None => archive_fallback
      | Some c =>
          match timestamp c with
          | None => archive_fallback
          | Some ts =>
              let lastSeen := dateOfTimestamp ts in
              let snapshots := if available c then 1 else 0 in
              let threeMonthsAgo := threeMonthsBefore now in
              let recentSnapshots :=
                if date_after lastSeen threeMonthsAgo then 1 else 0 in
              {| snapshots := snapshots;
                 recentSnapshots := recentSnapshots;
                 lastSeen := Some lastSeen |}
          end
      end
  end.

Definition dns_fallback : DnsStatus :=
  {| hasNameservers := false; hasWebsite := false |}.

Definition checkDNS (r : fetched DnsJson) : DnsStatus :=
  match r with
  | NetworkError => dns_fallback
  | Response false _ => dns_fallback
  | Response true None => dns_fallback
  | Response true (Some DnsNull) => dns_fallback
  | Response true (Some (DnsObject None)) =>
      {| hasNameservers := false; hasWebsite := false |}
  | Response true (Some (DnsObject (Some answer))) =>
      {| hasNameservers := (0 <? List.length answer)%nat;
         hasWebsite := JS.some (fun type => (type =? 1)%Z) answer |}
  end.

(** The tiered recency bonus of [calculateTrafficScore]. *)
Definition recency (now : Z) (d : option JsDate) : Q :=
  match d with
  | Some (DateAt t) =>
      let monthsAgo :=
        inject_Z (now - t) / inject_Z (1000 * 60 * 60 * 24 * 30) in
      if JS.le monthsAgo 1 then 10
      else if JS.le monthsAgo 3 then 5
      else if JS.le monthsAgo 6 then 2
      else 0
  | Some InvalidDate => 0
  | None => 0
  end.

Definition calculateTrafficScore (now : Z) (metrics : Metrics) : Q :=
  let score := 0 in
  let score := score + JS.Math_min (m_recentSnapshots metrics * 40) 40 in
  let score := score + JS.Math_min (m_totalSnapshots metrics * 40) 40 in
  let score := if m_hasWebsite metrics then score + 10 else score in
  let score := score + recency now (m_lastSeen metrics) in
  JS.Math_min (JS.Math_round score) 100.

Definition estimateTraffic (rnd : Q) (score : Q) : Q :=
  if JS.ge score 90 then 15000 + JS.Math_floor (rnd * 5000)
  else if JS.ge score 80 then 10000 + JS.Math_floor (rnd * 5000)
  else if JS.ge score 70 then 5000 + JS.Math_floor (rnd * 5000)
  else if JS.ge score 60 then 2000 + JS.Math_floor (rnd * 3000)
  else if JS.ge score 50 then 1000 + JS.Math_floor (rnd * 1000)
  else if JS.ge score 40 then 500 + JS.Math_floor (rnd * 500)
  else if JS.ge score 30 then 200 + JS.Math_floor (rnd * 300)
  else if JS.ge score 20 then 50 + JS.Math_floor (rnd * 150)
  else if JS.ge score 10 then JS.Math_floor (rnd * 50)
  else 0.

(** The [try] block of [analyzeDomain]. *)
Definition analyzeDomain_try (e : Env) (domain : string) : outcome Analysis :=
  emitProgress (onProgress e) "start" "Starting domain analysis..." 0 ;;
  emitProgress (onProgress e) "dns" "Checking domain status..." 25 ;;
  let dnsStatus := checkDNS (dns_response e) in
  emitProgress (onProgress e) "archive" "Checking archive history..." 50 ;;
  let archiveData := checkArchiveHistory (now_archive e) (archive_response e) in
  emitProgress (onProgress e) "scoring" "Calculating traffic potential..." 75 ;;
  let trafficScore :=
    calculateTrafficScore (now_score e)
      {| m_recentSnapshots := recentSnapshots archiveData;
         m_totalSnapshots := snapshots archiveData;
         m_hasWebsite := hasWebsite dnsStatus;
         m_lastSeen := lastSeen archiveData |} in
  let estimatedTraffic := estimateTraffic (rnd e) trafficScore in
  emitProgress (onProgress e) "complete" "Analysis complete" 100 ;;
  Returns {| traffic_score := trafficScore;
             estimated_traffic := estimatedTraffic;
             archive_snapshots := snapshots archiveData;
             last_checked := now_return e;
             status := if hasNameservers dnsStatus
                       then "registered" else "available" |}.

(** [analyzeDomain]: the [try] block, and its [catch]. *)
Definition analyzeDomain (e : Env) (domain : string) : outcome Analysis :=
  match analyzeDomain_try e domain with
  | Returns analysis => Returns analysis
  | Throws =>
      emitProgress (onProgress e) "error" "Analysis failed" 100 ;;
      Returns {| traffic_score := 0;
                 estimated_traffic := 0;
                 archive_snapshots := 0;
                 last_checked := now_return e;
                 status := "error" |}
  end.

(** The two records [analyzeDomain] can resolve to: the one its [try]
    block builds and the one its [catch] builds. *)
Definition try_record (e : Env) : Analysis :=
  let dnsStatus := checkDNS (dns_response e) in
  let archiveData := checkArchiveHistory (now_archive e) (archive_response e) in
  let trafficScore :=
    calculateTrafficScore (now_score e)
      {| m_recentSnapshots := recentSnapshots archiveData;
         m_totalSnapshots := snapshots archiveData;
         m_hasWebsite := hasWebsite dnsStatus;
         m_lastSeen := lastSeen archiveData |} in
  {| traffic_score := trafficScore;
     estimated_traffic := estimateTraffic (rnd e) trafficScore;
     archive_snapshots := snapshots archiveData;
     last_checked := now_return e;
     status := if hasNameservers dnsStatus then "registered" else "available" |}.

Definition catch_record (e : Env) : Analysis :=
  {| traffic_score := 0;
     estimated_traffic := 0;
     archive_snapshots := 0;
     last_checked := now_return e;
     status := "error" |}.

(** The progress callback returns on every event. *)
Definition callback_returns (cb : option (AnalysisProgress -> outcome unit)) : Prop :=
  forall f ev, cb = Some f -> f ev = Returns tt.

End Calendar.

End TrafficAnalyzer.

(** ** [AdvancedTrafficDetector] ([scripts/trafficDetector.js]) *)

Module AdvancedTrafficDetector.

(** The result of [await axios.get(...)]: a rejection (timeout, refused
    connection, a status outside 2xx), or a response with its status and
    its body, [Some] text or [None] when the body is not a string. *)
Inductive AxiosResult : Type :=
| AxiosError
| AxiosResponse (status : Z) (data : option string).

Definition parkingSigns : list string :=
  [ "domain is for sale";
    "buy this domain";
    "domain parking";
    "domain registered";
    "domain owner";
    "domain expired";
    "parkingcrew";
    "sedoparking";
    "hugedomains";
    "undeveloped.com" ]%string.

Definition checkForParkedDomainSigns (r : AxiosResult) : bool :=
  match r with
  | AxiosError => false
  | AxiosResponse status data =>
      if (status =? 200)%Z then
        match data with
        | Some body =>
            let content := JS.toLowerCase body in
            JS.some (fun sign => JS.includes content sign) parkingSigns
        | None => false   (* [toLowerCase] is not a function: caught *)
        end
      else false
  end.

(** What the five probes resolved to (the destructured [Promise.all]),
    when each number among them is a number; [DetectorRun] has the run
    from the answers of the network on, a count that is [NaN] included. *)
Record Probes := mkProbes {
  archiveSnapshots : Q;
  archiveFrequency : Q;
  indexedPages : Q;
  mailScore : Q;
  hasRedirect : bool;
  redirectUrl : option string;
  isParked : bool
}.

(** The [results] object. *)
Record Results := mkResults {
  archive_snapshots : Q;
  archive_frequency : Q;
  indexed_pages : Q;
  mail_score : Q;
  has_redirect : bool;
  redirect_url : option string;
  is_parked : bool;
  traffic_score : Q;
  estimated_traffic : Q;
  has_traffic : bool
}.

(** Lines 201-226: the score. *)
Definition finalScore (p : Probes) : Q :=
  let finalScore := 0 in
  let archiveScore :=
    JS.Math_min (archiveSnapshots p * (3 # 2)) 15 +
    JS.Math_min (archiveFrequency p * 5) 10 in
  let finalScore := finalScore + archiveScore in
  let indexingScore := JS.Math_min (indexedPages p * (1 # 2)) 30 in
  let finalScore := finalScore + indexingScore in
  let mailConfigScore := JS.Math_min (mailScore p * 2) 25 in
  let finalScore := finalScore + mailConfigScore in
  let redirectScore := if hasRedirect p then 10 else 0 in
  let finalScore := finalScore + redirectScore in
  let parkedScore := if isParked p then 10 else 0 in
  let finalScore := finalScore + parkedScore in
  JS.Math_min finalScore 100.

(** Lines 229-241: the estimate. *)
Definition estimatedTraffic (rnd : Q) (finalScore : Q) : Q :=
  if JS.gt finalScore 80 then JS.Math_floor (rnd * 15000) + 5000
  else if JS.gt finalScore 60 then JS.Math_floor (rnd * 4000) + 1000
  else if JS.gt finalScore 40 then JS.Math_floor (rnd * 900) + 100
  else if JS.gt finalScore 20 then JS.Math_floor (rnd * 90) + 10
  else JS.Math_floor (rnd * 10).

(** [calculate_comprehensive_traffic_score] from the answers of its
    probes on; [rnd] is its [Math.random()]. *)
Definition calculate_comprehensive_traffic_score (rnd : Q) (p : Probes) : Results :=
  let score := finalScore p in
  {| archive_snapshots := archiveSnapshots p;
     archive_frequency := archiveFrequency p;
     indexed_pages := indexedPages p;
     mail_score := mailScore p;
     has_redirect := hasRedirect p;
     redirect_url := redirectUrl p;
     is_parked := isParked p;
     traffic_score := score;
     estimated_traffic := estimatedTraffic rnd score;
     has_traffic := JS.gt score 10 |}.

End AdvancedTrafficDetector.

(** ** Persisting an analysis
    ([supabase/functions/analyze-domain/index.ts], [src/lib/supabase.ts]) *)

Module Store.

Inductive JsValue : Type :=
| JsNull
| JsBool (b : bool)
| JsNumber (q : Q)
| JsString (s : string)
| JsInstant (t : Z).

(** The [update] payload of the edge function:
    [{ ...analysis, status: 'available', last_checked: now }].
    The [DomainAnalyzer] class that produced [analysis] is not part of the
    sources; the payload is built the same way from any object. *)
Definition handler_update (analysis : gmap string JsValue) (now : Z)
  : gmap string JsValue :=
  <["last_checked" := JsInstant now]>
    (<["status" := JsString "available"]> analysis).

Definition of_option (o : option string) : JsValue :=
  match o with
  | Some s => JsString s
  | None => JsNull
  end.

(** The [update] payload of [analyzeDomain] in [src/lib/supabase.ts],
    built from the record of [HybridAnalyzer.analyze]. *)
Definition client_update (analysis : DomainAnalysis) (now : Z)
  : gmap string JsValue :=
  list_to_map
    [ ("status"%string, JsString (status analysis));
      ("traffic_score"%string, JsNumber (traffic_score analysis));
      ("estimated_traffic"%string, JsNumber (estimated_traffic analysis));
      ("archive_snapshots"%string, JsNumber (archive_snapshots analysis));
      ("indexed_pages"%string, JsNumber (indexed_pages analysis));
      ("social_mentions"%string, JsNumber (social_mentions analysis));
      ("web_presence"%string, JsNumber (web_presence analysis));
      ("mail_score"%string, JsNumber (mail_score analysis));
      ("has_redirect"%string, JsBool (has_redirect analysis));
      ("redirect_url"%string, of_option (redirect_url analysis));
      ("is_parked"%string, JsBool (is_parked analysis));
      ("last_checked"%string, JsInstant now) ].

(** The object a [TrafficAnalyzer.Analysis] record is. *)
Definition object_of (a : TrafficAnalyzer.Analysis) : gmap string JsValue :=
  list_to_map
    [ ("traffic_score"%string, JsNumber (TrafficAnalyzer.traffic_score a));
      ("estimated_traffic"%string, JsNumber (TrafficAnalyzer.estimated_traffic a));
      ("archive_snapshots"%string, JsNumber (TrafficAnalyzer.archive_snapshots a));
      ("last_checked"%string, JsInstant (TrafficAnalyzer.last_checked a));
      ("status"%string, JsString (TrafficAnalyzer.status a)) ].

(** The [domains_status_check] constraint of the table. *)
Definition domains_status_check (status : string) : bool :=
  bool_decide (status ∈ ["available"; "pending"; "registered"; "expired"]%string).

End Store.

(** The five values the specification allows for [status]. *)
Definition status_values : list string :=
  ["available"; "registered"; "pending"; "expired"; "error"]%string.

(** ** The probes of [AdvancedTrafficDetector] ([scripts/trafficDetector.js]) *)

Module DetectorProbes.

(** A record of [dns.resolveMx]. *)
Record MxRecord := mkMx {
  exchange : string;
  priority : Z
}.

(** [xs.length] as a number. *)
Definition count {A} (xs : list A) : Q := inject_Z (Z.of_nat (List.length xs)).

(** [record.some(txt => txt.toLowerCase().includes('spf'))] *)
Definition is_spf (record : list string) : bool :=
  JS.some (fun txt => JS.includes (JS.toLowerCase txt) "spf") record.

(** [checkDnsMailConfiguration]: [mx], [txt] and [dmarc] are what
    [resolveMx(domain)], [resolveTxt(domain)] and
    [resolveTxt('_dmarc.' + domain)] resolve to, [None] when they reject.
    The second [try] block holds both TXT lookups: when the first rejects,
    the second is not made. *)
Definition checkDnsMailConfiguration (mx : option (list MxRecord))
    (txt dmarc : option (list (list string))) : Q :=
  let mailScore := 0 in
  let mailScore :=
    match mx with
    | Some mxRecords => mailScore + count mxRecords * 2
    | None => mailScore
    end in
  match txt with
  | Some txtRecords =>
      let spfRecords := List.filter is_spf txtRecords in
      let mailScore := mailScore + count spfRecords * (3 # 2) in
      match dmarc with
      | Some dmarcRecords => mailScore + count dmarcRecords * (3 # 2)
      | None => mailScore
      end
  | None => mailScore
  end.

(** The answer of the CDX API: a rejection, or a status and the parsed
    body, a list of rows (the first one the header), [None] when the body is
    missing. *)
Inductive CdxResult : Type :=
| CdxError
| CdxResponse (status : Z) (data : option (list (list string))).

(** [s.substring(a, b)] for [a <= b]. *)
Definition substring (s : string) (a b : nat) : string :=
  String.substring a (b - a) s.

Section Calendar.
(** The calendar of the runtime: [dateOfParts year month day] is
    [new Date(year, month - 1, day)] for the three texts cut out of a
    timestamp, and [oneYearBefore now] is [now] after
    [setFullYear(getFullYear() - 1)]. *)
Variable dateOfParts : string -> string -> string -> TrafficAnalyzer.JsDate.
Variable oneYearBefore : Z -> Z.

(** The callback of [snapshots.map]; a row without first element makes
    [snap[0].substring] throw ([None]). *)
Definition snapshot_date (snap : list string) : option TrafficAnalyzer.JsDate :=
  match snap with
  | ts :: _ =>
      let year := substring ts 0 4 in
      let month := substring ts 4 6 in
      let day := substring ts 6 8 in
      Some (dateOfParts year month day)
  | [] => None
  end.

Fixpoint snapshot_dates (snapshots : list (list string))
  : option (list TrafficAnalyzer.JsDate) :=
  match snapshots with
  | [] => Some []
  | snap :: rest =>
      match snapshot_date snap with
      | None => None
      | Some d =>
          match snapshot_dates rest with
          | None => None
          | Some ds => Some (d :: ds)
          end
      end
  end.

Definition checkArchiveFrequency (now : Z) (r : CdxResult) : Q * Q :=
  match r with
  | CdxError => (0, 0)
  | CdxResponse status data =>
      if (status =? 200)%Z then
        match data with
        | None => (0, 0)
        | Some rows =>
            if (List.length rows <=? 1)%nat then (0, 0)
            else
              let snapshots := List.skipn 1 rows in
              match snapshot_dates snapshots with
              | None => (0, 0)
              | Some timestamps =>
                  let oneYearAgo := oneYearBefore now in
                  let recentSnapshots :=
                    count (List.filter
                             (fun ts => TrafficAnalyzer.date_after ts oneYearAgo)
                             timestamps) in
                  let frequency := recentSnapshots / 12 in
                  (recentSnapshots, frequency)
              end
        end
      else (0, 0)
  end.

End Calendar.

(** The answer of the request of [checkForActiveRedirects]: a rejection, or
    the number of redirects followed and the final URL. *)
Inductive RedirectResult : Type :=
| RedirectError
| RedirectResponse (redirectCount : Z) (responseUrl : string).

Definition checkForActiveRedirects (domain : string) (r : RedirectResult)
  : bool * option string :=
  match r with
  | RedirectError => (false, None)
  | RedirectResponse redirects finalUrl =>
      if (0 <? redirects)%Z && negb (JS.includes finalUrl domain)
      then (true, Some finalUrl)
      else (false, None)
  end.

(** What [parseInt] answers. *)
Inductive JsInt : Type :=
| NaN
| Int (n : Z).

Definition is_count_char (c : ascii) : bool :=
  JS.is_digit c || Ascii.eqb c ",".

(** The longest prefix of [s] made of characters of [p], and the rest. *)
Fixpoint span (p : ascii -> bool) (s : string) : string * string :=
  match s with
  | EmptyString => (EmptyString, EmptyString)
  | String c s' =>
      if p c then let '(run, rest) := span p s' in (String c run, rest)
      else (EmptyString, s)
  end.

Fixpoint drop (n : nat) (s : string) : string :=
  match n, s with
  | O, _ => s
  | S n', String _ s' => drop n' s'
  | S _, EmptyString => EmptyString
  end.

(** [/About ([0-9,]+) results/] matched at the start of [s]: the group.
    The group is the whole run of digits and commas, since the text that
    must follow starts with a space. *)
Definition about_at (s : string) : option string :=
  if JS.startsWith s "About " then
    let '(group, rest) := span is_count_char (drop 6 s) in
    match group with
    | EmptyString => None
    | String _ _ => if JS.startsWith rest " results" then Some group else None
    end
  else None.

(** [content.match(/About ([0-9,]+) results/)]: the group of the leftmost
    match. *)
Fixpoint match_about (s : string) : option string :=
  match about_at s with
  | Some group => Some group
  | None =>
      match s with
      | EmptyString => None
      | String _ s' => match_about s'
      end
  end.

(** [group.replace(/,/g, '')] *)
Fixpoint remove_commas (s : string) : string :=
  match s with
  | EmptyString => EmptyString
  | String c s' =>
      if Ascii.eqb c "," then remove_commas s' else String c (remove_commas s')
  end.

Fixpoint digits_value (acc : Z) (s : string) : Z :=
  match s with
  | EmptyString => acc
  | String c s' => digits_value (acc * 10 + (Z.of_nat (nat_of_ascii c) - 48)) s'
  end.

(** [parseInt(s, 10)] on a text of decimal digits, as an exact integer. *)
Definition parseInt (s : string) : JsInt :=
  match s with
  | EmptyString => NaN
  | String _ _ => Int (digits_value 0 s)
  end.

Definition checkIndexingStatus (r : AdvancedTrafficDetector.AxiosResult) : JsInt :=
  match r with
  | AdvancedTrafficDetector.AxiosError => Int 0
  | AdvancedTrafficDetector.AxiosResponse status data =>
      if (status =? 200)%Z then
        match data with
        | None => Int 0   (* [includes] is not a function: caught *)
        | Some content =>
            if JS.includes content "did not match any documents" then Int 0
            else
              match match_about content with
              | Some group => parseInt (remove_commas group)
              | None => if JS.includes content "result" then Int 1 else Int 0
              end
        end
      else Int 0
  end.

(** The number of rows of a CDX answer, the header included. *)
Definition cdx_rows (r : CdxResult) : nat :=
  match r with
  | CdxResponse _ (Some rows) => List.length rows
  | _ => O
  end.

End DetectorProbes.

(** ** [calculate_comprehensive_traffic_score] from the network on *)

Module DetectorRun.

(** A JavaScript number that can be [NaN].  The count of
    [checkIndexingStatus] can be, and with it every number computed from
    it; the other probes answer numbers. *)
Inductive JsNumber : Type :=
| NaN
| Num (q : Q).

Definition of_JsInt (n : DetectorProbes.JsInt) : JsNumber :=
  match n with
  | DetectorProbes.NaN => NaN
  | DetectorProbes.Int z => Num (inject_Z z)
  end.

(** [x * y], [x + y] and [Math.min(x, y)] are [NaN] as soon as one argument
    is; [x > y] is then [false]. *)
Definition mul (x y : JsNumber) : JsNumber :=
  match x, y with
  | Num a, Num b => Num (a * b)
  | _, _ => NaN
  end.

Definition add (x y : JsNumber) : JsNumber :=
  match x, y with
  | Num a, Num b => Num (a + b)
  | _, _ => NaN
  end.

Definition Math_min (x y : JsNumber) : JsNumber :=
  match x, y with
  | Num a, Num b => Num (JS.Math_min a b)
  | _, _ => NaN
  end.

Definition gt (x y : JsNumber) : bool :=
  match x, y with
  | Num a, Num b => JS.gt a b
  | _, _ => false
  end.

(** What the network answers to the requests the five probes make for one
    domain: the CDX API, the search page, the three DNS lookups of
    [checkDnsMailConfiguration], and the two requests of the site itself. *)
Record Answers := mkAnswers {
  cdx : DetectorProbes.CdxResult;
  search : AdvancedTrafficDetector.AxiosResult;
  mx : option (list DetectorProbes.MxRecord);
  txt : option (list (list string));
  dmarc : option (list (list string));
  redirect : DetectorProbes.RedirectResult;
  page : AdvancedTrafficDetector.AxiosResult
}.

(** What the five probes resolve to (the destructured [Promise.all]). *)
Record Probed := mkProbed {
  archiveSnapshots : Q;
  archiveFrequency : Q;
  indexedPages : JsNumber;
  mailScore : Q;
  hasRedirect : bool;
  redirectUrl : option string;
  isParked : bool
}.

(** The [results] object. *)
Record Results := mkResults {
  archive_snapshots : Q;
  archive_frequency : Q;
  indexed_pages : JsNumber;
  mail_score : Q;
  has_redirect : bool;
  redirect_url : option string;
  is_parked : bool;
  traffic_score : JsNumber;
  estimated_traffic : Q;
  has_traffic : bool
}.

Section Calendar.
Variable dateOfParts : string -> string -> string -> TrafficAnalyzer.JsDate.
Variable oneYearBefore : Z -> Z.

(** Lines 178-190: the five probes; [now] is the [new Date()] of
    [checkArchiveFrequency]. *)
Definition probe_all (now : Z) (domain : string) (a : Answers) : Probed :=
  let '(archiveSnapshots, archiveFrequency) :=
    DetectorProbes.checkArchiveFrequency dateOfParts oneYearBefore now (cdx a) in
  let indexedPages := of_JsInt (DetectorProbes.checkIndexingStatus (search a)) in
  let mailScore :=
    DetectorProbes.checkDnsMailConfiguration (mx a) (txt a) (dmarc a) in
  let '(hasRedirect, redirectUrl) :=
    DetectorProbes.checkForActiveRedirects domain (redirect a) in
  let isParked := AdvancedTrafficDetector.checkForParkedDomainSigns (page a) in
  {| archiveSnapshots := archiveSnapshots;
     archiveFrequency := archiveFrequency;
     indexedPages := indexedPages;
     mailScore := mailScore;
     hasRedirect := hasRedirect;
     redirectUrl := redirectUrl;
     isParked := isParked |}.

(** Lines 201-226: the score. *)
Definition finalScore (p : Probed) : JsNumber :=
  let finalScore := Num 0 in
  let archiveScore :=
    add (Math_min (mul (Num (archiveSnapshots p)) (Num (3 # 2))) (Num 15))
        (Math_min (mul (Num (archiveFrequency p)) (Num 5)) (Num 10)) in
  let finalScore := add finalScore archiveScore in
  let indexingScore := Math_min (mul (indexedPages p) (Num (1 # 2))) (Num 30) in
  let finalScore := add finalScore indexingScore in
  let mailConfigScore := Math_min (mul (Num (mailScore p)) (Num 2)) (Num 25) in
  let finalScore := add finalScore mailConfigScore in
  let redirectScore := Num (if hasRedirect p then 10 else 0) in
  let finalScore := add finalScore redirectScore in
  let parkedScore := Num (if isParked p then 10 else 0) in
  let finalScore := add finalScore parkedScore in
  Math_min finalScore (Num 100).

(** Lines 229-241: the estimate; every comparison with [NaN] fails, so a
    score that is [NaN] takes the last branch. *)
Definition estimatedTraffic (rnd : Q) (finalScore : JsNumber) : Q :=
  if gt finalScore (Num 80) then JS.Math_floor (rnd * 15000) + 5000
  else if gt finalScore (Num 60) then JS.Math_floor (rnd * 4000) + 1000
  else if gt finalScore (Num 40) then JS.Math_floor (rnd * 900) + 100
  else if gt finalScore (Num 20) then JS.Math_floor (rnd * 90) + 10
  else JS.Math_floor (rnd * 10).

(** [calculate_comprehensive_traffic_score(domain)]; [rnd] is the
    [Math.random()] of the estimate. *)
Definition calculate_comprehensive_traffic_score (rnd : Q) (now : Z)
    (domain : string) (a : Answers) : Results :=
  let p := probe_all now domain a in
  let score := finalScore p in
  {| archive_snapshots := archiveSnapshots p;
     archive_frequency := archiveFrequency p;
     indexed_pages := indexedPages p;
     mail_score := mailScore p;
     has_redirect := hasRedirect p;
     redirect_url := redirectUrl p;
     is_parked := isParked p;
     traffic_score := score;
     estimated_traffic := estimatedTraffic rnd score;
     has_traffic := gt score (Num 10) |}.

End Calendar.

(** The answers of the probes as [AdvancedTrafficDetector.Probes], when all
    of them are numbers. *)
Definition numbers (p : Probed) : option AdvancedTrafficDetector.Probes :=
  match indexedPages p with
  | NaN => None
  | Num n =>
      Some {| AdvancedTrafficDetector.archiveSnapshots := archiveSnapshots p;
              AdvancedTrafficDetector.archiveFrequency := archiveFrequency p;
              AdvancedTrafficDetector.indexedPages := n;
              AdvancedTrafficDetector.mailScore := mailScore p;
              AdvancedTrafficDetector.hasRedirect := hasRedirect p;
              AdvancedTrafficDetector.redirectUrl := redirectUrl p;
              AdvancedTrafficDetector.isParked := isParked p |}
  end.

End DetectorRun.

(** ** [retryOperation] ([src/lib/supabase.ts]) *)

Module Retry.

(** What a rejected [operation()] throws: an [Error] with its message; a
    value that is no [Error] but has a text [message] (its [String(error)]
    is [text]); a value without [message]; or [null] / [undefined]. *)
Inductive thrown : Type :=
| ThrownError (message : string)
| ThrownObject (message : string) (text : string)
| ThrownValue (text : string)
| ThrownNullish.

(** What one call of [operation()] settles to. *)
Inductive attempt (T : Type) : Type :=
| Resolves (v : T)
| Rejects (error : thrown).
Arguments Resolves {T} v.
Arguments Rejects {T} error.

(** What [retryOperation] settles to: a value, a thrown [Error] by its
    message ([None] for [throw lastError] with [lastError] still [null]),
    or the [TypeError] of reading [message] off [null]. *)
Inductive settled (T : Type) : Type :=
| Fulfilled (v : T)
| RejectedWith (message : option string)
| RejectedTypeError.
Arguments Fulfilled {T} v.
Arguments RejectedWith {T} message.
Arguments RejectedTypeError {T}.

(** The message of [error instanceof Error ? error : new Error(String(error))]. *)
Definition lastError_message (error : thrown) : string :=
  match error with
  | ThrownError message => message
  | ThrownObject _ text => text
  | ThrownValue text => text
  | ThrownNullish => "null"
  end.

(** [error.message?.includes('timeout') || error.message?.includes('57014')] *)
Definition is_timeout (error : thrown) : bool :=
  match error with
  | ThrownError message | ThrownObject message _ =>
      JS.includes message "timeout" || JS.includes message "57014"
  | ThrownValue _ => false
  | ThrownNullish => false
  end.

Section Loop.
Context {T : Type}.
(** [operation k] is what the k-th call of [operation()] settles to. *)
Variable operation : nat -> attempt T.
Variable maxRetries : nat.
Variable delay : Z.

(** The [for] loop; [waited] lists the timeouts waited for so far. *)
Fixpoint retry_loop (fuel : nat) (attempt : nat) (lastError : option string)
    (waited : list Z) : option (settled T * list Z) :=
  match fuel with
  | O => None
  | S fuel' =>
      if (attempt <=? maxRetries)%nat then
        match operation attempt with
        | Resolves v => Some (Fulfilled v, waited)
        | Rejects ThrownNullish => Some (RejectedTypeError, waited)
        | Rejects error =>
            let lastError := Some (lastError_message error) in
            if is_timeout error
            then Some (RejectedWith (Some "Operation timed out. Please try again."),
                       waited)
            else if (attempt =? maxRetries)%nat
                 then Some (RejectedWith lastError, waited)
                 else retry_loop fuel' (attempt + 1)%nat lastError
                        (waited ++ [(delay * Z.of_nat attempt)%Z])
        end
      else Some (RejectedWith lastError, waited)
  end.

Definition retryOperation : option (settled T * list Z) :=
  retry_loop (S maxRetries) 1 None [].

(** The attempt is rejected with an error the loop retries after. *)
Definition retried (k : nat) : Prop :=
  exists error : thrown,
    operation k = Rejects error /\ error <> ThrownNullish /\
    is_timeout error = false.

End Loop.

(** The timeouts waited for before attempt [k]: [delay * 1 .. delay * (k-1)]. *)
Definition waits (delay : Z) (k : nat) : list Z :=
  List.map (fun j => (delay * Z.of_nat j)%Z) (List.seq 1 (k - 1)).

End Retry.

(** ** The events of [TrafficAnalyzer.analyzeDomain] *)

Module Progress.

(** The five events of the [try] block, in order, and the one of the
    [catch]. *)
Definition try_events : list TrafficAnalyzer.AnalysisProgress :=
  [ TrafficAnalyzer.mkProgress "start" "Starting domain analysis..." 0;
    TrafficAnalyzer.mkProgress "dns" "Checking domain status..." 25;
    TrafficAnalyzer.mkProgress "archive" "Checking archive history..." 50;
    TrafficAnalyzer.mkProgress "scoring" "Calculating traffic potential..." 75;
    TrafficAnalyzer.mkProgress "complete" "Analysis complete" 100 ].

Definition error_event : TrafficAnalyzer.AnalysisProgress :=
  TrafficAnalyzer.mkProgress "error" "Analysis failed" 100.

(** The callback throws on one of the events of [evs]. *)
Definition throws_on
    (cb : option (TrafficAnalyzer.AnalysisProgress -> TrafficAnalyzer.outcome unit))
    (evs : list TrafficAnalyzer.AnalysisProgress) : Prop :=
  exists f ev, cb = Some f /\ ev ∈ evs /\ f ev = TrafficAnalyzer.Throws.

End Progress.

(** ** One call of [analyze] after the other *)

Module Sequential.

(** The loop [analyzeBatch] is compared with; it is not in the sources.
    The names are analysed one at a time by [HybridAnalyzer.analyze], each
    call on the cache the one before left, [envs k] being what the call for
    the k-th name reads, counted from [i]. *)
Fixpoint analyze_each (envs : nat -> HybridAnalyzer.Env) (i : nat)
    (cache : gmap string DomainAnalysis) (domains : list string)
  : list DomainAnalysis * gmap string DomainAnalysis :=
  match domains with
  | [] => ([], cache)
  | d :: rest =>
      let '(analysis, cache1) := HybridAnalyzer.analyze cache (envs i) d in
      let '(results, cache2) := analyze_each envs (S i) cache1 rest in
      (analysis :: results, cache2)
  end.

(** Every call of the group that starts at [i] is listed in its arrival
    order. *)
Definition arrivals_complete (arrival : nat -> list nat) (n : nat) : Prop :=
  forall i k : nat, (i + k < n)%nat -> (k < HybridAnalyzer.BATCH_SIZE)%nat ->
                    k ∈ arrival i.

(** The name of a started call, and whether it is pending on the name [x]. *)
Definition started_name
    (c : HybridAnalyzer.Env * string * HybridAnalyzer.started) : string := c.1.2.

Definition pending_on (x : string)
    (c : HybridAnalyzer.Env * string * HybridAnalyzer.started) : bool :=
  match c with
  | (_, d, HybridAnalyzer.Pending _) => bool_decide (d = x)
  | (_, _, HybridAnalyzer.Cached _) => false
  end.

End Sequential.

(** ** The import loops ([scripts/importDomains.js], the scheduler) *)

Module Importer.

(** What one turn of the loop reads: whether the existence query fails
    (its [data] is then [null]), the answers of the probes and the jitter
    of the analysis, the instant of the insert, and whether the store
    refuses the insert for a reason of its own. *)
Record Turn := mkTurn {
  select_fails : bool;
  rnd : Q;
  probes : AdvancedTrafficDetector.Probes;
  now : Z;
  insert_fails : bool
}.

(** The row passed to [insert]; [social_mentions] and [web_presence] are
    read off the analysis, which has no such fields, and are left out of
    what is sent. *)
Definition insert_row (domain : string)
    (analysis : AdvancedTrafficDetector.Results) (now : Z)
  : gmap string Store.JsValue :=
  list_to_map
    [ ("domain"%string, Store.JsString domain);
      ("status"%string, Store.JsString "available");
      ("traffic_score"%string,
        Store.JsNumber (AdvancedTrafficDetector.traffic_score analysis));
      ("estimated_traffic"%string,
        Store.JsNumber (AdvancedTrafficDetector.estimated_traffic analysis));
      ("archive_snapshots"%string,
        Store.JsNumber (AdvancedTrafficDetector.archive_snapshots analysis));
      ("indexed_pages"%string,
        Store.JsNumber (AdvancedTrafficDetector.indexed_pages analysis));
      ("mail_score"%string,
        Store.JsNumber (AdvancedTrafficDetector.mail_score analysis));
      ("has_redirect"%string,
        Store.JsBool (AdvancedTrafficDetector.has_redirect analysis));
      ("redirect_url"%string,
        Store.of_option (AdvancedTrafficDetector.redirect_url analysis));
      ("is_parked"%string,
        Store.JsBool (AdvancedTrafficDetector.is_parked analysis));
      ("last_checked"%string, Store.JsInstant now) ].

(** [insert] into the table, whose [domain] column is unique: a row for a
    name that is there already is refused. *)
Definition insert (store : gmap string (gmap string Store.JsValue))
    (refused : bool) (domain : string) (row : gmap string Store.JsValue)
  : gmap string (gmap string Store.JsValue) :=
  match store !! domain with
  | Some _ => store
  | None => if refused then store else <[domain := row]> store
  end.

(** The body of the [for] loop for one name. *)
Definition import_one (store : gmap string (gmap string Store.JsValue))
    (t : Turn) (domain : string) : gmap string (gmap string Store.JsValue) :=
  let existing := if select_fails t then None else store !! domain in
  match existing with
  | Some _ => store
  | None =>
      let analysis :=
        AdvancedTrafficDetector.calculate_comprehensive_traffic_score
          (rnd t) (probes t) in
      insert store (insert_fails t) domain (insert_row domain analysis (now t))
  end.

(** The loop over the names, [turns k] being what the k-th turn reads,
    counted from [i]. *)
Fixpoint importDomains (turns : nat -> Turn) (i : nat)
    (store : gmap string (gmap string Store.JsValue)) (domains : list string)
  : gmap string (gmap string Store.JsValue) :=
  match domains with
  | [] => store
  | d :: rest => importDomains turns (S i) (import_one store (turns i) d) rest
  end.

(** No query and no insert of the pass fails. *)
Definition all_succeed (turns : nat -> Turn) : Prop :=
  forall k : nat, select_fails (turns k) = false /\ insert_fails (turns k) = false.

End Importer.

(** ** The bucket table of the specification (section 4.3) *)

(** [within x base j]: [x] is [base] plus a jitter in [0..j]. *)
Definition within (x : Q) (base j : Z) : Prop :=
  exists k : Z, (0 <= k <= j)%Z /\ x == inject_Z (base + k).

(** The table, row by row, for an estimate [est] of the score [s]. *)
Definition bucket_table (est s : Q) : Prop :=
  (90 <= s -> within est 15000 4999) /\
  (80 <= s < 90 -> within est 10000 4999) /\
  (70 <= s < 80 -> within est 5000 4999) /\
  (60 <= s < 70 -> within est 2000 2999) /\
  (50 <= s < 60 -> within est 1000 999) /\
  (40 <= s < 50 -> within est 500 499) /\
  (30 <= s < 40 -> within est 200 299) /\
  (20 <= s < 30 -> within est 50 149) /\
  (10 <= s < 20 -> within est 0 49) /\
  (s < 10 -> est == 0).

(** The five steps of the estimate inside
    [calculate_comprehensive_traffic_score]. *)
Definition detector_table (est s : Q) : Prop :=
  (80 < s -> within est 5000 14999) /\
  (60 < s <= 80 -> within est 1000 3999) /\
  (40 < s <= 60 -> within est 100 899) /\
  (20 < s <= 40 -> within est 10 89) /\
  (s <= 20 -> within est 0 9).

(** ** The lexical features of the specification (section 4.2) *)

Module Lexical.

(** [w] occurs in [d]. *)
Definition contains (d w : string) : Prop :=
  exists pre post : string, d = pre +:+ w +:+ post.

Definition all_digits (ds : string) : Prop :=
  Forall (fun c => JS.is_digit c = true) (list_ascii_of_string ds).

(** A 4-digit, year-like substring. *)
Definition has_year_pattern (d : string) : Prop :=
  exists ds : string,
    String.length ds = 4%nat /\ all_digits ds /\ contains d ds.

(** The name ends with a TLD of the allow-list. *)
Definition has_known_tld (d : string) : Prop :=
  exists t pre : string,
    t ∈ InstantTrafficAnalyzer.KNOWN_TLDS /\ d = pre +:+ t.

(** The number of dots of a name: its levels below the top one. *)
Fixpoint dots (d : string) : nat :=
  match d with
  | EmptyString => O
  | String c d' => if Ascii.eqb c "." then S (dots d') else dots d'
  end.

(** A feature that holds gives [v], one that does not gives nothing. *)
Definition contribution (P : Prop) (v x : Q) : Prop :=
  (P /\ x = v) \/ (~ P /\ x = 0).

(** [w] occurs in [body] in some letter case. *)
Definition contains_ci (body w : string) : Prop :=
  exists u : string, JS.toLowerCase u = JS.toLowerCase w /\ contains body u.

End Lexical.

(** ** Invariants of the cache of [HybridAnalyzer] *)

Module CacheInv.

(** Every cached record has its score in [0,100]. *)
Definition scores_in_range (cache : gmap string DomainAnalysis) : Prop :=
  forall (k : string) (c : DomainAnalysis),
    cache !! k = Some c -> 0 <= traffic_score c <= 100.

(** [r] is a record that an analysis of [d] ran to its end built. *)
Definition analysis_of (d : string) (r : DomainAnalysis) : Prop :=
  exists e : HybridAnalyzer.Env,
    r = HybridAnalyzer.analyze_resume e
          (InstantTrafficAnalyzer.analyze
             (HybridAnalyzer.rnd_traffic e) (HybridAnalyzer.now_instant e) d).

(** Every entry of the cache is an analysis of its key. *)
Definition well_keyed (cache : gmap string DomainAnalysis) : Prop :=
  forall (k : string) (c : DomainAnalysis),
    cache !! k = Some c -> analysis_of k c.

(** The status of every cached record is one of the two that
    [HybridAnalyzer] writes. *)
Definition statuses_known (cache : gmap string DomainAnalysis) : Prop :=
  forall (k : string) (c : DomainAnalysis),
    cache !! k = Some c ->
    status c = "registered"%string \/ status c = "available"%string.

End CacheInv.

(** ** Concrete inputs *)

(** A name without any signal: every probe answers its fallback. *)
Definition no_signal : AdvancedTrafficDetector.Probes :=
  {| AdvancedTrafficDetector.archiveSnapshots := 0;
     AdvancedTrafficDetector.archiveFrequency := 0;
     AdvancedTrafficDetector.indexedPages := 0;
     AdvancedTrafficDetector.mailScore := 0;
     AdvancedTrafficDetector.hasRedirect := false;
     AdvancedTrafficDetector.redirectUrl := None;
     AdvancedTrafficDetector.isParked := false |}.

(** One archive capture in the last year and nothing else:
    [checkArchiveFrequency] answers [[1, 1/12]]. *)
Definition one_capture : AdvancedTrafficDetector.Probes :=
  {| AdvancedTrafficDetector.archiveSnapshots := 1;
     AdvancedTrafficDetector.archiveFrequency := 1 # 12;
     AdvancedTrafficDetector.indexedPages := 0;
     AdvancedTrafficDetector.mailScore := 0;
     AdvancedTrafficDetector.hasRedirect := false;
     AdvancedTrafficDetector.redirectUrl := None;
     AdvancedTrafficDetector.isParked := false |}.

(** A sub-component below zero. *)
Definition negative_capture : AdvancedTrafficDetector.Probes :=
  {| AdvancedTrafficDetector.archiveSnapshots := - (10);
     AdvancedTrafficDetector.archiveFrequency := 0;
     AdvancedTrafficDetector.indexedPages := 0;
     AdvancedTrafficDetector.mailScore := 0;
     AdvancedTrafficDetector.hasRedirect := false;
     AdvancedTrafficDetector.redirectUrl := None;
     AdvancedTrafficDetector.isParked := false |}.

(** The calendar of the concrete runs (no timestamp is ever read in them). *)
Definition no_date (ts : string) : TrafficAnalyzer.JsDate := TrafficAnalyzer.InvalidDate.
Definition same_instant (now : Z) : Z := now.

(** Both probes of [TrafficAnalyzer] fail: the DNS request times out and the
    archive answers a non-ok status. *)
Definition all_probes_fail : TrafficAnalyzer.Env :=
  {| TrafficAnalyzer.onProgress := None;
     TrafficAnalyzer.dns_response := Net.NetworkError;
     TrafficAnalyzer.archive_response := Net.Response false None;
     TrafficAnalyzer.now_archive := 0;
     TrafficAnalyzer.now_score := 0;
     TrafficAnalyzer.rnd := 1 # 2;
     TrafficAnalyzer.now_return := 0 |}.

(** The name resolves (one A record); the archive does not answer. *)
Definition resolving : TrafficAnalyzer.Env :=
  {| TrafficAnalyzer.onProgress := None;
     TrafficAnalyzer.dns_response :=
       Net.Response true (Some (Net.DnsObject (Some [1%Z])));
     TrafficAnalyzer.archive_response := Net.NetworkError;
     TrafficAnalyzer.now_archive := 0;
     TrafficAnalyzer.now_score := 0;
     TrafficAnalyzer.rnd := 1 # 2;
     TrafficAnalyzer.now_return := 0 |}.

(** A callback that throws on every event. *)
Definition throwing : TrafficAnalyzer.Env :=
  {| TrafficAnalyzer.onProgress := Some (fun _ => TrafficAnalyzer.Throws);
     TrafficAnalyzer.dns_response := Net.NetworkError;
     TrafficAnalyzer.archive_response := Net.NetworkError;
     TrafficAnalyzer.now_archive := 0;
     TrafficAnalyzer.now_score := 0;
     TrafficAnalyzer.rnd := 1 # 2;
     TrafficAnalyzer.now_return := 0 |}.

(** A callback that throws on 'start' only. *)
Definition throwing_at_start : TrafficAnalyzer.Env :=
  {| TrafficAnalyzer.onProgress :=
       Some (fun ev => if String.eqb (TrafficAnalyzer.step ev) "start"
                       then TrafficAnalyzer.Throws
                       else TrafficAnalyzer.Returns tt);
     TrafficAnalyzer.dns_response :=
       Net.Response true (Some (Net.DnsObject (Some [1%Z])));
     TrafficAnalyzer.archive_response := Net.NetworkError;
     TrafficAnalyzer.now_archive := 0;
     TrafficAnalyzer.now_score := 0;
     TrafficAnalyzer.rnd := 1 # 2;
     TrafficAnalyzer.now_return := 0 |}.

(** Two runs of [HybridAnalyzer.analyze] with the same jitter: a name that
    does not resolve, and one that does. *)
Definition dns_silent : HybridAnalyzer.Env :=
  {| HybridAnalyzer.now_lookup := 0;
     HybridAnalyzer.rnd_traffic := 1 # 2;
     HybridAnalyzer.now_instant := 0;
     HybridAnalyzer.dns_response := Net.NetworkError;
     HybridAnalyzer.rnd_archive := 0;
     HybridAnalyzer.rnd_indexed := 0;
     HybridAnalyzer.rnd_social := 0;
     HybridAnalyzer.rnd_web := 0;
     HybridAnalyzer.now_final := 0 |}.

Definition dns_active : HybridAnalyzer.Env :=
  {| HybridAnalyzer.now_lookup := 0;
     HybridAnalyzer.rnd_traffic := 1 # 2;
     HybridAnalyzer.now_instant := 0;
     HybridAnalyzer.dns_response :=
       Net.Response true (Some (Net.DnsObject (Some [1%Z])));
     HybridAnalyzer.rnd_archive := 0;
     HybridAnalyzer.rnd_indexed := 0;
     HybridAnalyzer.rnd_social := 0;
     HybridAnalyzer.rnd_web := 0;
     HybridAnalyzer.now_final := 0 |}.

(** Three behaviours of an operation handed to [retryOperation]: two
    connection errors and then a value; a connection error and then a
    statement timeout of the store; connection errors only. *)
Definition flaky (k : nat) : Retry.attempt Z :=
  if (k <? 3)%nat then Retry.Rejects (Retry.ThrownError "connection reset")
  else Retry.Resolves 7%Z.

Definition timing_out (k : nat) : Retry.attempt Z :=
  if (k <? 2)%nat then Retry.Rejects (Retry.ThrownError "connection reset")
  else Retry.Rejects
         (Retry.ThrownObject "canceling statement due to statement timeout"
            "[object Object]").

Definition always_down (k : nat) : Retry.attempt Z :=
  Retry.Rejects (Retry.ThrownError "connection reset").

(** A turn of the import loop in which nothing fails, and a store with one
    row. *)
Definition quiet_turn : Importer.Turn :=
  {| Importer.select_fails := false;
     Importer.rnd := 1 # 2;
     Importer.probes := no_signal;
     Importer.now := 0;
     Importer.insert_fails := false |}.

Definition old_row : gmap string Store.JsValue :=
  {[ "domain"%string := Store.JsString "old.com" ]}.

Definition one_row : gmap string (gmap string Store.JsValue) :=
  {[ "old.com"%string := old_row ]}.

(** The k-th call of a batch reads k o'clock and gets a DNS answer. *)
Definition numbered (k : nat) : HybridAnalyzer.Env :=
  {| HybridAnalyzer.now_lookup := Z.of_nat k;
     HybridAnalyzer.rnd_traffic := 1 # 2;
     HybridAnalyzer.now_instant := Z.of_nat k;
     HybridAnalyzer.dns_response :=
       Net.Response true (Some (Net.DnsObject (Some [1%Z])));
     HybridAnalyzer.rnd_archive := 0;
     HybridAnalyzer.rnd_indexed := 0;
     HybridAnalyzer.rnd_social := 0;
     HybridAnalyzer.rnd_web := 0;
     HybridAnalyzer.now_final := Z.of_nat k |}.

(** A calendar in which every timestamp reads as the epoch and three months
    are ninety days, and a name that resolves to an A record and has an
    available capture. *)
Definition epoch_date (ts : string) : TrafficAnalyzer.JsDate :=
  TrafficAnalyzer.DateAt 0.
Definition ninety_days_before (now : Z) : Z := (now - 7776000000)%Z.

Definition archived_site : TrafficAnalyzer.Env :=
  {| TrafficAnalyzer.onProgress := None;
     TrafficAnalyzer.dns_response :=
       Net.Response true (Some (Net.DnsObject (Some [1%Z])));
     TrafficAnalyzer.archive_response :=
       Net.Response true
         (Some (TrafficAnalyzer.ArchiveObject
                  (Some {| TrafficAnalyzer.closest :=
                             Some {| TrafficAnalyzer.timestamp := Some "19700101000000";
                                     TrafficAnalyzer.available := true |} |})));
     TrafficAnalyzer.now_archive := 0;
     TrafficAnalyzer.now_score := 0;
     TrafficAnalyzer.rnd := 1 # 2;
     TrafficAnalyzer.now_return := 0 |}.

(** A name that no probe reaches, except that the search page shows a
    count made of commas only. *)
Definition count_without_digits : DetectorRun.Answers :=
  {| DetectorRun.cdx := DetectorProbes.CdxError;
     DetectorRun.search :=
       AdvancedTrafficDetector.AxiosResponse 200 (Some "About ,,, results");
     DetectorRun.mx := None;
     DetectorRun.txt := None;
     DetectorRun.dmarc := None;
     DetectorRun.redirect := DetectorProbes.RedirectError;
     DetectorRun.page := AdvancedTrafficDetector.AxiosError |}.

(** The calendar of the concrete runs of the detector (no timestamp is read
    in them). *)
Definition no_parts (year month day : string) : TrafficAnalyzer.JsDate :=
  TrafficAnalyzer.InvalidDate.

(** * Properties *)

(** ** Numbers *)

Lemma ge_true (a b : Q) : JS.ge a b = true -> b <= a.
Proof. unfold JS.ge. apply Qle_bool_iff. Qed.

Lemma ge_false (a b : Q) : JS.ge a b = false -> a < b.
Proof.
  unfold JS.ge. intros H. apply Qnot_le_lt. intros Hle.
  apply Qle_bool_iff in Hle. congruence.
Qed.

Lemma gt_true (a b : Q) : JS.gt a b = true -> b < a.
Proof.
  unfold JS.gt. intros H. apply negb_true_iff in H.
  apply Qnot_le_lt. intros Hle. apply Qle_bool_iff in Hle. congruence.
Qed.

Lemma gt_false (a b : Q) : JS.gt a b = false -> a <= b.
Proof.
  unfold JS.gt. intros H. apply negb_false_iff in H. now apply Qle_bool_iff.
Qed.

Lemma le_true (a b : Q) : JS.le a b = true -> a <= b.
Proof. unfold JS.le. apply Qle_bool_iff. Qed.

Lemma Math_min_le_l (a b : Q) : JS.Math_min a b <= a.
Proof. apply Q.le_min_l. Qed.

Lemma Math_min_le_r (a b : Q) : JS.Math_min a b <= b.
Proof. apply Q.le_min_r. Qed.

Lemma Math_min_glb (a b c : Q) : c <= a -> c <= b -> c <= JS.Math_min a b.
Proof. apply Q.min_glb. Qed.

Lemma Math_max_lub (a b c : Q) : a <= c -> b <= c -> JS.Math_max a b <= c.
Proof. apply Q.max_lub. Qed.

Lemma Math_max_ge_l (a b : Q) : a <= JS.Math_max a b.
Proof. apply Q.le_max_l. Qed.

(** [Math.floor(rnd * n)] for [rnd] in [0,1) is one of [0..n-1]. *)
Lemma Math_floor_jitter (rnd : Q) (n : positive) :
  0 <= rnd -> rnd < 1 ->
  exists k : Z, (0 <= k <= Z.pos n - 1)%Z /\
                JS.Math_floor (rnd * (Z.pos n # 1)) = inject_Z k.
Proof.
  intros H0 H1. exists (Qfloor (rnd * (Z.pos n # 1))). split; [|reflexivity].
  assert (Hn : 0 < Z.pos n # 1) by reflexivity.
  split.
  - change 0%Z with (Qfloor 0). apply Qfloor_resp_le.
    apply Qmult_le_0_compat; [exact H0 | now apply Qlt_le_weak].
  - assert (Hlt : (Qfloor (rnd * (Z.pos n # 1)) < Z.pos n)%Z); [|lia].
    rewrite Zlt_Qlt. eapply Qle_lt_trans; [apply Qfloor_le|].
    change (inject_Z (Z.pos n)) with (Z.pos n # 1).
    apply Qlt_le_trans with (1 * (Z.pos n # 1)).
    + now apply Qmult_lt_r.
    + rewrite Qmult_1_l. apply Qle_refl.
Qed.

(** Conversely every one of [0..n-1] is the floor for some [rnd] in [0,1):
    the jitter ranges of the estimators are exact. *)
Lemma Math_floor_jitter_attained (n : positive) (k : Z) :
  (0 <= k < Z.pos n)%Z ->
  exists rnd : Q,
    0 <= rnd /\ rnd < 1 /\ JS.Math_floor (rnd * (Z.pos n # 1)) = inject_Z k.
Proof.
  intros [Hk0 Hkn]. exists (k # n). split; [|split].
  - unfold Qle. cbn. lia.
  - unfold Qlt. cbn. lia.
  - unfold JS.Math_floor. f_equal.
    rewrite (Qfloor_comp _ (inject_Z k)); [apply Qfloor_Z|].
    unfold Qeq, inject_Z. cbn. lia.
Qed.

Lemma Math_floor_nonneg (x : Q) : 0 <= x -> 0 <= JS.Math_floor x.
Proof.
  intros H. unfold JS.Math_floor. change 0 with (inject_Z 0).
  rewrite <- Zle_Qle. change 0%Z with (Qfloor 0). now apply Qfloor_resp_le.
Qed.

Lemma Math_round_nonneg (x : Q) : 0 <= x -> 0 <= JS.Math_round x.
Proof.
  intros H. unfold JS.Math_round. change 0 with (inject_Z 0).
  rewrite <- Zle_Qle. change 0%Z with (Qfloor 0). apply Qfloor_resp_le. lra.
Qed.

(** Rounding an [x <= n] with [n] an integer stays [<= n]. *)
Lemma Math_round_le (x : Q) (n : Z) : x <= inject_Z n -> JS.Math_round x <= inject_Z n.
Proof.
  intros H. unfold JS.Math_round. rewrite <- Zle_Qle.
  assert (Hlt : (Qfloor (x + (1 # 2)) < n + 1)%Z); [|lia].
  rewrite Zlt_Qlt. eapply Qle_lt_trans; [apply Qfloor_le|].
  rewrite inject_Z_plus. change (inject_Z 1) with 1. lra.
Qed.

(** Splits on every comparison of a cascade of [if]s. *)
Ltac js_cases :=
  repeat match goal with
    | |- context [JS.ge ?a ?b] =>
        let E := fresh "E" in
        destruct (JS.ge a b) eqn:E;
        [apply ge_true in E | apply ge_false in E]
    | |- context [JS.gt ?a ?b] =>
        let E := fresh "E" in
        destruct (JS.gt a b) eqn:E;
        [apply gt_true in E | apply gt_false in E]
    end.

(** One row of a table: impossible bounds, or base plus a floor. *)
Ltac table_row H0 H1 :=
  let Hs := fresh "Hs" in
  intros Hs;
  first
    [ exfalso; lra
    | reflexivity
    | match goal with
      | |- within ?x _ _ =>
          match x with
          | context [JS.Math_floor (_ * (Z.pos ?n # 1))] =>
              let k := fresh "k" in
              let Hk := fresh "Hk" in
              let Ek := fresh "Ek" in
              destruct (Math_floor_jitter _ n H0 H1) as [k [Hk Ek]];
              rewrite Ek; exists k; split;
              [ lia | rewrite inject_Z_plus; ring ]
          end
      end ].

(** ** The traffic estimators *)

Lemma TrafficAnalyzer_estimateTraffic_table (rnd s : Q) :
  0 <= rnd -> rnd < 1 -> bucket_table (TrafficAnalyzer.estimateTraffic rnd s) s.
Proof.
  intros H0 H1. unfold TrafficAnalyzer.estimateTraffic, bucket_table.
  js_cases; repeat split; table_row H0 H1.
Qed.

Lemma Instant_estimateTraffic_table (rnd s : Q) :
  0 <= rnd -> rnd < 1 -> bucket_table (InstantTrafficAnalyzer.estimateTraffic rnd s) s.
Proof.
  intros H0 H1. unfold InstantTrafficAnalyzer.estimateTraffic, bucket_table.
  js_cases; repeat split; table_row H0 H1.
Qed.

Lemma detector_estimatedTraffic_table (rnd s : Q) :
  0 <= rnd -> rnd < 1 ->
  detector_table (AdvancedTrafficDetector.estimatedTraffic rnd s) s.
Proof.
  intros H0 H1. unfold AdvancedTrafficDetector.estimatedTraffic, detector_table.
  js_cases; repeat split; table_row H0 H1.
Qed.

(** ** Strings *)

Lemma startsWith_iff (s p : string) :
  JS.startsWith s p = true <-> exists post : string, s = p +:+ post.
Proof.
  revert s. induction p as [|a p IH]; intros s.
  - split; [intros _; now exists s | intros _; now destruct s].
  - destruct s as [|b s]; simpl.
    + split; [discriminate | intros [post H]; discriminate].
    + rewrite andb_true_iff, IH, Ascii.eqb_eq. split.
      * intros [-> [post ->]]. now exists post.
      * intros [post H]. injection H as -> ->. split; [reflexivity | now exists post].
Qed.

Lemma includes_iff (s sub : string) :
  JS.includes s sub = true <-> Lexical.contains s sub.
Proof.
  unfold Lexical.contains. induction s as [|c s IH]; cbn [JS.includes].
  - rewrite orb_false_r, startsWith_iff. split.
    + intros [post H]. now exists EmptyString, post.
    + intros [[|c pre] [post H]]; [now exists post | discriminate].
  - rewrite orb_true_iff, IH, startsWith_iff. split.
    + intros [[post H] | [pre [post H]]].
      * now exists EmptyString, post.
      * exists (String c pre), post. simpl. now rewrite H.
    + intros [[|c' pre] [post H]].
      * left. now exists post.
      * right. simpl in H. injection H as -> ->. now exists pre, post.
Qed.

Lemma endsWith_iff (s suf : string) :
  JS.endsWith s suf = true <-> exists pre : string, s = pre +:+ suf.
Proof.
  induction s as [|c s IH]; cbn [JS.endsWith].
  - rewrite orb_false_r, String.eqb_eq. split.
    + intros <-. now exists EmptyString.
    + intros [[|c pre] H]; [exact H | discriminate].
  - rewrite orb_true_iff, IH, String.eqb_eq. split.
    + intros [<- | [pre ->]]; [now exists EmptyString | now exists (String c pre)].
    + intros [[|c' pre] H].
      * now left.
      * right. simpl in H. injection H as -> ->. now exists pre.
Qed.

Lemma digits_at_iff (n : nat) (s : string) :
  JS.digits_at n s = true <->
  exists ds post : string,
    String.length ds = n /\ Lexical.all_digits ds /\ s = ds +:+ post.
Proof.
  unfold Lexical.all_digits. revert s. induction n as [|n IH]; intros s; simpl.
  - split; [|reflexivity]. intros _. exists EmptyString, s.
    repeat split. constructor.
  - destruct s as [|c s].
    + split; [discriminate|].
      intros [[|d ds] [post [Hl [_ H]]]]; discriminate.
    + rewrite andb_true_iff, IH. split.
      * intros [Hc [ds [post [Hl [Hd ->]]]]]. exists (String c ds), post.
        simpl. repeat split; [now rewrite Hl | now constructor].
      * intros [[|d ds] [post [Hl [Hd H]]]]; [discriminate|].
        simpl in *. injection H as -> ->. inversion Hd; subst. split; [assumption|].
        exists ds, post. repeat split; [congruence | assumption].
Qed.

Lemma test_digits_iff (s : string) :
  JS.test_digits 4 s = true <-> Lexical.has_year_pattern s.
Proof.
  unfold Lexical.has_year_pattern, Lexical.contains.
  induction s as [|c s IH].
  - cbn [JS.test_digits]. rewrite orb_false_r, digits_at_iff. split.
    + intros [ds [post [Hl [Hd H]]]]. exists ds. repeat split; try assumption.
      now exists EmptyString, post.
    + intros [ds [Hl [Hd [[|c pre] [post H]]]]]; [|discriminate].
      now exists ds, post.
  - cbn [JS.test_digits]. rewrite orb_true_iff, IH, digits_at_iff. split.
    + intros [[ds [post [Hl [Hd H]]]] | [ds [Hl [Hd [pre [post H]]]]]].
      * exists ds. repeat split; try assumption. now exists EmptyString, post.
      * exists ds. repeat split; try assumption.
        exists (String c pre), post. simpl. now rewrite H.
    + intros [ds [Hl [Hd [[|c' pre] [post H]]]]].
      * left. now exists ds, post.
      * right. simpl in H. injection H as -> ->. exists ds.
        repeat split; try assumption. now exists pre, post.
Qed.

Lemma some_iff {A} (p : A -> bool) (xs : list A) :
  JS.some p xs = true <-> exists x, x ∈ xs /\ p x = true.
Proof.
  unfold JS.some. rewrite existsb_exists.
  split; intros [x [Hin Hp]]; exists x; split; try assumption;
    now apply list_elem_of_In.
Qed.

Lemma known_tld_iff (d : string) :
  JS.some (fun t => JS.endsWith d t) InstantTrafficAnalyzer.KNOWN_TLDS = true <->
  Lexical.has_known_tld d.
Proof.
  unfold Lexical.has_known_tld. rewrite some_iff. split.
  - intros [t [Hin H]]. apply endsWith_iff in H as [pre ->]. now exists t, pre.
  - intros [t [pre [Hin ->]]]. exists t. split; [assumption|].
    apply endsWith_iff. now exists pre.
Qed.

Lemma split_length (s : string) :
  List.length (JS.split "." s) = S (Lexical.dots s).
Proof.
  induction s as [|c s IH]; [reflexivity|]. simpl.
  destruct (Ascii.eqb c "."); simpl; [now rewrite IH|].
  destruct (JS.split "." s); simpl in *; [discriminate | exact IH].
Qed.

Lemma toLowerCase_app (u v : string) :
  JS.toLowerCase (u +:+ v) = JS.toLowerCase u +:+ JS.toLowerCase v.
Proof. induction u as [|c u IH]; simpl; [reflexivity | now rewrite IH]. Qed.

(** A lowered text splits where its original does. *)
Lemma toLowerCase_split (s a b : string) :
  JS.toLowerCase s = a +:+ b ->
  exists u v : string,
    s = u +:+ v /\ JS.toLowerCase u = a /\ JS.toLowerCase v = b.
Proof.
  revert s. induction a as [|c a IH]; intros s H; simpl in H.
  - now exists EmptyString, s.
  - destruct s as [|d s]; [discriminate|]. simpl in H. injection H as Hc H.
    destruct (IH s H) as [u [v [-> [Hu Hv]]]].
    exists (String d u), v. simpl. now rewrite Hc, Hu.
Qed.

(** Matching the lowered body against a lower-case phrase is matching the
    body in any letter case. *)
Lemma includes_toLowerCase (body sign : string) :
  JS.toLowerCase sign = sign ->
  JS.includes (JS.toLowerCase body) sign = true <-> Lexical.contains_ci body sign.
Proof.
  intros Hsign. rewrite includes_iff. unfold Lexical.contains_ci, Lexical.contains.
  rewrite Hsign. split.
  - intros [pre [post H]].
    apply toLowerCase_split in H as [u [v [-> [Hu Hv]]]].
    apply toLowerCase_split in Hv as [w [z [-> [Hw Hz]]]].
    exists w. split; [assumption | now exists u, z].
  - intros [w [Hw [pre [post ->]]]].
    exists (JS.toLowerCase pre), (JS.toLowerCase post).
    now rewrite !toLowerCase_app, Hw.
Qed.

Lemma append_assoc (a b c : string) : (a +:+ b) +:+ c = a +:+ (b +:+ c).
Proof.
  induction a as [|x a IH]; [reflexivity|].
  change (String x ((a +:+ b) +:+ c) = String x (a +:+ (b +:+ c))).
  now rewrite IH.
Qed.

Lemma contains_trans (s a b : string) :
  Lexical.contains s a -> Lexical.contains a b -> Lexical.contains s b.
Proof.
  intros [p1 [q1 ->]] [p2 [q2 ->]]. exists (p1 +:+ p2), (q2 +:+ q1).
  now rewrite !append_assoc.
Qed.

Lemma parkingSigns_lower (sign : string) :
  sign ∈ AdvancedTrafficDetector.parkingSigns -> JS.toLowerCase sign = sign.
Proof.
  unfold AdvancedTrafficDetector.parkingSigns. intros H.
  repeat (apply elem_of_cons in H as [-> | H]; [reflexivity|]).
  now apply elem_of_nil in H.
Qed.

Lemma checkForParkedDomainSigns_iff (body : string) :
  AdvancedTrafficDetector.checkForParkedDomainSigns
    (AdvancedTrafficDetector.AxiosResponse 200 (Some body)) = true <->
  exists sign : string,
    sign ∈ AdvancedTrafficDetector.parkingSigns /\ Lexical.contains_ci body sign.
Proof.
  cbn [AdvancedTrafficDetector.checkForParkedDomainSigns Z.eqb Pos.eqb].
  rewrite some_iff. split; intros [sign [Hin H]]; exists sign; (split; [exact Hin|]).
  - now apply includes_toLowerCase in H; [|apply parkingSigns_lower].
  - now apply includes_toLowerCase; [apply parkingSigns_lower|].
Qed.

(** ** The heuristic lexical scorer *)

(** C7. [InstantTrafficAnalyzer.estimateScore] reads nothing but the name.
    Its six components are: [yearPattern] = 10 exactly when the name has four
    consecutive digits; [tld] = 20 exactly when it ends with one of
    [.com .net .org .io]; [length] = 15 exactly when it is shorter than 15
    characters; [subdomains] = -10 exactly when it has more than one dot
    (more than two labels); [shopKeyword] and [blogKeyword] = 5 exactly when
    it contains "shop", "blog"; each is 0 otherwise.  The score is their sum
    clamped to [0,100], and "myshop2024.com" scores 10 + 20 + 15 + 5 = 50. *)
Theorem estimateScore_lexical :
  (forall d : string,
     let yr := InstantTrafficAnalyzer.yearPattern d in
     let tl := InstantTrafficAnalyzer.tld d in
     let ln := InstantTrafficAnalyzer.length_bonus d in
     let sb := InstantTrafficAnalyzer.subdomains d in
     let sh := InstantTrafficAnalyzer.shopKeyword d in
     let bl := InstantTrafficAnalyzer.blogKeyword d in
     Lexical.contribution (Lexical.has_year_pattern d) 10 yr /\
     Lexical.contribution (Lexical.has_known_tld d) 20 tl /\
     Lexical.contribution (String.length d < 15)%nat 15 ln /\
     Lexical.contribution (1 < Lexical.dots d)%nat (- (10)) sb /\
     Lexical.contribution (Lexical.contains d "shop") 5 sh /\
     Lexical.contribution (Lexical.contains d "blog") 5 bl /\
     InstantTrafficAnalyzer.estimateScore d ==
       JS.Math_max 0 (JS.Math_min (yr + tl + ln + sb + sh + bl) 100) /\
     0 <= InstantTrafficAnalyzer.estimateScore d <= 100) /\
  (InstantTrafficAnalyzer.yearPattern "myshop2024.com" = 10 /\
   InstantTrafficAnalyzer.tld "myshop2024.com" = 20 /\
   InstantTrafficAnalyzer.length_bonus "myshop2024.com" = 15 /\
   InstantTrafficAnalyzer.subdomains "myshop2024.com" = 0 /\
   InstantTrafficAnalyzer.shopKeyword "myshop2024.com" = 5 /\
   InstantTrafficAnalyzer.blogKeyword "myshop2024.com" = 0 /\
   InstantTrafficAnalyzer.estimateScore "myshop2024.com" = 50).
Proof.
  split; [|repeat split; reflexivity].
  intros d. cbv zeta. unfold Lexical.contribution. repeat split.
  - unfold InstantTrafficAnalyzer.yearPattern.
    destruct (JS.test_digits 4 d) eqn:E; [left | right]; (split; [|reflexivity]).
    + now apply test_digits_iff.
    + intros H. apply test_digits_iff in H. congruence.
  - unfold InstantTrafficAnalyzer.tld.
    destruct (JS.some _ _) eqn:E; [left | right]; (split; [|reflexivity]).
    + now apply known_tld_iff.
    + intros H. apply known_tld_iff in H. congruence.
  - unfold InstantTrafficAnalyzer.length_bonus.
    destruct (String.length d <? 15)%nat eqn:E; [left | right];
      (split; [|reflexivity]).
    + now apply Nat.ltb_lt.
    + now apply Nat.ltb_ge, Nat.le_ngt in E.
  - unfold InstantTrafficAnalyzer.subdomains. rewrite split_length.
    destruct (2 <? S (Lexical.dots d))%nat eqn:E; [left | right];
      (split; [|reflexivity]).
    + apply Nat.ltb_lt in E. lia.
    + apply Nat.ltb_ge in E. lia.
  - unfold InstantTrafficAnalyzer.shopKeyword.
    destruct (JS.includes d "shop") eqn:E; [left | right]; (split; [|reflexivity]).
    + now apply includes_iff.
    + intros H. apply includes_iff in H. congruence.
  - unfold InstantTrafficAnalyzer.blogKeyword.
    destruct (JS.includes d "blog") eqn:E; [left | right]; (split; [|reflexivity]).
    + now apply includes_iff.
    + intros H. apply includes_iff in H. congruence.
  - unfold InstantTrafficAnalyzer.estimateScore, InstantTrafficAnalyzer.yearPattern,
      InstantTrafficAnalyzer.tld, InstantTrafficAnalyzer.length_bonus,
      InstantTrafficAnalyzer.subdomains, InstantTrafficAnalyzer.shopKeyword,
      InstantTrafficAnalyzer.blogKeyword.
    destruct (JS.test_digits 4 d), (JS.some _ _), (String.length d <? 15)%nat,
      (2 <? _)%nat, (JS.includes d "shop"), (JS.includes d "blog");
      vm_compute; reflexivity.
  - apply Math_max_ge_l.
  - apply Math_max_lub; [lra | apply Math_min_le_r].
Qed.

(** ** Parking detection *)

(** C8. On a fetched page (status 200, a text body),
    [checkForParkedDomainSigns] answers [true] exactly when the body contains
    one of the ten parking phrases in some letter case; in particular a body
    containing "This domain is for sale" in any letter case is parked, and a
    body containing none of the phrases is not. *)
Theorem parking_detection :
  (forall body : string,
     AdvancedTrafficDetector.checkForParkedDomainSigns
       (AdvancedTrafficDetector.AxiosResponse 200 (Some body)) = true <->
     exists sign : string,
       sign ∈ AdvancedTrafficDetector.parkingSigns /\
       Lexical.contains_ci body sign) /\
  (forall body : string,
     Lexical.contains_ci body "This domain is for sale" ->
     AdvancedTrafficDetector.checkForParkedDomainSigns
       (AdvancedTrafficDetector.AxiosResponse 200 (Some body)) = true) /\
  (forall body : string,
     (forall sign : string,
        sign ∈ AdvancedTrafficDetector.parkingSigns ->
        ~ Lexical.contains_ci body sign) ->
     AdvancedTrafficDetector.checkForParkedDomainSigns
       (AdvancedTrafficDetector.AxiosResponse 200 (Some body)) = false).
Proof.
  split; [exact checkForParkedDomainSigns_iff|]. split.
  - intros body [u [Hu Hc]]. apply checkForParkedDomainSigns_iff.
    exists "domain is for sale"%string. split.
    + unfold AdvancedTrafficDetector.parkingSigns. apply elem_of_cons. now left.
    + apply includes_toLowerCase; [reflexivity|].
      assert (Hb : JS.includes (JS.toLowerCase body)
                     (JS.toLowerCase "This domain is for sale") = true).
      { apply includes_toLowerCase; [reflexivity|].
        exists u. split; [exact Hu | exact Hc]. }
      apply includes_iff. apply includes_iff in Hb.
      apply (contains_trans _ _ _ Hb).
      now exists "this "%string, ""%string.
  - intros body Hnone.
    destruct (AdvancedTrafficDetector.checkForParkedDomainSigns _) eqn:E;
      [|reflexivity].
    apply checkForParkedDomainSigns_iff in E as [sign [Hin Hc]].
    now destruct (Hnone sign Hin).
Qed.

Lemma parking_detection_witness :
  AdvancedTrafficDetector.checkForParkedDomainSigns
    (AdvancedTrafficDetector.AxiosResponse 200
       (Some "<h1>THIS Domain Is For SALE</h1>"%string)) = true.
Proof.
  apply (proj1 (proj2 parking_detection)).
  exists "THIS Domain Is For SALE"%string. split; [reflexivity|].
  exists "<h1>"%string, "</h1>"%string. reflexivity.
Defined.

(** The probe's fallbacks: a rejected request, a status other than 200 or a
    body that is not text give [false]. *)
Lemma checkForParkedDomainSigns_fallback (status : Z) (data : option string) :
  AdvancedTrafficDetector.checkForParkedDomainSigns
    AdvancedTrafficDetector.AxiosError = false /\
  (status <> 200%Z ->
   AdvancedTrafficDetector.checkForParkedDomainSigns
     (AdvancedTrafficDetector.AxiosResponse status data) = false) /\
  AdvancedTrafficDetector.checkForParkedDomainSigns
    (AdvancedTrafficDetector.AxiosResponse 200 None) = false.
Proof.
  repeat split. intros H. simpl.
  destruct (Z.eqb_spec status 200); [contradiction | reflexivity].
Qed.

(** ** The instant analysis *)

(** C10. [InstantTrafficAnalyzer.analyze] answers, for every name, a record
    whose status is 'available' and whose network-signal fields are at their
    defaults; [domain], [traffic_score], [estimated_traffic] and
    [last_checked] are the name, its lexical score, the estimate for that
    score and the instant of the call. *)
Theorem instant_analyze_defaults (rnd : Q) (now : Z) (d : string) :
  let r := InstantTrafficAnalyzer.analyze rnd now d in
  status r = "available"%string /\
  archive_snapshots r = 0 /\
  indexed_pages r = 0 /\
  social_mentions r = 0 /\
  web_presence r = 0 /\
  mail_score r = 0 /\
  has_redirect r = false /\
  redirect_url r = None /\
  is_parked r = false /\
  domain r = d /\
  traffic_score r = InstantTrafficAnalyzer.estimateScore d /\
  estimated_traffic r =
    InstantTrafficAnalyzer.estimateTraffic rnd (InstantTrafficAnalyzer.estimateScore d) /\
  last_checked r = now.
Proof. repeat split. Qed.

(** ** The traffic estimate, table by table *)

(** C4 (amended). With a jitter source in [0,1), the estimators
    [TrafficAnalyzer.estimateTraffic] and
    [InstantTrafficAnalyzer.estimateTraffic] follow the ten-row table of the
    specification for every score; the estimate inside
    [calculate_comprehensive_traffic_score] follows its own five steps:
    above 80: 5000+[0..14999], above 60: 1000+[0..3999], above 40:
    100+[0..899], above 20: 10+[0..89], else [0..9]. *)
Theorem estimators_tables (rnd s : Q) :
  0 <= rnd -> rnd < 1 ->
  bucket_table (TrafficAnalyzer.estimateTraffic rnd s) s /\
  bucket_table (InstantTrafficAnalyzer.estimateTraffic rnd s) s /\
  detector_table (AdvancedTrafficDetector.estimatedTraffic rnd s) s.
Proof.
  intros H0 H1. split; [|split].
  - now apply TrafficAnalyzer_estimateTraffic_table.
  - now apply Instant_estimateTraffic_table.
  - now apply detector_estimatedTraffic_table.
Qed.

Lemma estimators_tables_witness :
  bucket_table (TrafficAnalyzer.estimateTraffic (1 # 2) 95) 95 /\
  bucket_table (InstantTrafficAnalyzer.estimateTraffic (1 # 2) 95) 95 /\
  detector_table (AdvancedTrafficDetector.estimatedTraffic (1 # 2) 95) 95.
Proof. apply (estimators_tables (1 # 2) 95); lra. Defined.

(** C4, as stated, fails on [calculate_comprehensive_traffic_score]: with no
    signal at all the score is 0, and with [Math.random()] = 0.9 the
    estimate is 9, where the table has exactly 0 below 10. *)
Lemma detector_estimate_off_table :
  let r := AdvancedTrafficDetector.calculate_comprehensive_traffic_score
             (9 # 10) no_signal in
  AdvancedTrafficDetector.traffic_score r == 0 /\
  AdvancedTrafficDetector.estimated_traffic r == 9 /\
  ~ bucket_table (AdvancedTrafficDetector.estimated_traffic r)
      (AdvancedTrafficDetector.traffic_score r).
Proof.
  cbv zeta. split; [reflexivity|]. split; [reflexivity|].
  intros H. destruct H as (_ & _ & _ & _ & _ & _ & _ & _ & _ & H).
  assert (Hlt : AdvancedTrafficDetector.traffic_score
                  (AdvancedTrafficDetector.calculate_comprehensive_traffic_score
                     (9 # 10) no_signal) < 10) by reflexivity.
  specialize (H Hlt). vm_compute in H. discriminate.
Qed.

(** ** The bounds of the score *)

Lemma estimateScore_le_55 (d : string) : InstantTrafficAnalyzer.estimateScore d <= 55.
Proof.
  unfold InstantTrafficAnalyzer.estimateScore.
  destruct (JS.test_digits 4 d), (JS.some _ _), (String.length d <? 15)%nat,
    (2 <? _)%nat, (JS.includes d "shop"), (JS.includes d "blog");
    vm_compute; discriminate.
Qed.

Lemma estimateScore_nonneg (d : string) : 0 <= InstantTrafficAnalyzer.estimateScore d.
Proof. apply Math_max_ge_l. Qed.

Lemma analyze_resume_score (e : HybridAnalyzer.Env) (rnd : Q) (now : Z) (d : string) :
  0 <= traffic_score
         (HybridAnalyzer.analyze_resume e (InstantTrafficAnalyzer.analyze rnd now d))
    <= 100.
Proof.
  cbn [HybridAnalyzer.analyze_resume InstantTrafficAnalyzer.analyze traffic_score].
  pose proof (estimateScore_le_55 d) as Hu.
  pose proof (estimateScore_nonneg d) as Hl.
  split.
  - apply Math_round_nonneg.
    destruct (HybridAnalyzer.checkDNS _); lra.
  - apply (Math_round_le _ 100).
    change (inject_Z 100) with 100.
    destruct (HybridAnalyzer.checkDNS _); lra.
Qed.

Lemma cached_fresh_lookup (cache : gmap string DomainAnalysis)
    (now : Z) (d : string) (c : DomainAnalysis) :
  HybridAnalyzer.cached_fresh cache now d = Some c -> cache !! d = Some c.
Proof.
  unfold HybridAnalyzer.cached_fresh. destruct (cache !! d) as [c'|]; [|discriminate].
  destruct (_ <? _)%Z; [congruence | discriminate].
Qed.

Lemma hybrid_analyze_score (cache : gmap string DomainAnalysis)
    (e : HybridAnalyzer.Env) (d : string) :
  CacheInv.scores_in_range cache ->
  0 <= traffic_score (HybridAnalyzer.analyze cache e d).1 <= 100 /\
  CacheInv.scores_in_range (HybridAnalyzer.analyze cache e d).2.
Proof.
  intros Hc. unfold HybridAnalyzer.analyze, HybridAnalyzer.analyze_start.
  destruct (HybridAnalyzer.cached_fresh _ _ _) as [c|] eqn:E; cbn [fst snd].
  - split; [|exact Hc]. apply cached_fresh_lookup in E. exact (Hc _ _ E).
  - split; [apply analyze_resume_score|].
    intros k c Hk. destruct (decide (d = k)) as [->|Hne].
    + rewrite lookup_insert_eq in Hk. injection Hk as <-.
      apply analyze_resume_score.
    + rewrite lookup_insert_ne in Hk by exact Hne. exact (Hc _ _ Hk).
Qed.

Lemma recency_range (now : Z) (d : option TrafficAnalyzer.JsDate) :
  0 <= TrafficAnalyzer.recency now d <= 10.
Proof.
  unfold TrafficAnalyzer.recency. destruct d as [[|t]|]; [lra| |lra].
  destruct (JS.le _ 1); [lra|]. destruct (JS.le _ 3); [lra|].
  destruct (JS.le _ 6); lra.
Qed.

Lemma calculateTrafficScore_le (now : Z) (m : TrafficAnalyzer.Metrics) :
  TrafficAnalyzer.calculateTrafficScore now m <= 100.
Proof. apply Math_min_le_r. Qed.

Lemma calculateTrafficScore_nonneg (now : Z) (m : TrafficAnalyzer.Metrics) :
  0 <= TrafficAnalyzer.m_recentSnapshots m ->
  0 <= TrafficAnalyzer.m_totalSnapshots m ->
  0 <= TrafficAnalyzer.calculateTrafficScore now m.
Proof.
  intros Hr Ht. unfold TrafficAnalyzer.calculateTrafficScore.
  apply Math_min_glb; [|lra]. apply Math_round_nonneg.
  assert (H1 : 0 <= JS.Math_min (TrafficAnalyzer.m_recentSnapshots m * 40) 40)
    by (apply Math_min_glb; lra).
  assert (H2 : 0 <= JS.Math_min (TrafficAnalyzer.m_totalSnapshots m * 40) 40)
    by (apply Math_min_glb; lra).
  pose proof (recency_range now (TrafficAnalyzer.m_lastSeen m)) as [H3 _].
  destruct (TrafficAnalyzer.m_hasWebsite m); lra.
Qed.

Section TrafficAnalyzerFacts.
Variable dateOfTimestamp : string -> TrafficAnalyzer.JsDate.
Variable threeMonthsBefore : Z -> Z.

Lemma checkArchiveHistory_nonneg (now : Z)
    (r : Net.fetched TrafficAnalyzer.ArchiveJson) :
  let h := TrafficAnalyzer.checkArchiveHistory dateOfTimestamp threeMonthsBefore now r in
  0 <= TrafficAnalyzer.snapshots h /\ 0 <= TrafficAnalyzer.recentSnapshots h.
Proof.
  cbv zeta. unfold TrafficAnalyzer.checkArchiveHistory.
  destruct r as [|[] [[|[arch|]]|]]; cbn; try (split; lra).
  destruct (TrafficAnalyzer.closest arch) as [c|]; cbn; [|split; lra].
  destruct (TrafficAnalyzer.timestamp c); cbn; [|split; lra].
  destruct (TrafficAnalyzer.available c), (TrafficAnalyzer.date_after _ _);
    split; lra.
Qed.

End TrafficAnalyzerFacts.

Section TrafficAnalyzerRuns.
Variable dateOfTimestamp : string -> TrafficAnalyzer.JsDate.
Variable threeMonthsBefore : Z -> Z.

Lemma analyzeDomain_try_returns (e : TrafficAnalyzer.Env) (d : string)
    (r : TrafficAnalyzer.Analysis) :
  TrafficAnalyzer.analyzeDomain_try dateOfTimestamp threeMonthsBefore e d
    = TrafficAnalyzer.Returns r ->
  r = TrafficAnalyzer.try_record dateOfTimestamp threeMonthsBefore e.
Proof.
  unfold TrafficAnalyzer.analyzeDomain_try, mbind, TrafficAnalyzer.outcome_bind.
  repeat (destruct (TrafficAnalyzer.emitProgress _ _ _ _); [|discriminate]).
  intros H. now injection H as <-.
Qed.

Lemma analyzeDomain_returns (e : TrafficAnalyzer.Env) (d : string)
    (r : TrafficAnalyzer.Analysis) :
  TrafficAnalyzer.analyzeDomain dateOfTimestamp threeMonthsBefore e d
    = TrafficAnalyzer.Returns r ->
  r = TrafficAnalyzer.try_record dateOfTimestamp threeMonthsBefore e \/
  r = TrafficAnalyzer.catch_record e.
Proof.
  unfold TrafficAnalyzer.analyzeDomain.
  destruct (TrafficAnalyzer.analyzeDomain_try _ _ _ _) as [a|] eqn:E.
  - intros H. injection H as <-. left. now apply analyzeDomain_try_returns in E.
  - unfold mbind, TrafficAnalyzer.outcome_bind.
    destruct (TrafficAnalyzer.emitProgress _ _ _ _); [|discriminate].
    intros H. injection H as <-. now right.
Qed.

(** With a callback that returns, the [try] block runs to its end. *)
Lemma analyzeDomain_total (e : TrafficAnalyzer.Env) (d : string) :
  TrafficAnalyzer.callback_returns (TrafficAnalyzer.onProgress e) ->
  TrafficAnalyzer.analyzeDomain dateOfTimestamp threeMonthsBefore e d
    = TrafficAnalyzer.Returns
        (TrafficAnalyzer.try_record dateOfTimestamp threeMonthsBefore e).
Proof.
  intros Hcb.
  assert (Hemit : forall st msg pr,
             TrafficAnalyzer.emitProgress (TrafficAnalyzer.onProgress e) st msg pr
               = TrafficAnalyzer.Returns tt).
  { intros st msg pr. unfold TrafficAnalyzer.emitProgress.
    destruct (TrafficAnalyzer.onProgress e) as [f|] eqn:E; [|reflexivity].
    now apply Hcb. }
  unfold TrafficAnalyzer.analyzeDomain, TrafficAnalyzer.analyzeDomain_try,
    mbind, TrafficAnalyzer.outcome_bind.
  now rewrite !Hemit.
Qed.

Lemma try_record_score (e : TrafficAnalyzer.Env) :
  0 <= TrafficAnalyzer.traffic_score
         (TrafficAnalyzer.try_record dateOfTimestamp threeMonthsBefore e) <= 100.
Proof.
  unfold TrafficAnalyzer.try_record. cbn [TrafficAnalyzer.traffic_score].
  pose proof (checkArchiveHistory_nonneg dateOfTimestamp threeMonthsBefore
                (TrafficAnalyzer.now_archive e)
                (TrafficAnalyzer.archive_response e)) as [Hs Hr].
  split; [|apply calculateTrafficScore_le].
  now apply calculateTrafficScore_nonneg.
Qed.

End TrafficAnalyzerRuns.

Lemma finalScore_le (p : AdvancedTrafficDetector.Probes) :
  AdvancedTrafficDetector.finalScore p <= 100.
Proof. apply Math_min_le_r. Qed.

Lemma finalScore_nonneg (p : AdvancedTrafficDetector.Probes) :
  0 <= AdvancedTrafficDetector.archiveSnapshots p ->
  0 <= AdvancedTrafficDetector.archiveFrequency p ->
  0 <= AdvancedTrafficDetector.indexedPages p ->
  0 <= AdvancedTrafficDetector.mailScore p ->
  0 <= AdvancedTrafficDetector.finalScore p.
Proof.
  intros H1 H2 H3 H4. unfold AdvancedTrafficDetector.finalScore.
  apply Math_min_glb; [|lra].
  assert (0 <= JS.Math_min (AdvancedTrafficDetector.archiveSnapshots p * (3 # 2)) 15)
    by (apply Math_min_glb; lra).
  assert (0 <= JS.Math_min (AdvancedTrafficDetector.archiveFrequency p * 5) 10)
    by (apply Math_min_glb; lra).
  assert (0 <= JS.Math_min (AdvancedTrafficDetector.indexedPages p * (1 # 2)) 30)
    by (apply Math_min_glb; lra).
  assert (0 <= JS.Math_min (AdvancedTrafficDetector.mailScore p * 2) 25)
    by (apply Math_min_glb; lra).
  destruct (AdvancedTrafficDetector.hasRedirect p),
    (AdvancedTrafficDetector.isParked p); lra.
Qed.

(** The scores that are numbers.  [TrafficAnalyzer.analyzeDomain],
    [InstantTrafficAnalyzer.analyze] and [HybridAnalyzer.analyze] (on a
    cache it filled itself) always answer a score in [0,100].  The two
    aggregators never exceed 100, whatever the magnitude of the
    sub-components, and are not negative when no sub-component is. *)
Theorem traffic_score_bounds :
  (forall dt tmb e d r,
     TrafficAnalyzer.analyzeDomain dt tmb e d = TrafficAnalyzer.Returns r ->
     0 <= TrafficAnalyzer.traffic_score r <= 100) /\
  (forall now m,
     TrafficAnalyzer.calculateTrafficScore now m <= 100 /\
     (0 <= TrafficAnalyzer.m_recentSnapshots m ->
      0 <= TrafficAnalyzer.m_totalSnapshots m ->
      0 <= TrafficAnalyzer.calculateTrafficScore now m)) /\
  (forall rnd p,
     let r := AdvancedTrafficDetector.calculate_comprehensive_traffic_score rnd p in
     AdvancedTrafficDetector.traffic_score r <= 100 /\
     (0 <= AdvancedTrafficDetector.archiveSnapshots p ->
      0 <= AdvancedTrafficDetector.archiveFrequency p ->
      0 <= AdvancedTrafficDetector.indexedPages p ->
      0 <= AdvancedTrafficDetector.mailScore p ->
      0 <= AdvancedTrafficDetector.traffic_score r)) /\
  (forall rnd now d,
     0 <= traffic_score (InstantTrafficAnalyzer.analyze rnd now d) <= 100) /\
  (forall cache e d,
     CacheInv.scores_in_range cache ->
     0 <= traffic_score (HybridAnalyzer.analyze cache e d).1 <= 100 /\
     CacheInv.scores_in_range (HybridAnalyzer.analyze cache e d).2).
Proof.
  repeat apply conj.
  - intros dt tmb e d r H. apply analyzeDomain_returns in H as [-> | ->].
    + apply try_record_score.
    + cbn. lra.
  - intros now m. split.
    + apply calculateTrafficScore_le.
    + apply calculateTrafficScore_nonneg.
  - intros rnd p. cbv zeta. cbn [AdvancedTrafficDetector.traffic_score
      AdvancedTrafficDetector.calculate_comprehensive_traffic_score]. split.
    + apply finalScore_le.
    + apply finalScore_nonneg.
  - intros rnd now d. cbn [traffic_score InstantTrafficAnalyzer.analyze]. split.
    + apply estimateScore_nonneg.
    + pose proof (estimateScore_le_55 d). lra.
  - intros cache e d. apply hybrid_analyze_score.
Qed.

Lemma traffic_score_bounds_witness :
  0 <= AdvancedTrafficDetector.traffic_score
         (AdvancedTrafficDetector.calculate_comprehensive_traffic_score
            (1 # 2) one_capture) <= 100.
Proof.
  destruct traffic_score_bounds as (_ & _ & H & _).
  destruct (H (1 # 2) one_capture) as [Hu Hl].
  split; [apply Hl; vm_compute; discriminate | exact Hu].
Defined.

(** Neither aggregator clamps from below.  On a negative sub-component,
    a value none of the probes delivers, the score is negative: ten
    captures "below zero" give -15 in
    [calculate_comprehensive_traffic_score], and [recentSnapshots] = -1 gives
    -40 in [calculateTrafficScore]. *)
Lemma aggregator_negative_score :
  AdvancedTrafficDetector.traffic_score
    (AdvancedTrafficDetector.calculate_comprehensive_traffic_score 0 negative_capture)
    == - (15) /\
  ~ (0 <= AdvancedTrafficDetector.traffic_score
            (AdvancedTrafficDetector.calculate_comprehensive_traffic_score
               0 negative_capture) <= 100) /\
  TrafficAnalyzer.calculateTrafficScore 0
    {| TrafficAnalyzer.m_recentSnapshots := - (1);
       TrafficAnalyzer.m_totalSnapshots := 0;
       TrafficAnalyzer.m_hasWebsite := false;
       TrafficAnalyzer.m_lastSeen := None |} == - (40).
Proof.
  split; [reflexivity|]. split; [|reflexivity].
  intros [H _]. vm_compute in H. now apply H.
Qed.

(** ** Rounding *)

(** Scheme A ([calculateTrafficScore]) rounds: its result is an integer. *)
Lemma calculateTrafficScore_integer (now : Z) (m : TrafficAnalyzer.Metrics) :
  exists z : Z, TrafficAnalyzer.calculateTrafficScore now m == inject_Z z.
Proof.
  unfold TrafficAnalyzer.calculateTrafficScore, JS.Math_min.
  set (y := _ + TrafficAnalyzer.recency _ _).
  destruct (Q.min_spec (JS.Math_round y) 100) as [[_ H] | [_ H]].
  - exists (Qfloor (y + (1 # 2))). exact H.
  - exists 100%Z. exact H.
Qed.

(** C3. Scheme B does not round.  For a name with a single archive capture
    in the last year ([archiveSnapshots] = 1, [archiveFrequency] = 1/12) and
    no other signal, [calculate_comprehensive_traffic_score] answers
    1.5 + 5/12 = 23/12, which is no integer and differs from its own
    rounding, 2. *)
Theorem comprehensive_score_not_rounded :
  let r := AdvancedTrafficDetector.calculate_comprehensive_traffic_score
             (1 # 2) one_capture in
  AdvancedTrafficDetector.traffic_score r == 23 # 12 /\
  (forall z : Z, ~ AdvancedTrafficDetector.traffic_score r == inject_Z z) /\
  JS.Math_round (AdvancedTrafficDetector.traffic_score r) == 2.
Proof.
  cbv zeta. split; [reflexivity|]. split; [|reflexivity].
  intros z H.
  assert (E : AdvancedTrafficDetector.traffic_score
                (AdvancedTrafficDetector.calculate_comprehensive_traffic_score
                   (1 # 2) one_capture) == 23 # 12) by reflexivity.
  rewrite E in H. unfold Qeq in H. cbn in H. lia.
Qed.

(** ** The orchestrator when every probe fails *)

Lemma checkDNS_failed (r : Net.fetched Net.DnsJson) :
  Net.failed r = true -> TrafficAnalyzer.checkDNS r = TrafficAnalyzer.dns_fallback.
Proof. destruct r as [|[] [j|]]; try reflexivity. discriminate. Qed.

Lemma checkArchiveHistory_failed dt tmb (now : Z)
    (r : Net.fetched TrafficAnalyzer.ArchiveJson) :
  Net.failed r = true ->
  TrafficAnalyzer.checkArchiveHistory dt tmb now r = TrafficAnalyzer.archive_fallback.
Proof. destruct r as [|[] [j|]]; try reflexivity. discriminate. Qed.

(** C2 (amended). When the DNS probe and the archive probe both fail
    (timeout, non-ok status or malformed body) and the progress callback
    returns, [analyzeDomain] resolves to a complete record with every
    numeric field 0 and with status 'available': a failed DNS probe answers
    "no nameservers", and 'error' is the status of the [catch] record
    only. *)
Theorem all_probes_failed_record dt tmb (e : TrafficAnalyzer.Env) (d : string) :
  Net.failed (TrafficAnalyzer.dns_response e) = true ->
  Net.failed (TrafficAnalyzer.archive_response e) = true ->
  TrafficAnalyzer.callback_returns (TrafficAnalyzer.onProgress e) ->
  TrafficAnalyzer.analyzeDomain dt tmb e d =
    TrafficAnalyzer.Returns
      {| TrafficAnalyzer.traffic_score := 0;
         TrafficAnalyzer.estimated_traffic := 0;
         TrafficAnalyzer.archive_snapshots := 0;
         TrafficAnalyzer.last_checked := TrafficAnalyzer.now_return e;
         TrafficAnalyzer.status := "available" |}.
Proof.
  intros Hdns Harch Hcb. rewrite analyzeDomain_total by exact Hcb.
  unfold TrafficAnalyzer.try_record.
  rewrite (checkDNS_failed _ Hdns), (checkArchiveHistory_failed _ _ _ _ Harch).
  reflexivity.
Qed.

Lemma all_probes_failed_record_witness :
  TrafficAnalyzer.analyzeDomain no_date same_instant all_probes_fail "example.com" =
    TrafficAnalyzer.Returns
      {| TrafficAnalyzer.traffic_score := 0;
         TrafficAnalyzer.estimated_traffic := 0;
         TrafficAnalyzer.archive_snapshots := 0;
         TrafficAnalyzer.last_checked := 0;
         TrafficAnalyzer.status := "available" |}.
Proof.
  apply (all_probes_failed_record no_date same_instant all_probes_fail "example.com").
  - reflexivity.
  - reflexivity.
  - intros f ev H. discriminate H.
Defined.

(** C2, as stated, fails: with both probes failed the record carries the
    status 'available', not 'error'. *)
Lemma all_probes_fail_not_error :
  Net.failed (TrafficAnalyzer.dns_response all_probes_fail) = true /\
  Net.failed (TrafficAnalyzer.archive_response all_probes_fail) = true /\
  exists r : TrafficAnalyzer.Analysis,
    TrafficAnalyzer.analyzeDomain no_date same_instant all_probes_fail "example.com"
      = TrafficAnalyzer.Returns r /\
    TrafficAnalyzer.status r = "available"%string /\
    TrafficAnalyzer.status r <> "error"%string.
Proof.
  split; [reflexivity|]. split; [reflexivity|].
  eexists. split; [reflexivity|]. split; [reflexivity | discriminate].
Qed.

(** The [catch] record is what a throwing callback leads to, when it
    returns on the 'error' event; when it throws there too, [analyzeDomain]
    itself throws. *)
Example analyzeDomain_catch :
  TrafficAnalyzer.analyzeDomain no_date same_instant throwing_at_start "example.com"
    = TrafficAnalyzer.Returns (TrafficAnalyzer.catch_record throwing_at_start).
Proof. reflexivity. Qed.

Example analyzeDomain_throws :
  TrafficAnalyzer.analyzeDomain no_date same_instant throwing "example.com"
    = TrafficAnalyzer.Throws.
Proof. reflexivity. Qed.

(** ** The status *)

Lemma hasNameservers_iff (r : Net.fetched Net.DnsJson) :
  TrafficAnalyzer.hasNameservers (TrafficAnalyzer.checkDNS r) = true <->
  exists answer : list Z,
    r = Net.Response true (Some (Net.DnsObject (Some answer))) /\ answer <> [].
Proof.
  split.
  - destruct r as [|[] [[|[answer|]]|]]; try discriminate.
    intros H. exists answer. split; [reflexivity|].
    intros ->. discriminate H.
  - intros [answer [-> Hne]]. destruct answer; [contradiction | reflexivity].
Qed.

Lemma hybrid_checkDNS_iff (r : Net.fetched Net.DnsJson) :
  HybridAnalyzer.checkDNS r = true <->
  exists answer : list Z,
    r = Net.Response true (Some (Net.DnsObject (Some answer))) /\ answer <> [].
Proof.
  split.
  - destruct r as [|[] [[|[answer|]]|]]; try discriminate.
    intros H. exists answer. split; [reflexivity|].
    intros ->. discriminate H.
  - intros [answer [-> Hne]]. destruct answer; [contradiction | reflexivity].
Qed.

Lemma handler_update_status (analysis : gmap string Store.JsValue) (now : Z) :
  Store.handler_update analysis now !! "status"%string
    = Some (Store.JsString "available").
Proof.
  unfold Store.handler_update.
  rewrite lookup_insert_ne by discriminate. apply lookup_insert_eq.
Qed.

Lemma client_update_status (analysis : DomainAnalysis) (now : Z) :
  Store.client_update analysis now !! "status"%string
    = Some (Store.JsString (status analysis)).
Proof. unfold Store.client_update. cbn [list_to_map foldr]. apply lookup_insert_eq. Qed.

Lemma hybrid_analyze_status (cache : gmap string DomainAnalysis)
    (e : HybridAnalyzer.Env) (d : string) :
  CacheInv.statuses_known cache ->
  (status (HybridAnalyzer.analyze cache e d).1 = "registered"%string \/
   status (HybridAnalyzer.analyze cache e d).1 = "available"%string) /\
  CacheInv.statuses_known (HybridAnalyzer.analyze cache e d).2.
Proof.
  intros Hc. unfold HybridAnalyzer.analyze, HybridAnalyzer.analyze_start.
  destruct (HybridAnalyzer.cached_fresh _ _ _) as [c|] eqn:E; cbn [fst snd].
  - split; [|exact Hc]. apply cached_fresh_lookup in E. exact (Hc _ _ E).
  - assert (Hnew : forall i,
               status (HybridAnalyzer.analyze_resume e i) = "registered"%string \/
               status (HybridAnalyzer.analyze_resume e i) = "available"%string).
    { intros i. cbn. destruct (HybridAnalyzer.checkDNS _); [now left | now right]. }
    split; [apply Hnew|].
    intros k c Hk. destruct (decide (d = k)) as [->|Hne].
    + rewrite lookup_insert_eq in Hk. injection Hk as <-. apply Hnew.
    + rewrite lookup_insert_ne in Hk by exact Hne. exact (Hc _ _ Hk).
Qed.

(** C5 (amended). The status of every record the analyzers return is one of
    the five values and comes from the DNS probe: [TrafficAnalyzer] writes
    'registered' exactly when the DNS answer lists a record, 'available'
    otherwise, and 'error' in its [catch] record; [InstantTrafficAnalyzer]
    always writes 'available'; [HybridAnalyzer] writes 'registered' when its
    DNS check is positive, which it is exactly when the DNS answer lists a
    record, and 'available' otherwise.  The client path
    persists the status of the record; the analyze-domain handler persists
    'available' whatever the status of the analysis. *)
Theorem status_derivation :
  (forall dt tmb e d r,
     TrafficAnalyzer.analyzeDomain dt tmb e d = TrafficAnalyzer.Returns r ->
     TrafficAnalyzer.status r ∈ status_values /\
     (r = TrafficAnalyzer.catch_record e /\
        TrafficAnalyzer.status r = "error"%string \/
      TrafficAnalyzer.status r =
        if TrafficAnalyzer.hasNameservers
             (TrafficAnalyzer.checkDNS (TrafficAnalyzer.dns_response e))
        then "registered"%string else "available"%string)) /\
  (forall resp,
     TrafficAnalyzer.hasNameservers (TrafficAnalyzer.checkDNS resp) = true <->
     exists answer : list Z,
       resp = Net.Response true (Some (Net.DnsObject (Some answer))) /\
       answer <> []) /\
  (forall rnd now d,
     status (InstantTrafficAnalyzer.analyze rnd now d) = "available"%string) /\
  (forall e instant,
     status (HybridAnalyzer.analyze_resume e instant) =
       if HybridAnalyzer.checkDNS (HybridAnalyzer.dns_response e)
       then "registered"%string else "available"%string) /\
  (forall resp,
     HybridAnalyzer.checkDNS resp = true <->
     exists answer : list Z,
       resp = Net.Response true (Some (Net.DnsObject (Some answer))) /\
       answer <> []) /\
  (forall cache e d,
     CacheInv.statuses_known cache ->
     status (HybridAnalyzer.analyze cache e d).1 ∈ status_values /\
     CacheInv.statuses_known (HybridAnalyzer.analyze cache e d).2) /\
  (forall analysis now,
     Store.client_update analysis now !! "status"%string
       = Some (Store.JsString (status analysis))) /\
  (forall analysis now,
     Store.handler_update analysis now !! "status"%string
       = Some (Store.JsString "available")).
Proof.
  repeat apply conj.
  - intros dt tmb e d r H. apply analyzeDomain_returns in H as [-> | ->].
    + cbn [TrafficAnalyzer.status TrafficAnalyzer.try_record].
      split; [|now right].
      destruct (TrafficAnalyzer.hasNameservers _); unfold status_values;
        set_solver.
    + split; [unfold status_values; cbn; set_solver | now left].
  - exact hasNameservers_iff.
  - reflexivity.
  - reflexivity.
  - exact hybrid_checkDNS_iff.
  - intros cache e d Hc.
    destruct (hybrid_analyze_status cache e d Hc) as [[-> | ->] H2];
      (split; [unfold status_values; set_solver | exact H2]).
  - exact client_update_status.
  - exact handler_update_status.
Qed.

Lemma status_derivation_witness :
  status (HybridAnalyzer.analyze ∅ dns_active "example.com").1 ∈ status_values.
Proof.
  destruct status_derivation as (_ & _ & _ & _ & _ & H & _).
  apply (H ∅ dns_active "example.com"%string).
  intros k c Hk. rewrite lookup_empty in Hk. discriminate Hk.
Defined.

(** C5, as stated, fails on the persisted record: for a name that resolves,
    the analysis carries 'registered', and the payload the analyze-domain
    handler writes carries 'available'. *)
Lemma handler_overwrites_status :
  let r := TrafficAnalyzer.try_record no_date same_instant resolving in
  TrafficAnalyzer.analyzeDomain no_date same_instant resolving "example.com"
    = TrafficAnalyzer.Returns r /\
  Store.object_of r !! "status"%string = Some (Store.JsString "registered") /\
  Store.handler_update (Store.object_of r) 0 !! "status"%string
    = Some (Store.JsString "available") /\
  Store.handler_update (Store.object_of r) 0 !! "status"%string
    <> Store.object_of r !! "status"%string.
Proof.
  cbv zeta.
  assert (Hobj : Store.object_of
                   (TrafficAnalyzer.try_record no_date same_instant resolving)
                   !! "status"%string = Some (Store.JsString "registered")).
  { unfold Store.object_of. cbn [list_to_map foldr].
    repeat (rewrite lookup_insert_ne by discriminate).
    rewrite lookup_insert_eq. reflexivity. }
  split; [reflexivity|]. split; [exact Hobj|].
  rewrite handler_update_status, Hobj. split; [reflexivity | discriminate].
Qed.

(** ** Where the estimate comes from *)

Lemma TrafficAnalyzer_estimateTraffic_nonneg (rnd s : Q) :
  0 <= rnd -> 0 <= TrafficAnalyzer.estimateTraffic rnd s.
Proof.
  intros H. unfold TrafficAnalyzer.estimateTraffic.
  js_cases;
    try match goal with
      | |- context [JS.Math_floor (rnd * ?c)] =>
          assert (0 <= JS.Math_floor (rnd * c)) by (apply Math_floor_nonneg; lra)
      end; lra.
Qed.

Lemma Instant_estimateTraffic_nonneg (rnd s : Q) :
  0 <= rnd -> 0 <= InstantTrafficAnalyzer.estimateTraffic rnd s.
Proof.
  intros H. unfold InstantTrafficAnalyzer.estimateTraffic.
  js_cases;
    try match goal with
      | |- context [JS.Math_floor (rnd * ?c)] =>
          assert (0 <= JS.Math_floor (rnd * c)) by (apply Math_floor_nonneg; lra)
      end; lra.
Qed.

Lemma detector_estimatedTraffic_nonneg (rnd s : Q) :
  0 <= rnd -> 0 <= AdvancedTrafficDetector.estimatedTraffic rnd s.
Proof.
  intros H. unfold AdvancedTrafficDetector.estimatedTraffic.
  js_cases;
    match goal with
    | |- context [JS.Math_floor (rnd * ?c)] =>
        assert (0 <= JS.Math_floor (rnd * c)) by (apply Math_floor_nonneg; lra)
    end; lra.
Qed.

(** C6 (amended). With a jitter in [0,1) the estimate of every record is
    non-negative and is the estimator applied to a score, never to a probe
    value: in [TrafficAnalyzer.analyzeDomain], in
    [InstantTrafficAnalyzer.analyze] and in
    [calculate_comprehensive_traffic_score] to the [traffic_score] of the
    same record; in [HybridAnalyzer.analyze] to the instant lexical score of
    the name, before the DNS adjustment that gives the record its
    [traffic_score]. *)
Theorem estimated_traffic_from_score (rnd : Q) :
  0 <= rnd -> rnd < 1 ->
  (forall dt tmb e d r,
     TrafficAnalyzer.rnd e = rnd ->
     TrafficAnalyzer.analyzeDomain dt tmb e d = TrafficAnalyzer.Returns r ->
     0 <= TrafficAnalyzer.estimated_traffic r /\
     TrafficAnalyzer.estimated_traffic r =
       TrafficAnalyzer.estimateTraffic rnd (TrafficAnalyzer.traffic_score r)) /\
  (forall now d,
     let r := InstantTrafficAnalyzer.analyze rnd now d in
     0 <= estimated_traffic r /\
     estimated_traffic r =
       InstantTrafficAnalyzer.estimateTraffic rnd (traffic_score r)) /\
  (forall p,
     let r := AdvancedTrafficDetector.calculate_comprehensive_traffic_score rnd p in
     0 <= AdvancedTrafficDetector.estimated_traffic r /\
     AdvancedTrafficDetector.estimated_traffic r =
       AdvancedTrafficDetector.estimatedTraffic rnd
         (AdvancedTrafficDetector.traffic_score r)) /\
  (forall e now d,
     let r := HybridAnalyzer.analyze_resume e
                (InstantTrafficAnalyzer.analyze rnd now d) in
     0 <= estimated_traffic r /\
     estimated_traffic r =
       InstantTrafficAnalyzer.estimateTraffic rnd
         (InstantTrafficAnalyzer.estimateScore d)).
Proof.
  intros H0 H1. repeat apply conj.
  - intros dt tmb e d r <- H. apply analyzeDomain_returns in H as [-> | ->].
    + split; [|reflexivity]. now apply TrafficAnalyzer_estimateTraffic_nonneg.
    + split; [cbn; lra | reflexivity].
  - intros now d. cbv zeta. split; [|reflexivity].
    now apply Instant_estimateTraffic_nonneg.
  - intros p. cbv zeta. split; [|reflexivity].
    now apply detector_estimatedTraffic_nonneg.
  - intros e now d. cbv zeta. split; [|reflexivity].
    now apply Instant_estimateTraffic_nonneg.
Qed.

Lemma estimated_traffic_from_score_witness :
  let r := InstantTrafficAnalyzer.analyze (1 # 2) 0 "myshop2024.com" in
  0 <= estimated_traffic r /\
  estimated_traffic r = InstantTrafficAnalyzer.estimateTraffic (1 # 2) (traffic_score r).
Proof.
  assert (Hl : 0 <= 1 # 2) by (vm_compute; discriminate).
  assert (Hu : 1 # 2 < 1) by reflexivity.
  destruct (estimated_traffic_from_score (1 # 2) Hl Hu) as (_ & H & _).
  exact (H 0%Z "myshop2024.com"%string).
Defined.

(** C6, as stated, fails on [HybridAnalyzer.analyze]: the name
    "abcdefghij1234.xyz" (instant score 10) without DNS answer and the name
    "shopabcdefghijk.xyz" (instant score 5) with one both end with the
    [traffic_score] 8; with the same jitter 0.5 the first record estimates 25
    visits and the second 0, and 25 is not what the estimator gives for 8. *)
Lemma hybrid_estimate_not_from_final_score :
  let r1 := (HybridAnalyzer.analyze ∅ dns_silent "abcdefghij1234.xyz").1 in
  let r2 := (HybridAnalyzer.analyze ∅ dns_active "shopabcdefghijk.xyz").1 in
  HybridAnalyzer.rnd_traffic dns_silent = HybridAnalyzer.rnd_traffic dns_active /\
  traffic_score r1 == 8 /\
  traffic_score r2 == 8 /\
  estimated_traffic r1 == 25 /\
  estimated_traffic r2 == 0 /\
  ~ estimated_traffic r1 == estimated_traffic r2 /\
  ~ estimated_traffic r1 ==
      InstantTrafficAnalyzer.estimateTraffic
        (HybridAnalyzer.rnd_traffic dns_silent) (traffic_score r1).
Proof.
  cbv zeta. unfold HybridAnalyzer.analyze, HybridAnalyzer.analyze_start,
    HybridAnalyzer.cached_fresh. rewrite !lookup_empty. cbn [fst].
  repeat split; try (vm_compute; discriminate).
Qed.

(** ** Batches *)

Lemma well_keyed_insert (cache : gmap string DomainAnalysis)
    (d : string) (a : DomainAnalysis) :
  CacheInv.well_keyed cache -> CacheInv.analysis_of d a ->
  CacheInv.well_keyed (<[d := a]> cache).
Proof.
  intros Hc Ha k c Hk. destruct (decide (d = k)) as [->|Hne].
  - rewrite lookup_insert_eq in Hk. now injection Hk as <-.
  - rewrite lookup_insert_ne in Hk by exact Hne. exact (Hc _ _ Hk).
Qed.

(** What a call of a group answers is an analysis of its name. *)
Lemma group_result_analysis (cache : gmap string DomainAnalysis)
    (e : HybridAnalyzer.Env) (d : string) :
  CacheInv.well_keyed cache ->
  CacheInv.analysis_of d
    (HybridAnalyzer.group_result ((e, d), HybridAnalyzer.analyze_start cache e d)).
Proof.
  intros Hc. unfold HybridAnalyzer.analyze_start.
  destruct (HybridAnalyzer.cached_fresh _ _ _) as [c|] eqn:E; cbn.
  - apply cached_fresh_lookup in E. exact (Hc _ _ E).
  - now exists e.
Qed.

Lemma group_results_analysis (cache : gmap string DomainAnalysis)
    (calls : list (HybridAnalyzer.Env * string)) :
  CacheInv.well_keyed cache ->
  Forall2 CacheInv.analysis_of (List.map snd calls)
    (List.map HybridAnalyzer.group_result (HybridAnalyzer.group_started cache calls)).
Proof.
  intros Hc. induction calls as [|[e d] calls IH]; cbn; constructor.
  - now apply group_result_analysis.
  - exact IH.
Qed.

Lemma group_started_lookup (cache : gmap string DomainAnalysis)
    (calls : list (HybridAnalyzer.Env * string)) (k : nat)
    (e : HybridAnalyzer.Env) (d : string) (st : HybridAnalyzer.started) :
  HybridAnalyzer.group_started cache calls !! k = Some (e, d, st) ->
  st = HybridAnalyzer.analyze_start cache e d.
Proof.
  revert k. induction calls as [|[e' d'] calls IH]; intros [|k] H;
    try discriminate.
  - cbn in H. now injection H as -> -> <-.
  - exact (IH k H).
Qed.

Lemma group_write_well_keyed (cache0 cache : gmap string DomainAnalysis)
    (calls : list (HybridAnalyzer.Env * string)) (k : nat) :
  CacheInv.well_keyed cache ->
  CacheInv.well_keyed
    (HybridAnalyzer.group_write (HybridAnalyzer.group_started cache0 calls) cache k).
Proof.
  intros Hc. unfold HybridAnalyzer.group_write.
  destruct (_ !! k) as [[[e d] [c|instant]]|] eqn:E; try exact Hc.
  apply group_started_lookup in E. unfold HybridAnalyzer.analyze_start in E.
  destruct (HybridAnalyzer.cached_fresh _ _ _); [discriminate|].
  injection E as ->. apply well_keyed_insert; [exact Hc | now exists e].
Qed.

Lemma promise_all_spec (cache : gmap string DomainAnalysis)
    (calls : list (HybridAnalyzer.Env * string)) (arrival : list nat) :
  CacheInv.well_keyed cache ->
  Forall2 CacheInv.analysis_of (List.map snd calls)
    (HybridAnalyzer.promise_all cache calls arrival).1 /\
  CacheInv.well_keyed (HybridAnalyzer.promise_all cache calls arrival).2.
Proof.
  intros Hc. unfold HybridAnalyzer.promise_all. cbn [fst snd]. split.
  - now apply group_results_analysis.
  - assert (Hfold : forall acc : gmap string DomainAnalysis,
               CacheInv.well_keyed acc ->
               CacheInv.well_keyed
                 (fold_left
                    (HybridAnalyzer.group_write
                       (HybridAnalyzer.group_started cache calls)) arrival acc)).
    { induction arrival as [|k arrival IH]; intros acc Hacc.
      - exact Hacc.
      - cbn [fold_left]. apply IH. now apply group_write_well_keyed. }
    now apply Hfold.
Qed.

Lemma calls_names (envs : nat -> HybridAnalyzer.Env) (i : nat) (batch : list string) :
  List.map snd
    (List.map (fun kd : nat * string => (envs (i + kd.1)%nat, kd.2))
       (List.combine (List.seq 0 (List.length batch)) batch)) = batch.
Proof.
  generalize 0%nat as start. induction batch as [|d batch IH]; intros start.
  - reflexivity.
  - cbn. f_equal. apply IH.
Qed.

Lemma analyzeBatch_loop_spec (envs : nat -> HybridAnalyzer.Env)
    (arrival : nat -> list nat) (domains : list string) (fuel : nat) :
  forall (i : nat) (results : list DomainAnalysis)
         (cache : gmap string DomainAnalysis),
    (List.length domains - i < fuel)%nat ->
    CacheInv.well_keyed cache ->
    Forall2 CacheInv.analysis_of (take i domains) results ->
    exists (results' : list DomainAnalysis) (cache' : gmap string DomainAnalysis),
      HybridAnalyzer.analyzeBatch_loop envs arrival domains fuel i results cache
        = Some (results', cache') /\
      Forall2 CacheInv.analysis_of domains results' /\
      CacheInv.well_keyed cache'.
Proof.
  induction fuel as [|fuel IH]; intros i results cache Hfuel Hc Hres; [lia|].
  cbn [HybridAnalyzer.analyzeBatch_loop].
  destruct (Nat.ltb_spec i (List.length domains)) as [Hlt|Hge].
  - set (batch := HybridAnalyzer.slice domains i (i + HybridAnalyzer.BATCH_SIZE)).
    set (calls := List.map _ _).
    pose proof (promise_all_spec cache calls (arrival i) Hc) as [Hr Hc'].
    destruct (HybridAnalyzer.promise_all cache calls (arrival i))
      as [analysis cache'] eqn:E.
    cbn [fst snd] in Hr, Hc'.
    apply IH; [unfold HybridAnalyzer.BATCH_SIZE; lia | exact Hc' |].
    rewrite <- take_take_drop. apply Forall2_app; [exact Hres|].
    unfold calls in Hr. rewrite calls_names in Hr.
    unfold batch, HybridAnalyzer.slice in Hr.
    now replace (i + HybridAnalyzer.BATCH_SIZE - i)%nat
      with HybridAnalyzer.BATCH_SIZE in Hr by lia.
  - exists results, cache. split; [reflexivity|]. split; [|exact Hc].
    now rewrite take_ge in Hres by exact Hge.
Qed.

(** C9. On a cache it filled itself (an empty one in particular),
    [analyzeBatch] returns, for every list of N names and every order in
    which the DNS answers of each group of three arrive, exactly N records,
    the i-th of which is an analysis of the i-th name. *)
Theorem analyzeBatch_order (envs : nat -> HybridAnalyzer.Env)
    (arrival : nat -> list nat) (cache : gmap string DomainAnalysis)
    (domains : list string) :
  CacheInv.well_keyed cache ->
  exists (results : list DomainAnalysis) (cache' : gmap string DomainAnalysis),
    HybridAnalyzer.analyzeBatch envs arrival cache domains = Some (results, cache') /\
    List.length results = List.length domains /\
    (forall (i : nat) (d : string),
       domains !! i = Some d ->
       exists r : DomainAnalysis,
         results !! i = Some r /\ domain r = d /\ CacheInv.analysis_of d r) /\
    CacheInv.well_keyed cache'.
Proof.
  intros Hc.
  destruct (analyzeBatch_loop_spec envs arrival domains (S (List.length domains))
              0 [] cache) as (results & cache' & Hrun & Hall & Hc').
  - lia.
  - exact Hc.
  - constructor.
  - exists results, cache'. split; [exact Hrun|]. split; [|split; [|exact Hc']].
    + symmetry. exact (Forall2_length _ _ _ Hall).
    + intros i d Hd.
      destruct (Forall2_lookup_l _ _ _ _ _ Hall Hd) as (r & Hr & Ha).
      exists r. split; [exact Hr|]. split; [|exact Ha].
      destruct Ha as [e ->]. reflexivity.
Qed.

Lemma analyzeBatch_order_witness :
  exists (results : list DomainAnalysis) (cache' : gmap string DomainAnalysis),
    HybridAnalyzer.analyzeBatch (fun _ => dns_active) (fun _ => [2; 0; 1]%nat) ∅
      ["a.com"; "b.net"; "a.com"; "shop.org"]%string = Some (results, cache') /\
    List.length results = 4%nat /\
    (forall (i : nat) (d : string),
       ["a.com"; "b.net"; "a.com"; "shop.org"]%string !! i = Some d ->
       exists r : DomainAnalysis,
         results !! i = Some r /\ domain r = d /\ CacheInv.analysis_of d r) /\
    CacheInv.well_keyed cache'.
Proof.
  apply (analyzeBatch_order (fun _ => dns_active) (fun _ => [2; 0; 1]%nat) ∅
           ["a.com"; "b.net"; "a.com"; "shop.org"]%string).
  intros k c Hk. rewrite lookup_empty in Hk. discriminate Hk.
Defined.

(** A batch of four names, the first group answering in the order 2, 0, 1:
    the records come back in the order of the names, and the second
    "a.com" of the first group is analysed afresh, since the calls of a
    group all start before any of them has written to the cache. *)
Example analyzeBatch_four :
  (fun out => List.map domain out.1) <$>
    HybridAnalyzer.analyzeBatch (fun _ => dns_active) (fun _ => [2; 0; 1]%nat) ∅
      ["a.com"; "b.net"; "a.com"; "shop.org"]%string
  = Some ["a.com"; "b.net"; "a.com"; "shop.org"]%string.
Proof. vm_compute. reflexivity. Qed.

(** The table of the store accepts four of the five values: a record with
    the status 'error' cannot be written. *)
Example domains_status_check_values :
  List.map Store.domains_status_check status_values = [true; true; true; true; false].
Proof. vm_compute. reflexivity. Qed.

(** * Further properties of the code *)

(** ** The estimators: buckets do not overlap *)

Lemma Math_floor_bounds (rnd : Q) (n : positive) :
  0 <= rnd -> rnd < 1 ->
  0 <= JS.Math_floor (rnd * (Z.pos n # 1)) /\
  JS.Math_floor (rnd * (Z.pos n # 1)) < (Z.pos n # 1).
Proof.
  intros H0 H1. destruct (Math_floor_jitter rnd n H0 H1) as [k [Hk ->]].
  split.
  - change 0 with (inject_Z 0). rewrite <- Zle_Qle. lia.
  - change (Z.pos n # 1) with (inject_Z (Z.pos n)). rewrite <- Zlt_Qlt. lia.
Qed.

(** Brings the range of every floor of the goal into the context. *)
Ltac floor_ranges :=
  repeat match goal with
    | H0 : 0 <= ?r, H1 : ?r < 1
      |- context [JS.Math_floor (?r * (Z.pos ?n # 1))] =>
        let x := fresh "x" in
        let Hx := fresh "Hx" in
        pose proof (Math_floor_bounds r n H0 H1) as Hx;
        set (x := JS.Math_floor (r * (Z.pos n # 1))) in *;
        clearbody x
    end.

Lemma TrafficAnalyzer_estimate_order (r1 r2 s1 s2 t : Q) :
  0 <= r1 -> r1 < 1 -> 0 <= r2 -> r2 < 1 ->
  t ∈ [10; 20; 30; 40; 50; 60; 70; 80; 90] ->
  s1 < t -> t <= s2 ->
  TrafficAnalyzer.estimateTraffic r1 s1 <= TrafficAnalyzer.estimateTraffic r2 s2.
Proof.
  intros H0 H1 H2 H3 Ht Hs1 Hs2. unfold TrafficAnalyzer.estimateTraffic.
  repeat (apply elem_of_cons in Ht as [-> | Ht];
          [js_cases; floor_ranges; lra|]).
  now apply elem_of_nil in Ht.
Qed.

Lemma Instant_estimate_order (r1 r2 s1 s2 t : Q) :
  0 <= r1 -> r1 < 1 -> 0 <= r2 -> r2 < 1 ->
  t ∈ [10; 20; 30; 40; 50; 60; 70; 80; 90] ->
  s1 < t -> t <= s2 ->
  InstantTrafficAnalyzer.estimateTraffic r1 s1
    <= InstantTrafficAnalyzer.estimateTraffic r2 s2.
Proof.
  intros H0 H1 H2 H3 Ht Hs1 Hs2. unfold InstantTrafficAnalyzer.estimateTraffic.
  repeat (apply elem_of_cons in Ht as [-> | Ht];
          [js_cases; floor_ranges; lra|]).
  now apply elem_of_nil in Ht.
Qed.

(** X1. The buckets of the two TypeScript estimators never overlap: a score
    below one of the thresholds 10, 20, ..., 90 never gets a larger
    estimate than a score at or above it, whatever the two jitters. *)
Theorem estimate_buckets_ordered (r1 r2 s1 s2 t : Q) :
  0 <= r1 -> r1 < 1 -> 0 <= r2 -> r2 < 1 ->
  t ∈ [10; 20; 30; 40; 50; 60; 70; 80; 90] ->
  s1 < t -> t <= s2 ->
  TrafficAnalyzer.estimateTraffic r1 s1 <= TrafficAnalyzer.estimateTraffic r2 s2 /\
  InstantTrafficAnalyzer.estimateTraffic r1 s1
    <= InstantTrafficAnalyzer.estimateTraffic r2 s2.
Proof.
  intros. split.
  - now apply (TrafficAnalyzer_estimate_order r1 r2 s1 s2 t).
  - now apply (Instant_estimate_order r1 r2 s1 s2 t).
Qed.

Lemma estimate_buckets_ordered_witness :
  TrafficAnalyzer.estimateTraffic (9 # 10) 19 <= TrafficAnalyzer.estimateTraffic 0 20 /\
  InstantTrafficAnalyzer.estimateTraffic (9 # 10) 19
    <= InstantTrafficAnalyzer.estimateTraffic 0 20.
Proof.
  apply (estimate_buckets_ordered (9 # 10) 0 19 20 20); try lra.
  set_solver.
Defined.



(** ** [TrafficAnalyzer]: what the record tells *)

Lemma Math_round_mono (x y : Q) : x <= y -> JS.Math_round x <= JS.Math_round y.
Proof.
  intros H. unfold JS.Math_round. rewrite <- Zle_Qle.
  apply Qfloor_resp_le. lra.
Qed.

Lemma Math_round_integer (z : Z) : JS.Math_round (inject_Z z) = inject_Z z.
Proof.
  unfold JS.Math_round. f_equal.
  assert (Hl : (z <= Qfloor (inject_Z z + (1 # 2)))%Z).
  { rewrite <- (Qfloor_Z z) at 1. apply Qfloor_resp_le. lra. }
  assert (Hu : (Qfloor (inject_Z z + (1 # 2)) < z + 1)%Z); [|lia].
  rewrite Zlt_Qlt. eapply Qle_lt_trans; [apply Qfloor_le|].
  rewrite inject_Z_plus. change (inject_Z 1) with 1. lra.
Qed.

Lemma hasWebsite_hasNameservers (r : Net.fetched Net.DnsJson) :
  TrafficAnalyzer.hasWebsite (TrafficAnalyzer.checkDNS r) = true ->
  TrafficAnalyzer.hasNameservers (TrafficAnalyzer.checkDNS r) = true.
Proof.
  destruct r as [|[] [[|[answer|]]|]]; try discriminate.
  destruct answer; [discriminate | reflexivity].
Qed.

Section TrafficAnalyzerRecords.
Variable dateOfTimestamp : string -> TrafficAnalyzer.JsDate.
Variable threeMonthsBefore : Z -> Z.

Lemma checkArchiveHistory_bits (now : Z)
    (r : Net.fetched TrafficAnalyzer.ArchiveJson) :
  let h := TrafficAnalyzer.checkArchiveHistory dateOfTimestamp threeMonthsBefore now r in
  (TrafficAnalyzer.snapshots h = 0 \/ TrafficAnalyzer.snapshots h = 1) /\
  (TrafficAnalyzer.recentSnapshots h = 0 \/ TrafficAnalyzer.recentSnapshots h = 1) /\
  (TrafficAnalyzer.lastSeen h = None ->
   TrafficAnalyzer.snapshots h = 0 /\ TrafficAnalyzer.recentSnapshots h = 0).
Proof.
  cbv zeta. unfold TrafficAnalyzer.checkArchiveHistory.
  destruct r as [|[] [[|[arch|]]|]]; cbn; try (repeat split; now left).
  destruct (TrafficAnalyzer.closest arch) as [c|]; cbn; [|repeat split; now left].
  destruct (TrafficAnalyzer.timestamp c); cbn; [|repeat split; now left].
  destruct (TrafficAnalyzer.available c), (TrafficAnalyzer.date_after _ _);
    repeat split; try (now left); try (now right); discriminate.
Qed.

End TrafficAnalyzerRecords.

Lemma recency_values (now : Z) (d : option TrafficAnalyzer.JsDate) :
  TrafficAnalyzer.recency now d = 10 \/ TrafficAnalyzer.recency now d = 5 \/
  TrafficAnalyzer.recency now d = 2 \/ TrafficAnalyzer.recency now d = 0.
Proof.
  unfold TrafficAnalyzer.recency. destruct d as [[|t]|]; [tauto| |tauto].
  destruct (JS.le _ 1); [tauto|]. destruct (JS.le _ 3); [tauto|].
  destruct (JS.le _ 6); tauto.
Qed.

Section TrafficAnalyzerScores.
Variable dateOfTimestamp : string -> TrafficAnalyzer.JsDate.
Variable threeMonthsBefore : Z -> Z.

(** X3. A record of [analyzeDomain] with the status 'available' has no
    website bonus: its score is at most 90. *)
Theorem available_score_le_90 (e : TrafficAnalyzer.Env) (d : string)
    (r : TrafficAnalyzer.Analysis) :
  TrafficAnalyzer.analyzeDomain dateOfTimestamp threeMonthsBefore e d
    = TrafficAnalyzer.Returns r ->
  TrafficAnalyzer.status r = "available"%string ->
  TrafficAnalyzer.traffic_score r <= 90.
Proof.
  intros H Hst. apply analyzeDomain_returns in H as [-> | ->]; [|discriminate Hst].
  unfold TrafficAnalyzer.try_record in *.
  cbn [TrafficAnalyzer.status TrafficAnalyzer.traffic_score] in *.
  destruct (TrafficAnalyzer.hasWebsite _) eqn:Hw.
  - apply hasWebsite_hasNameservers in Hw. rewrite Hw in Hst. discriminate Hst.
  - unfold TrafficAnalyzer.calculateTrafficScore.
    cbn [TrafficAnalyzer.m_hasWebsite TrafficAnalyzer.m_recentSnapshots
           TrafficAnalyzer.m_totalSnapshots TrafficAnalyzer.m_lastSeen].
    eapply Qle_trans; [apply Math_min_le_l|].
    apply (Math_round_le _ 90). change (inject_Z 90) with 90.
    match goal with
    | |- 0 + JS.Math_min ?a 40 + JS.Math_min ?b 40 + TrafficAnalyzer.recency ?n ?l <= _ =>
        pose proof (Math_min_le_r a 40); pose proof (Math_min_le_r b 40);
        pose proof (recency_range n l)
    end.
    lra.
Qed.

(** X4. In every record of [analyzeDomain] other than the 'error' record of
    its [catch], [archive_snapshots] is the capture bit b of
    [checkArchiveHistory] (its [snapshots], 0 or 1) and the score is the
    plain sum 40a + 40b + 10c + t, where a is the [recentSnapshots] bit of
    [checkArchiveHistory], c is 1 when [checkDNS] reports a website and 0
    otherwise, and t is the recency bonus (0, 2, 5 or 10) of the capture's
    date: neither the two [Math.min] caps, nor [Math.round], nor the cap
    at 100 changes that sum. *)
Theorem analysis_score_values (e : TrafficAnalyzer.Env) (d : string)
    (r : TrafficAnalyzer.Analysis) :
  TrafficAnalyzer.analyzeDomain dateOfTimestamp threeMonthsBefore e d
    = TrafficAnalyzer.Returns r ->
  TrafficAnalyzer.status r <> "error"%string ->
  let dns := TrafficAnalyzer.checkDNS (TrafficAnalyzer.dns_response e) in
  let archive :=
    TrafficAnalyzer.checkArchiveHistory dateOfTimestamp threeMonthsBefore
      (TrafficAnalyzer.now_archive e) (TrafficAnalyzer.archive_response e) in
  let a := TrafficAnalyzer.recentSnapshots archive in
  let b := TrafficAnalyzer.snapshots archive in
  let c := if TrafficAnalyzer.hasWebsite dns then 1 else 0 in
  let t := TrafficAnalyzer.recency (TrafficAnalyzer.now_score e)
             (TrafficAnalyzer.lastSeen archive) in
  (a = 0 \/ a = 1) /\ (b = 0 \/ b = 1) /\
  (t = 10 \/ t = 5 \/ t = 2 \/ t = 0) /\
  TrafficAnalyzer.archive_snapshots r = b /\
  TrafficAnalyzer.traffic_score r == 40 * a + 40 * b + 10 * c + t.
Proof.
  intros H Hst. cbv zeta.
  apply analyzeDomain_returns in H as [-> | ->]; [|now elim Hst].
  clear Hst. unfold TrafficAnalyzer.try_record.
  cbn [TrafficAnalyzer.archive_snapshots TrafficAnalyzer.traffic_score].
  unfold TrafficAnalyzer.calculateTrafficScore.
  cbn [TrafficAnalyzer.m_hasWebsite TrafficAnalyzer.m_recentSnapshots
         TrafficAnalyzer.m_totalSnapshots TrafficAnalyzer.m_lastSeen].
  pose proof (checkArchiveHistory_bits dateOfTimestamp threeMonthsBefore
                (TrafficAnalyzer.now_archive e)
                (TrafficAnalyzer.archive_response e)) as (Hs & Hr & _).
  cbv zeta in Hs, Hr.
  pose proof (recency_values (TrafficAnalyzer.now_score e)
                (TrafficAnalyzer.lastSeen
                   (TrafficAnalyzer.checkArchiveHistory dateOfTimestamp
                      threeMonthsBefore (TrafficAnalyzer.now_archive e)
                      (TrafficAnalyzer.archive_response e)))) as Hrc.
  set (h := TrafficAnalyzer.checkArchiveHistory _ _ _ _) in *.
  set (rc := TrafficAnalyzer.recency _ _) in *. clearbody rc.
  set (w := TrafficAnalyzer.hasWebsite _). clearbody w.
  split; [exact Hr|]. split; [exact Hs|]. split; [exact Hrc|].
  split; [reflexivity|].
  destruct Hs as [Es | Es], Hr as [Er | Er], w,
    Hrc as [Ec | [Ec | [Ec | Ec]]];
    rewrite Es, Er, Ec; reflexivity.
Qed.

End TrafficAnalyzerScores.

Lemma available_score_le_90_witness :
  TrafficAnalyzer.traffic_score
    (TrafficAnalyzer.try_record no_date same_instant all_probes_fail) <= 90.
Proof.
  apply (available_score_le_90 no_date same_instant all_probes_fail "example.com");
    reflexivity.
Defined.

Lemma analysis_score_values_witness :
  TrafficAnalyzer.archive_snapshots
    (TrafficAnalyzer.try_record epoch_date ninety_days_before archived_site) = 1 /\
  TrafficAnalyzer.traffic_score
    (TrafficAnalyzer.try_record epoch_date ninety_days_before archived_site)
    == 40 * 1 + 40 * 1 + 10 * 1 + 10.
Proof.
  destruct (analysis_score_values epoch_date ninety_days_before archived_site
              "example.com"
              (TrafficAnalyzer.try_record epoch_date ninety_days_before archived_site))
    as (_ & _ & _ & Hb & Hs).
  - reflexivity.
  - discriminate.
  - split; [exact Hb | exact Hs].
Defined.

(** ** The recency bonus *)

Lemma months_le (a k : Z) :
  JS.le (inject_Z a / inject_Z (1000 * 60 * 60 * 24 * 30)) (inject_Z k)
    = (a <=? k * 2592000000)%Z.
Proof.
  change (1000 * 60 * 60 * 24 * 30)%Z with 2592000000%Z.
  assert (Hpos : 0 < inject_Z 2592000000) by reflexivity.
  unfold JS.le. destruct (Z.leb_spec a (k * 2592000000)) as [Hle | Hgt].
  - apply Qle_bool_iff. apply Qle_shift_div_r; [exact Hpos|].
    rewrite <- inject_Z_mult, <- Zle_Qle. exact Hle.
  - destruct (Qle_bool _ _) eqn:E; [|reflexivity].
    apply Qle_bool_iff in E.
    apply (Qmult_le_compat_r _ _ (inject_Z 2592000000)) in E;
      [|now apply Qlt_le_weak].
    rewrite Qmult_comm, Qmult_div_r in E by discriminate.
    rewrite <- inject_Z_mult, <- Zle_Qle in E. lia.
Qed.

(** X5. The recency bonus of [calculateTrafficScore] in milliseconds, with
    its months of 30 days (M = 2,592,000,000 ms): 10 when the capture is at
    most M old, or lies in the future; 5 up to 3M; 2 up to 6M; 0 beyond,
    and 0 too without a date or with an invalid one. *)
Theorem recency_thresholds (now t : Z) :
  let M := 2592000000%Z in
  let bonus := TrafficAnalyzer.recency now (Some (TrafficAnalyzer.DateAt t)) in
  ((now - t <= M)%Z -> bonus = 10) /\
  ((M < now - t <= 3 * M)%Z -> bonus = 5) /\
  ((3 * M < now - t <= 6 * M)%Z -> bonus = 2) /\
  ((6 * M < now - t)%Z -> bonus = 0) /\
  TrafficAnalyzer.recency now None = 0 /\
  TrafficAnalyzer.recency now (Some TrafficAnalyzer.InvalidDate) = 0.
Proof.
  cbv zeta. unfold TrafficAnalyzer.recency.
  change 1 with (inject_Z 1). change 3 with (inject_Z 3). change 6 with (inject_Z 6).
  rewrite !months_le.
  repeat split; try intros H;
    destruct (Z.leb_spec (now - t) (1 * 2592000000)),
             (Z.leb_spec (now - t) (3 * 2592000000)),
             (Z.leb_spec (now - t) (6 * 2592000000)); try reflexivity; lia.
Qed.

Lemma recency_thresholds_witness :
  TrafficAnalyzer.recency 0 (Some (TrafficAnalyzer.DateAt 86400000)) = 10.
Proof.
  destruct (recency_thresholds 0 86400000) as (H & _). apply H. lia.
Defined.

(** ** [HybridAnalyzer]: the score and the cache *)

(** X8. [HybridAnalyzer.analyze] moves the instant score of a name down
    when its DNS check is negative and up when it is positive: the record
    scores at most 44 in the first case and at most 83 in the second, with
    the instant score in between. *)
Theorem hybrid_score_by_dns (e : HybridAnalyzer.Env) (rnd : Q) (now : Z) (d : string) :
  let instant := InstantTrafficAnalyzer.analyze rnd now d in
  let r := HybridAnalyzer.analyze_resume e instant in
  (HybridAnalyzer.checkDNS (HybridAnalyzer.dns_response e) = false ->
   traffic_score r <= 44 /\ traffic_score r <= traffic_score instant) /\
  (HybridAnalyzer.checkDNS (HybridAnalyzer.dns_response e) = true ->
   traffic_score r <= 83 /\ traffic_score instant <= traffic_score r).
Proof.
  cbv zeta.
  cbn [HybridAnalyzer.analyze_resume InstantTrafficAnalyzer.analyze traffic_score].
  unfold InstantTrafficAnalyzer.estimateScore.
  split; intros Hdns; rewrite Hdns;
    destruct (JS.test_digits 4 d), (JS.some _ _), (String.length d <? 15)%nat,
      (2 <? _)%nat, (JS.includes d "shop"), (JS.includes d "blog");
    split; vm_compute; discriminate.
Qed.

Lemma hybrid_score_by_dns_witness :
  traffic_score
    (HybridAnalyzer.analyze_resume dns_active
       (InstantTrafficAnalyzer.analyze (1 # 2) 0 "myshop2024.com")) <= 83.
Proof.
  destruct (hybrid_score_by_dns dns_active (1 # 2) 0 "myshop2024.com") as [_ H].
  now apply H.
Defined.

(** X7. After [analyze] the cache holds the returned record under the
    name, and the entry of every other name is as it was. *)
Theorem hybrid_cache_entry (cache : gmap string DomainAnalysis)
    (e : HybridAnalyzer.Env) (d : string) :
  (HybridAnalyzer.analyze cache e d).2 !! d
    = Some (HybridAnalyzer.analyze cache e d).1 /\
  (forall d' : string,
     d' <> d -> (HybridAnalyzer.analyze cache e d).2 !! d' = cache !! d').
Proof.
  unfold HybridAnalyzer.analyze, HybridAnalyzer.analyze_start.
  destruct (HybridAnalyzer.cached_fresh _ _ _) as [c|] eqn:E; cbn [fst snd].
  - split; [now apply cached_fresh_lookup in E | reflexivity].
  - split; [apply lookup_insert_eq|].
    intros d' Hne. now apply lookup_insert_ne.
Qed.

(** X6. The cache over time: once a name was analysed afresh, a second
    call less than [CACHE_TTL] (one hour) after the record's [last_checked]
    answers the very same record and leaves the cache as it is; from one
    hour on the name is analysed again. *)
Theorem hybrid_cache_round_trip (cache : gmap string DomainAnalysis)
    (e e' : HybridAnalyzer.Env) (d : string) :
  HybridAnalyzer.cached_fresh cache (HybridAnalyzer.now_lookup e) d = None ->
  let first := HybridAnalyzer.analyze cache e d in
  ((HybridAnalyzer.now_lookup e' - HybridAnalyzer.now_final e < 3600000)%Z ->
   HybridAnalyzer.analyze first.2 e' d = (first.1, first.2)) /\
  ((3600000 <= HybridAnalyzer.now_lookup e' - HybridAnalyzer.now_final e)%Z ->
   (HybridAnalyzer.analyze first.2 e' d).1 =
     HybridAnalyzer.analyze_resume e'
       (InstantTrafficAnalyzer.analyze (HybridAnalyzer.rnd_traffic e')
          (HybridAnalyzer.now_instant e') d)).
Proof.
  intros Hmiss. cbv zeta.
  unfold HybridAnalyzer.analyze at 2 3 4 6.
  unfold HybridAnalyzer.analyze, HybridAnalyzer.analyze_start.
  rewrite Hmiss. cbn [fst snd].
  unfold HybridAnalyzer.cached_fresh. rewrite lookup_insert_eq.
  cbn [last_checked HybridAnalyzer.analyze_resume].
  change HybridAnalyzer.CACHE_TTL with 3600000%Z.
  split; intros Ht.
  - destruct (Z.ltb_spec (HybridAnalyzer.now_lookup e' - HybridAnalyzer.now_final e)
                3600000); [reflexivity | lia].
  - destruct (Z.ltb_spec (HybridAnalyzer.now_lookup e' - HybridAnalyzer.now_final e)
                3600000); [lia | reflexivity].
Qed.

Lemma hybrid_cache_round_trip_witness :
  HybridAnalyzer.analyze (HybridAnalyzer.analyze ∅ dns_active "example.com").2
    dns_silent "example.com"
  = ((HybridAnalyzer.analyze ∅ dns_active "example.com").1,
     (HybridAnalyzer.analyze ∅ dns_active "example.com").2).
Proof.
  apply (hybrid_cache_round_trip ∅ dns_active dns_silent "example.com").
  - unfold HybridAnalyzer.cached_fresh. now rewrite lookup_empty.
  - cbn. lia.
Defined.

(** X23. The estimate of an instant analysis stays below 2000 visits,
    since a lexical score never exceeds 55; [HybridAnalyzer.analyze] keeps
    that estimate, so its records, which score up to 83, estimate fewer
    than 2000 visits too. *)
Theorem instant_estimate_below_2000 (rnd : Q) (now : Z) (d : string)
    (e : HybridAnalyzer.Env) :
  0 <= rnd -> rnd < 1 ->
  estimated_traffic (InstantTrafficAnalyzer.analyze rnd now d) < 2000 /\
  estimated_traffic
    (HybridAnalyzer.analyze_resume e (InstantTrafficAnalyzer.analyze rnd now d))
    < 2000.
Proof.
  intros H0 H1.
  cbn [HybridAnalyzer.analyze_resume InstantTrafficAnalyzer.analyze estimated_traffic].
  pose proof (estimateScore_le_55 d) as Hs.
  assert (H : InstantTrafficAnalyzer.estimateTraffic rnd
                (InstantTrafficAnalyzer.estimateScore d) < 2000).
  { set (s := InstantTrafficAnalyzer.estimateScore d) in *. clearbody s.
    unfold InstantTrafficAnalyzer.estimateTraffic.
    js_cases; floor_ranges; lra. }
  split; exact H.
Qed.

Lemma instant_estimate_below_2000_witness :
  estimated_traffic (InstantTrafficAnalyzer.analyze (1 # 2) 0 "myshop2024.com") < 2000 /\
  estimated_traffic
    (HybridAnalyzer.analyze_resume dns_active
       (InstantTrafficAnalyzer.analyze (1 # 2) 0 "myshop2024.com")) < 2000.
Proof.
  apply (instant_estimate_below_2000 (1 # 2) 0 "myshop2024.com" dns_active).
  - vm_compute. discriminate.
  - reflexivity.
Defined.

(** X24. The four signal counts of a fresh [HybridAnalyzer] record are
    drawn, not probed: with draws in [0,1) they are whole numbers in
    [0,9], [0,99], [0,49] and [0,99], whatever the name and the DNS answer,
    and the mail, redirect and parking fields stay at their defaults. *)
Theorem hybrid_signal_fields (e : HybridAnalyzer.Env) (instant : DomainAnalysis) :
  0 <= HybridAnalyzer.rnd_archive e < 1 ->
  0 <= HybridAnalyzer.rnd_indexed e < 1 ->
  0 <= HybridAnalyzer.rnd_social e < 1 ->
  0 <= HybridAnalyzer.rnd_web e < 1 ->
  let r := HybridAnalyzer.analyze_resume e instant in
  (exists k : Z, (0 <= k <= 9)%Z /\ archive_snapshots r = inject_Z k) /\
  (exists k : Z, (0 <= k <= 99)%Z /\ indexed_pages r = inject_Z k) /\
  (exists k : Z, (0 <= k <= 49)%Z /\ social_mentions r = inject_Z k) /\
  (exists k : Z, (0 <= k <= 99)%Z /\ web_presence r = inject_Z k) /\
  mail_score r = 0 /\ has_redirect r = false /\ redirect_url r = None /\
  is_parked r = false.
Proof.
  intros [Ha0 Ha1] [Hi0 Hi1] [Hs0 Hs1] [Hw0 Hw1]. cbv zeta.
  cbn [HybridAnalyzer.analyze_resume archive_snapshots indexed_pages
         social_mentions web_presence mail_score has_redirect redirect_url
         is_parked].
  repeat split.
  - destruct (Math_floor_jitter _ 10 Ha0 Ha1) as [k [Hk Ek]]. exists k. split; [lia | exact Ek].
  - destruct (Math_floor_jitter _ 100 Hi0 Hi1) as [k [Hk Ek]]. exists k. split; [lia | exact Ek].
  - destruct (Math_floor_jitter _ 50 Hs0 Hs1) as [k [Hk Ek]]. exists k. split; [lia | exact Ek].
  - destruct (Math_floor_jitter _ 100 Hw0 Hw1) as [k [Hk Ek]]. exists k. split; [lia | exact Ek].
Qed.
(** ** A batch against one call after the other *)

Section BatchSequential.
Variable envs : nat -> HybridAnalyzer.Env.

(** The calls of a group, as the loop builds them. *)
Lemma group_calls (i start : nat) (batch : list string) :
  List.map (fun kd : nat * string => (envs (i + kd.1)%nat, kd.2))
    (List.combine (List.seq start (List.length batch)) batch)
  = List.map (fun kd : nat * string => (envs kd.1, kd.2))
      (List.combine (List.seq (i + start) (List.length batch)) batch).
Proof.
  revert start. induction batch as [|d batch IH]; intros start; [reflexivity|].
  cbn. f_equal. rewrite IH. now replace (i + S start)%nat with (S (i + start)) by lia.
Qed.

Lemma analyze_start_agree (c0 acc : gmap string DomainAnalysis)
    (e : HybridAnalyzer.Env) (d : string) :
  acc !! d = c0 !! d ->
  HybridAnalyzer.analyze_start acc e d = HybridAnalyzer.analyze_start c0 e d.
Proof.
  intros H. unfold HybridAnalyzer.analyze_start, HybridAnalyzer.cached_fresh.
  now rewrite H.
Qed.

Lemma group_write_shift (s0 : HybridAnalyzer.Env * string * HybridAnalyzer.started)
    (sts : list (HybridAnalyzer.Env * string * HybridAnalyzer.started)) (n : nat) :
  forall (a : nat) (acc : gmap string DomainAnalysis),
    fold_left (HybridAnalyzer.group_write (s0 :: sts)) (List.seq (S a) n) acc
    = fold_left (HybridAnalyzer.group_write sts) (List.seq a n) acc.
Proof.
  induction n as [|n IH]; intros a acc; [reflexivity|].
  cbn [List.seq fold_left]. rewrite IH. reflexivity.
Qed.

(** A group without repeated names, its writes made in the order of the
    names, is the names analysed one after the other. *)
Lemma group_in_order (batch : list string) :
  forall (j : nat) (c0 acc : gmap string DomainAnalysis),
    NoDup batch ->
    (forall d, d ∈ batch -> acc !! d = c0 !! d) ->
    let sts :=
      HybridAnalyzer.group_started c0
        (List.map (fun kd : nat * string => (envs kd.1, kd.2))
           (List.combine (List.seq j (List.length batch)) batch)) in
    Sequential.analyze_each envs j acc batch
    = (List.map HybridAnalyzer.group_result sts,
       fold_left (HybridAnalyzer.group_write sts)
         (List.seq 0 (List.length batch)) acc).
Proof.
  induction batch as [|d batch IH]; intros j c0 acc Hnd Hagree; [reflexivity|].
  apply NoDup_cons in Hnd as [Hnotin Hnd].
  cbn [Sequential.analyze_each List.length List.seq List.combine List.map
         HybridAnalyzer.group_started fst snd fold_left].
  unfold HybridAnalyzer.analyze.
  rewrite (analyze_start_agree c0 acc) by (apply Hagree, elem_of_cons; now left).
  unfold HybridAnalyzer.group_write at 2. cbn [lookup list_lookup].
  rewrite group_write_shift.
  destruct (HybridAnalyzer.analyze_start c0 (envs j) d) as [c|instant] eqn:E.
  - specialize (IH (S j) c0 acc Hnd).
    cbv zeta in IH. unfold HybridAnalyzer.group_started in IH.
    rewrite IH; [reflexivity|].
    intros d' Hd'. apply Hagree, elem_of_cons. now right.
  - specialize (IH (S j) c0
                  (<[d := HybridAnalyzer.analyze_resume (envs j) instant]> acc) Hnd).
    cbv zeta in IH. unfold HybridAnalyzer.group_started in IH.
    rewrite IH; [reflexivity|].
    intros d' Hd'. rewrite lookup_insert_ne by (intros ->; contradiction).
    apply Hagree, elem_of_cons. now right.
Qed.


Section Writes.
Variable sts : list (HybridAnalyzer.Env * string * HybridAnalyzer.started).
Hypothesis names_nodup : NoDup (List.map Sequential.started_name sts).

Lemma same_name_same_call (k k' : nat) (e e' : HybridAnalyzer.Env) (x : string)
    (st st' : HybridAnalyzer.started) :
  sts !! k = Some (e, x, st) -> sts !! k' = Some (e', x, st') ->
  e = e' /\ st = st'.
Proof.
  intros H H'.
  assert (Hk : List.map Sequential.started_name sts !! k = Some x).
  { change (List.map Sequential.started_name sts) with (Sequential.started_name <$> sts).
    now rewrite list_lookup_fmap, H. }
  assert (Hk' : List.map Sequential.started_name sts !! k' = Some x).
  { change (List.map Sequential.started_name sts) with (Sequential.started_name <$> sts).
    now rewrite list_lookup_fmap, H'. }
  pose proof (NoDup_lookup _ _ _ _ names_nodup Hk Hk') as <-.
  rewrite H in H'. now injection H' as <- <-.
Qed.

Lemma writes_keep (l : list nat) :
  forall (acc : gmap string DomainAnalysis) (k : nat) (e : HybridAnalyzer.Env)
         (x : string) (instant : DomainAnalysis),
    sts !! k = Some (e, x, HybridAnalyzer.Pending instant) ->
    acc !! x = Some (HybridAnalyzer.analyze_resume e instant) ->
    fold_left (HybridAnalyzer.group_write sts) l acc !! x
    = Some (HybridAnalyzer.analyze_resume e instant).
Proof.
  induction l as [|k0 l IH]; intros acc k e x instant Hk Hacc; [exact Hacc|].
  cbn [fold_left]. apply (IH _ k); [exact Hk|].
  unfold HybridAnalyzer.group_write.
  destruct (sts !! k0) as [[[e0 d0] [c|i0]]|] eqn:E0; try exact Hacc.
  destruct (decide (d0 = x)) as [->|Hne].
  - destruct (same_name_same_call _ _ _ _ _ _ _ E0 Hk) as [-> [= ->]].
    apply lookup_insert_eq.
  - now rewrite lookup_insert_ne.
Qed.

Lemma writes_reach (l : list nat) :
  forall (acc : gmap string DomainAnalysis) (k : nat) (e : HybridAnalyzer.Env)
         (x : string) (instant : DomainAnalysis),
    sts !! k = Some (e, x, HybridAnalyzer.Pending instant) ->
    k ∈ l ->
    fold_left (HybridAnalyzer.group_write sts) l acc !! x
    = Some (HybridAnalyzer.analyze_resume e instant).
Proof.
  induction l as [|k0 l IH]; intros acc k e x instant Hk Hin.
  - now apply elem_of_nil in Hin.
  - cbn [fold_left]. destruct (decide (k = k0)) as [<-|Hne].
    + apply (writes_keep l _ k); [exact Hk|].
      unfold HybridAnalyzer.group_write. rewrite Hk. apply lookup_insert_eq.
    + apply (IH _ k); [exact Hk|].
      apply elem_of_cons in Hin as [?|?]; [contradiction | assumption].
Qed.

Lemma writes_miss (l : list nat) (x : string) :
  (forall c, c ∈ sts -> Sequential.pending_on x c = false) ->
  forall acc : gmap string DomainAnalysis,
    fold_left (HybridAnalyzer.group_write sts) l acc !! x = acc !! x.
Proof.
  intros Hnone. induction l as [|k0 l IH]; intros acc; [reflexivity|].
  cbn [fold_left]. rewrite IH. unfold HybridAnalyzer.group_write.
  destruct (sts !! k0) as [[[e0 d0] [c|i0]]|] eqn:E0; try reflexivity.
  apply list_elem_of_lookup_2 in E0. apply Hnone in E0. cbn in E0.
  apply bool_decide_eq_false in E0. now rewrite lookup_insert_ne.
Qed.

(** The cache after the writes of a group does not depend on their
    order, once every call of the group is among them. *)
Lemma writes_any_order (l1 l2 : list nat) (acc : gmap string DomainAnalysis) :
  (forall k, (k < List.length sts)%nat -> k ∈ l1) ->
  (forall k, (k < List.length sts)%nat -> k ∈ l2) ->
  fold_left (HybridAnalyzer.group_write sts) l1 acc
  = fold_left (HybridAnalyzer.group_write sts) l2 acc.
Proof.
  intros H1 H2. apply map_eq. intros x.
  destruct (existsb (Sequential.pending_on x) sts) eqn:E.
  - apply existsb_exists in E as ([[e d] st] & Hin & Hp).
    destruct st as [c|instant]; [discriminate Hp|].
    cbn in Hp. apply bool_decide_eq_true in Hp as ->.
    apply list_elem_of_In, list_elem_of_lookup in Hin as [k Hk].
    pose proof (lookup_lt_Some _ _ _ Hk) as Hlt.
    rewrite (writes_reach l1 acc k e x instant Hk (H1 k Hlt)).
    now rewrite (writes_reach l2 acc k e x instant Hk (H2 k Hlt)).
  - assert (Hnone : forall c, c ∈ sts -> Sequential.pending_on x c = false).
    { intros c Hc. apply list_elem_of_In in Hc.
      destruct (Sequential.pending_on x c) eqn:Ep; [|reflexivity].
      assert (existsb (Sequential.pending_on x) sts = true)
        by (apply existsb_exists; eauto).
      congruence. }
    now rewrite !writes_miss.
Qed.

End Writes.

Lemma analyze_each_app (l1 l2 : list string) :
  forall (i : nat) (cache : gmap string DomainAnalysis),
    Sequential.analyze_each envs i cache (l1 ++ l2)
    = let first := Sequential.analyze_each envs i cache l1 in
      let second :=
        Sequential.analyze_each envs (i + List.length l1) first.2 l2 in
      (first.1 ++ second.1, second.2).
Proof.
  induction l1 as [|d l1 IH]; intros i cache.
  - cbn. rewrite Nat.add_0_r.
    now destruct (Sequential.analyze_each envs i cache l2).
  - cbn [app Sequential.analyze_each List.length].
    destruct (HybridAnalyzer.analyze cache (envs i) d) as [a c1].
    rewrite IH. cbv zeta.
    destruct (Sequential.analyze_each envs (S i) c1 l1) as [r1 c2]. cbn [fst snd].
    replace (i + S (List.length l1))%nat with (S i + List.length l1)%nat by lia.
    now destruct (Sequential.analyze_each envs _ c2 l2).
Qed.

Lemma started_names (cache : gmap string DomainAnalysis)
    (calls : list (HybridAnalyzer.Env * string)) :
  List.map Sequential.started_name (HybridAnalyzer.group_started cache calls)
  = List.map snd calls.
Proof. induction calls as [|c calls IH]; cbn; [reflexivity | now f_equal]. Qed.

Lemma combine_names (start : nat) (batch : list string) :
  List.map snd
    (List.map (fun kd : nat * string => (envs kd.1, kd.2))
       (List.combine (List.seq start (List.length batch)) batch)) = batch.
Proof.
  revert start. induction batch as [|d batch IH]; intros start; [reflexivity|].
  cbn. f_equal. apply IH.
Qed.

(** One group of the loop, with names that do not repeat, against the
    same names analysed one after the other. *)
Lemma promise_all_in_order (i : nat) (cache : gmap string DomainAnalysis)
    (batch : list string) (arrival : list nat) :
  NoDup batch ->
  (forall k, (k < List.length batch)%nat -> k ∈ arrival) ->
  HybridAnalyzer.promise_all cache
    (List.map (fun kd : nat * string => (envs (i + kd.1)%nat, kd.2))
       (List.combine (List.seq 0 (List.length batch)) batch)) arrival
  = Sequential.analyze_each envs i cache batch.
Proof.
  intros Hnd Harr. rewrite group_calls, Nat.add_0_r.
  rewrite (group_in_order batch i cache cache Hnd) by reflexivity.
  cbv zeta. unfold HybridAnalyzer.promise_all. f_equal.
  set (sts := HybridAnalyzer.group_started cache _).
  assert (Hlen : List.length sts = List.length batch).
  { unfold sts, HybridAnalyzer.group_started.
    now rewrite !length_map, length_combine, length_seq, Nat.min_id. }
  apply writes_any_order.
  - unfold sts. rewrite started_names, combine_names. exact Hnd.
  - intros k Hk. apply Harr. lia.
  - intros k Hk. apply list_elem_of_In, in_seq. lia.
Qed.

Lemma analyzeBatch_loop_in_order (arrival : nat -> list nat)
    (domains : list string) (fuel : nat) :
  NoDup domains ->
  Sequential.arrivals_complete arrival (List.length domains) ->
  forall (i : nat) (results : list DomainAnalysis)
         (cache : gmap string DomainAnalysis),
    (List.length domains - i < fuel)%nat ->
    HybridAnalyzer.analyzeBatch_loop envs arrival domains fuel i results cache
    = Some (results ++ (Sequential.analyze_each envs i cache (drop i domains)).1,
            (Sequential.analyze_each envs i cache (drop i domains)).2).
Proof.
  intros Hnd Harr. induction fuel as [|fuel IH]; intros i results cache Hfuel; [lia|].
  cbn [HybridAnalyzer.analyzeBatch_loop].
  destruct (Nat.ltb_spec i (List.length domains)) as [Hlt|Hge].
  - unfold HybridAnalyzer.slice.
    replace (i + HybridAnalyzer.BATCH_SIZE - i)%nat
      with HybridAnalyzer.BATCH_SIZE by lia.
    set (batch := take HybridAnalyzer.BATCH_SIZE (drop i domains)).
    assert (Hsplit : drop i domains
                     = batch ++ drop (i + HybridAnalyzer.BATCH_SIZE) domains).
    { unfold batch. rewrite <- drop_drop. symmetry. apply take_drop. }
    assert (Hbn : NoDup batch).
    { assert (Hsub : batch `sublist_of` domains).
      { transitivity (drop i domains); [apply sublist_take | apply sublist_drop]. }
      exact (sublist_NoDup _ _ Hnd Hsub). }
    assert (Hblen : (List.length batch <= HybridAnalyzer.BATCH_SIZE)%nat /\
                    (i + List.length batch <= List.length domains)%nat).
    { unfold batch. rewrite length_take, length_drop. lia. }
    rewrite (promise_all_in_order i cache batch (arrival i) Hbn).
    2:{ intros k Hk. apply Harr; lia. }
    destruct (Sequential.analyze_each envs i cache batch) as [analysis cache'] eqn:E.
    rewrite IH by (unfold HybridAnalyzer.BATCH_SIZE; lia).
    rewrite Hsplit, analyze_each_app, E. cbv zeta. cbn [fst snd].
    destruct (decide (List.length batch = HybridAnalyzer.BATCH_SIZE)) as [Hfull|Hshort].
    + rewrite Hfull. now rewrite app_assoc.
    + assert (Hnil : drop (i + HybridAnalyzer.BATCH_SIZE) domains = []).
      { apply drop_ge. unfold batch in Hshort, Hblen.
        rewrite length_take, length_drop in Hshort. lia. }
      rewrite Hnil. cbn. now rewrite app_assoc.
  - rewrite drop_ge by lia. cbn. now rewrite app_nil_r.
Qed.

End BatchSequential.

(** X9. On names that do not repeat, the groups of [analyzeBatch] change
    nothing: whatever the order in which the DNS answers of a group arrive,
    the batch returns the records, and leaves the cache, that analysing the
    names one after the other gives. *)
Theorem analyzeBatch_in_order (envs : nat -> HybridAnalyzer.Env)
    (arrival : nat -> list nat) (cache : gmap string DomainAnalysis)
    (domains : list string) :
  NoDup domains ->
  Sequential.arrivals_complete arrival (List.length domains) ->
  HybridAnalyzer.analyzeBatch envs arrival cache domains
  = Some (Sequential.analyze_each envs 0 cache domains).
Proof.
  intros Hnd Harr. unfold HybridAnalyzer.analyzeBatch.
  rewrite (analyzeBatch_loop_in_order envs arrival domains
             (S (List.length domains)) Hnd Harr 0 [] cache) by lia.
  rewrite drop_0. cbn [app].
  now destruct (Sequential.analyze_each envs 0 cache domains).
Qed.

(** ** The probes of [AdvancedTrafficDetector] *)

Lemma count_nonneg {A} (xs : list A) : 0 <= DetectorProbes.count xs.
Proof.
  unfold DetectorProbes.count. change 0 with (inject_Z 0).
  rewrite <- Zle_Qle. lia.
Qed.

Lemma mail_score_formula (mx : option (list DetectorProbes.MxRecord))
    (txt dmarc : option (list (list string))) :
  DetectorProbes.checkDnsMailConfiguration mx txt dmarc ==
    DetectorProbes.count (default [] mx) * 2 +
    match txt with
    | Some _ =>
        DetectorProbes.count (List.filter DetectorProbes.is_spf (default [] txt)) +
        DetectorProbes.count (default [] dmarc)
    | None => 0
    end * (3 # 2).
Proof.
  unfold DetectorProbes.checkDnsMailConfiguration.
  destruct mx as [mxs|], txt as [txts|], dmarc as [ds|];
    cbn [default from_option id]; cbv beta iota zeta;
    change (DetectorProbes.count (@nil DetectorProbes.MxRecord)) with 0;
    change (DetectorProbes.count (@nil (list string))) with 0; ring.
Qed.

Lemma count_integer {A} (xs : list A) :
  DetectorProbes.count xs = inject_Z (Z.of_nat (List.length xs)).
Proof. reflexivity. Qed.

(** X10. The mail score is 2 per MX record plus 1.5 per SPF record and per
    DMARC record, where a failed lookup counts for nothing; it is never
    negative and always a multiple of 0.5.  When the TXT lookup of the name
    fails, the DMARC records are not counted either, whatever the name's
    [_dmarc] entry holds. *)
Theorem mail_score_shape (mx : option (list DetectorProbes.MxRecord))
    (txt dmarc : option (list (list string))) :
  let s := DetectorProbes.checkDnsMailConfiguration mx txt dmarc in
  let m := DetectorProbes.count (default [] mx) in
  let p := DetectorProbes.count
             (List.filter DetectorProbes.is_spf (default [] txt)) in
  let q := DetectorProbes.count (default [] dmarc) in
  0 <= s /\
  (exists z : Z, s * 2 == inject_Z z) /\
  (txt = None -> s == m * 2) /\
  (txt <> None -> s == m * 2 + (p + q) * (3 # 2)).
Proof.
  cbv zeta. pose proof (mail_score_formula mx txt dmarc) as E.
  pose proof (count_nonneg (default [] mx)) as Hm.
  pose proof (count_nonneg
                (List.filter DetectorProbes.is_spf (default [] txt))) as Hp.
  pose proof (count_nonneg (default [] dmarc)) as Hq.
  split; [|split; [|split]].
  - rewrite E. destruct txt; lra.
  - destruct txt as [txts|].
    + exists (4 * Z.of_nat (List.length (default [] mx)) +
              3 * (Z.of_nat (List.length
                     (List.filter DetectorProbes.is_spf (default [] (Some txts)))) +
                   Z.of_nat (List.length (default [] dmarc))))%Z.
      rewrite E, !count_integer.
      rewrite !inject_Z_plus, !inject_Z_mult, !inject_Z_plus.
      change (inject_Z 4) with 4. change (inject_Z 3) with 3. ring.
    + exists (4 * Z.of_nat (List.length (default [] mx)))%Z.
      rewrite E, !count_integer.
      rewrite !inject_Z_mult. change (inject_Z 4) with 4. ring.
  - intros ->. rewrite E. ring.
  - intros Hne. rewrite E. destruct txt; [reflexivity | congruence].
Qed.

Section ArchiveFrequency.
Variable dateOfParts : string -> string -> string -> TrafficAnalyzer.JsDate.
Variable oneYearBefore : Z -> Z.

Lemma snapshot_dates_length (snaps : list (list string))
    (ds : list TrafficAnalyzer.JsDate) :
  DetectorProbes.snapshot_dates dateOfParts snaps = Some ds ->
  List.length ds = List.length snaps.
Proof.
  revert ds. induction snaps as [|snap snaps IH]; intros ds H; cbn in H.
  - now injection H as <-.
  - destruct (DetectorProbes.snapshot_date _ snap); [|discriminate].
    destruct (DetectorProbes.snapshot_dates _ snaps) as [ds'|]; [|discriminate].
    injection H as <-. cbn. f_equal. now apply IH.
Qed.

Lemma filter_length_le {A} (p : A -> bool) (xs : list A) :
  (List.length (List.filter p xs) <= List.length xs)%nat.
Proof.
  induction xs as [|x xs IH]; cbn; [lia|]. destruct (p x); cbn; lia.
Qed.

Lemma checkArchiveFrequency_recent (now : Z) (r : DetectorProbes.CdxResult) :
  let out := DetectorProbes.checkArchiveFrequency dateOfParts oneYearBefore now r in
  exists n : nat,
    (n <= DetectorProbes.cdx_rows r - 1)%nat /\
    out.1 == inject_Z (Z.of_nat n) /\
    out.2 == out.1 / 12.
Proof.
  cbv zeta. unfold DetectorProbes.checkArchiveFrequency.
  assert (Hzero : exists n : nat,
             (n <= DetectorProbes.cdx_rows r - 1)%nat /\
             (0, 0).1 == inject_Z (Z.of_nat n) /\ (0, 0).2 == (0, 0).1 / 12).
  { exists O. split; [lia|]. split; reflexivity. }
  destruct r as [|status [rows|]]; [exact Hzero | | ].
  - destruct (status =? 200)%Z; [|exact Hzero].
    destruct (Nat.leb_spec (List.length rows) 1) as [Hle|Hgt]; [exact Hzero|].
    destruct (DetectorProbes.snapshot_dates _ _) as [ds|] eqn:E; [|exact Hzero].
    apply snapshot_dates_length in E. rewrite length_skipn in E.
    eexists. split; [|split; reflexivity]. cbn [DetectorProbes.cdx_rows].
    pose proof (filter_length_le
                  (fun ts => TrafficAnalyzer.date_after ts (oneYearBefore now))
                  ds). lia.
  - destruct (status =? 200)%Z; exact Hzero.
Qed.

(** X11. [checkArchiveFrequency] answers a pair [[recent, frequency]] in
    which [recent] is a whole number of captures, at most the number of
    rows after the header, and [frequency] is [recent / 12]; a rejected
    request, a status other than 200, a missing body or a body with the
    header only give [[0, 0]]. *)
Theorem checkArchiveFrequency_shape (now : Z) (r : DetectorProbes.CdxResult) :
  let out := DetectorProbes.checkArchiveFrequency dateOfParts oneYearBefore now r in
  (exists n : nat,
     (n <= DetectorProbes.cdx_rows r - 1)%nat /\
     out.1 == inject_Z (Z.of_nat n) /\
     out.2 == out.1 / 12) /\
  ((DetectorProbes.cdx_rows r <= 1)%nat -> out = (0, 0)) /\
  (forall status data,
     r = DetectorProbes.CdxResponse status data -> status <> 200%Z -> out = (0, 0)).
Proof.
  cbv zeta. split; [apply checkArchiveFrequency_recent|].
  unfold DetectorProbes.checkArchiveFrequency. split.
  - intros Hrows. destruct r as [|status [rows|]]; [reflexivity | | ].
    + destruct (status =? 200)%Z; [|reflexivity].
      cbn [DetectorProbes.cdx_rows] in Hrows.
      destruct (Nat.leb_spec (List.length rows) 1); [reflexivity | lia].
    + destruct (status =? 200)%Z; reflexivity.
  - intros status data -> Hne.
    destruct (Z.eqb_spec status 200); [contradiction | reflexivity].
Qed.

(** X12. The archive signals alone: with the answer of
    [checkArchiveFrequency] and no other signal, the score of
    [calculate_comprehensive_traffic_score] is at most 25 and reaches 25
    exactly from 24 captures in the last year on (the count component is at
    its cap of 15 from 10 captures, the frequency component at its cap of 10
    only from 24). *)
Theorem archive_signals_cap (now : Z) (r : DetectorProbes.CdxResult) :
  let out := DetectorProbes.checkArchiveFrequency dateOfParts oneYearBefore now r in
  let p := {| AdvancedTrafficDetector.archiveSnapshots := out.1;
              AdvancedTrafficDetector.archiveFrequency := out.2;
              AdvancedTrafficDetector.indexedPages := 0;
              AdvancedTrafficDetector.mailScore := 0;
              AdvancedTrafficDetector.hasRedirect := false;
              AdvancedTrafficDetector.redirectUrl := None;
              AdvancedTrafficDetector.isParked := false |} in
  AdvancedTrafficDetector.finalScore p <= 25 /\
  (AdvancedTrafficDetector.finalScore p == 25 <-> 24 <= out.1).
Proof.
  cbv zeta.
  destruct (checkArchiveFrequency_recent now r) as (n & _ & Hn & Hf).
  cbv zeta in Hn, Hf.
  set (out := DetectorProbes.checkArchiveFrequency _ _ _ _) in *. clearbody out.
  destruct out as [a f]. cbn [fst snd] in *.
  unfold AdvancedTrafficDetector.finalScore, JS.Math_min.
  cbn [AdvancedTrafficDetector.archiveSnapshots
         AdvancedTrafficDetector.archiveFrequency
         AdvancedTrafficDetector.indexedPages AdvancedTrafficDetector.mailScore
         AdvancedTrafficDetector.hasRedirect AdvancedTrafficDetector.isParked].
  assert (Ha : 0 <= a).
  { rewrite Hn. change 0 with (inject_Z 0). rewrite <- Zle_Qle. lia. }
  assert (Hf' : f == a * (1 # 12)) by (rewrite Hf; unfold Qdiv; reflexivity).
  assert (E0 : Qmin (0 * (1 # 2)) 30 == 0) by reflexivity.
  assert (E1 : Qmin (0 * 2) 25 == 0) by reflexivity.
  rewrite E0, E1.
  destruct (Q.min_spec (a * (3 # 2)) 15) as [[H1 E2] | [H1 E2]],
           (Q.min_spec (f * 5) 10) as [[H2 E3] | [H2 E3]];
    rewrite E2, E3;
    match goal with
    | |- context [Qmin ?x 100] =>
        destruct (Q.min_spec x 100) as [[H3 E4] | [H3 E4]]; rewrite E4
    end;
    (split; [lra | split; intros H; lra]).
Qed.

End ArchiveFrequency.

(** X13. [checkForActiveRedirects] answers a consistent pair: the flag is
    [true] exactly when a URL is given, and that URL is then the final URL
    of a response reached through at least one redirect and does not
    contain the name. *)
Theorem checkForActiveRedirects_pair (d : string) (r : DetectorProbes.RedirectResult) :
  let out := DetectorProbes.checkForActiveRedirects d r in
  (out.1 = true <-> out.2 <> None) /\
  (forall u : string,
     out.2 = Some u ->
     exists n : Z,
       r = DetectorProbes.RedirectResponse n u /\ (0 < n)%Z /\
       ~ Lexical.contains u d).
Proof.
  cbv zeta. unfold DetectorProbes.checkForActiveRedirects.
  destruct r as [|n url]; cbn [fst snd].
  - split; [split; [discriminate | intros H; now elim H] | discriminate].
  - destruct (Z.ltb_spec 0 n) as [Hn|Hn]; cbn [andb].
    + destruct (JS.includes url d) eqn:E; cbn [negb fst snd].
      * split; [split; [discriminate | intros H; now elim H] | discriminate].
      * split; [split; [discriminate | reflexivity]|].
        intros u [= <-]. exists n. repeat split; [exact Hn|].
        intros Hc. apply includes_iff in Hc. congruence.
    + split; [split; [discriminate | intros H; now elim H] | discriminate].
Qed.

(** ** The indexing probe *)

Lemma span_spec (p : ascii -> bool) (s run rest : string) :
  DetectorProbes.span p s = (run, rest) ->
  s = run +:+ rest /\
  Forall (fun c => p c = true) (list_ascii_of_string run).
Proof.
  revert run rest. induction s as [|c s IH]; intros run rest H; cbn in H.
  - injection H as <- <-. split; [reflexivity | constructor].
  - destruct (p c) eqn:E.
    + destruct (DetectorProbes.span p s) as [run' rest'] eqn:E'.
      injection H as <- <-. destruct (IH _ _ eq_refl) as [-> Hall].
      split; [reflexivity | now constructor].
    + injection H as <- <-. split; [reflexivity | constructor].
Qed.

Lemma drop_startsWith (s p : string) :
  JS.startsWith s p = true -> s = p +:+ DetectorProbes.drop (String.length p) s.
Proof.
  revert s. induction p as [|a p IH]; intros s H; [reflexivity|].
  destruct s as [|b s]; [discriminate|]. cbn in H.
  apply andb_true_iff in H as [Hab H]. apply Ascii.eqb_eq in Hab as ->.
  cbn. change (String b s = String b (p +:+ DetectorProbes.drop (String.length p) s)).
  f_equal. now apply IH.
Qed.

Lemma about_at_spec (s group : string) :
  DetectorProbes.about_at s = Some group ->
  group <> EmptyString /\
  Forall (fun c => DetectorProbes.is_count_char c = true)
    (list_ascii_of_string group) /\
  exists post : string, s = "About " +:+ group +:+ " results" +:+ post.
Proof.
  unfold DetectorProbes.about_at.
  destruct (JS.startsWith s "About ") eqn:E1; [|discriminate].
  apply drop_startsWith in E1. cbn [String.length] in E1.
  destruct (DetectorProbes.span _ _) as [run rest] eqn:E2.
  apply span_spec in E2 as [E2 Hall].
  destruct run as [|c run]; [discriminate|].
  destruct (JS.startsWith rest " results") eqn:E3; [|discriminate].
  intros [= <-]. split; [discriminate|]. split; [exact Hall|].
  apply startsWith_iff in E3 as [post ->]. exists post.
  rewrite E1 at 1. now rewrite E2.
Qed.

Lemma match_about_spec (s group : string) :
  DetectorProbes.match_about s = Some group ->
  group <> EmptyString /\
  Forall (fun c => DetectorProbes.is_count_char c = true)
    (list_ascii_of_string group) /\
  Lexical.contains s ("About " +:+ group +:+ " results").
Proof.
  induction s as [|c s IH]; cbn [DetectorProbes.match_about].
  - destruct (DetectorProbes.about_at "") as [g|] eqn:E; [|discriminate].
    intros [= <-]. apply about_at_spec in E as (Hne & Hall & post & E).
    repeat split; try assumption. exists EmptyString, post.
    rewrite E. now rewrite !append_assoc.
  - destruct (DetectorProbes.about_at (String c s)) as [g|] eqn:E.
    + intros [= <-]. apply about_at_spec in E as (Hne & Hall & post & E).
      repeat split; try assumption. exists EmptyString, post.
      rewrite E. now rewrite !append_assoc.
    + intros H. destruct (IH H) as (Hne & Hall & pre & post & E').
      repeat split; try assumption. exists (String c pre), post.
      rewrite E'. reflexivity.
Qed.

Lemma remove_commas_digits (g : string) :
  Forall (fun c => DetectorProbes.is_count_char c = true) (list_ascii_of_string g) ->
  Forall (fun c => JS.is_digit c = true)
    (list_ascii_of_string (DetectorProbes.remove_commas g)).
Proof.
  induction g as [|c g IH]; cbn; intros H; [constructor|].
  inversion H as [|? ? Hc Hg]; subst.
  destruct (Ascii.eqb c ",") eqn:E; [now apply IH|].
  cbn. constructor; [|now apply IH].
  unfold DetectorProbes.is_count_char in Hc. rewrite E, orb_false_r in Hc.
  exact Hc.
Qed.

Lemma digits_value_nonneg (s : string) (acc : Z) :
  (0 <= acc)%Z ->
  Forall (fun c => JS.is_digit c = true) (list_ascii_of_string s) ->
  (0 <= DetectorProbes.digits_value acc s)%Z.
Proof.
  revert acc. induction s as [|c s IH]; intros acc Hacc H; cbn; [exact Hacc|].
  inversion H as [|? ? Hc Hs]; subst. apply IH; [|exact Hs].
  unfold JS.is_digit in Hc. apply andb_true_iff in Hc as [Hlo _].
  apply Nat.leb_le in Hlo. lia.
Qed.

(** X14. [checkIndexingStatus] never answers a negative count.  The marker
    "did not match any documents" forces 0 even when a count is shown; a
    count is read from the leftmost text "About <digits and commas>
    results"; and the answer is [NaN] only when that text has commas and no
    digit.  Without marker and without such a text the answer is 1 when the
    page contains "result" and 0 otherwise. *)
Theorem checkIndexingStatus_cases (r : AdvancedTrafficDetector.AxiosResult) :
  (forall n : Z, DetectorProbes.checkIndexingStatus r = DetectorProbes.Int n ->
                 (0 <= n)%Z) /\
  (forall content : string,
     r = AdvancedTrafficDetector.AxiosResponse 200 (Some content) ->
     Lexical.contains content "did not match any documents" ->
     DetectorProbes.checkIndexingStatus r = DetectorProbes.Int 0) /\
  (DetectorProbes.checkIndexingStatus r = DetectorProbes.NaN ->
   exists content group : string,
     r = AdvancedTrafficDetector.AxiosResponse 200 (Some content) /\
     Lexical.contains content ("About " +:+ group +:+ " results") /\
     group <> EmptyString /\
     DetectorProbes.remove_commas group = EmptyString) /\
  (forall content : string,
     r = AdvancedTrafficDetector.AxiosResponse 200 (Some content) ->
     ~ Lexical.contains content "did not match any documents" ->
     DetectorProbes.match_about content = None ->
     DetectorProbes.checkIndexingStatus r =
       DetectorProbes.Int (if JS.includes content "result" then 1 else 0)).
Proof.
  repeat apply conj.
  - intros n H. destruct r as [|status [content|]]; cbn in H.
    + injection H as <-. lia.
    + destruct (status =? 200)%Z; [|injection H as <-; lia].
      destruct (JS.includes content _); [injection H as <-; lia|].
      destruct (DetectorProbes.match_about content) as [g|] eqn:E.
      * apply match_about_spec in E as (_ & Hall & _).
        apply remove_commas_digits in Hall.
        unfold DetectorProbes.parseInt in H.
        destruct (DetectorProbes.remove_commas g) as [|c s] eqn:Eg; [discriminate|].
        injection H as <-.
        apply (digits_value_nonneg (String c s) 0); [lia | exact Hall].
      * destruct (JS.includes content "result"); injection H as <-; lia.
    + destruct (status =? 200)%Z; injection H as <-; lia.
  - intros content -> Hc. apply includes_iff in Hc.
    cbn [DetectorProbes.checkIndexingStatus Z.eqb Pos.eqb]. now rewrite Hc.
  - intros H. destruct r as [|status [content|]]; cbn in H; [discriminate| |].
    + destruct (Z.eqb_spec status 200) as [->|]; [|discriminate].
      destruct (JS.includes content _); [discriminate|].
      destruct (DetectorProbes.match_about content) as [g|] eqn:E.
      * apply match_about_spec in E as (Hne & _ & Hc).
        exists content, g. repeat split; try assumption.
        unfold DetectorProbes.parseInt in H.
        now destruct (DetectorProbes.remove_commas g).
      * destruct (JS.includes content "result"); discriminate.
    + destruct (status =? 200)%Z; discriminate.
  - intros content -> Hno Hm.
    cbn [DetectorProbes.checkIndexingStatus Z.eqb Pos.eqb].
    destruct (JS.includes content "did not match any documents") eqn:E.
    + apply includes_iff in E. contradiction.
    + rewrite Hm. now destruct (JS.includes content "result").
Qed.

(** ** The detector from the network on *)

Lemma checkIndexingStatus_nonneg (r : AdvancedTrafficDetector.AxiosResult) (n : Z) :
  DetectorProbes.checkIndexingStatus r = DetectorProbes.Int n -> (0 <= n)%Z.
Proof.
  intros H. destruct r as [|status [content|]]; cbn in H.
  - injection H as <-. lia.
  - destruct (status =? 200)%Z; [|injection H as <-; lia].
    destruct (JS.includes content _); [injection H as <-; lia|].
    destruct (DetectorProbes.match_about content) as [g|] eqn:E.
    + apply match_about_spec in E as (_ & Hall & _).
      apply remove_commas_digits in Hall.
      unfold DetectorProbes.parseInt in H.
      destruct (DetectorProbes.remove_commas g) as [|c s] eqn:Eg; [discriminate|].
      injection H as <-.
      apply (digits_value_nonneg (String c s) 0); [lia | exact Hall].
    + destruct (JS.includes content "result"); injection H as <-; lia.
  - destruct (status =? 200)%Z; injection H as <-; lia.
Qed.

Lemma mail_score_nonneg (mx : option (list DetectorProbes.MxRecord))
    (txt dmarc : option (list (list string))) :
  0 <= DetectorProbes.checkDnsMailConfiguration mx txt dmarc.
Proof.
  rewrite mail_score_formula.
  pose proof (count_nonneg (default [] mx)).
  pose proof (count_nonneg (List.filter DetectorProbes.is_spf (default [] txt))).
  pose proof (count_nonneg (default [] dmarc)).
  destruct txt; lra.
Qed.

(** On numbers the score of the run is the score of
    [AdvancedTrafficDetector.finalScore]. *)
Lemma finalScore_numbers (p : DetectorRun.Probed)
    (p' : AdvancedTrafficDetector.Probes) :
  DetectorRun.numbers p = Some p' ->
  DetectorRun.finalScore p = DetectorRun.Num (AdvancedTrafficDetector.finalScore p').
Proof.
  unfold DetectorRun.numbers. destruct p as [s f [|n] m hr ru ip];
    cbn [DetectorRun.indexedPages]; [discriminate|].
  intros [= <-].
  unfold DetectorRun.finalScore, AdvancedTrafficDetector.finalScore.
  cbn [DetectorRun.archiveSnapshots DetectorRun.archiveFrequency
         DetectorRun.indexedPages DetectorRun.mailScore DetectorRun.hasRedirect
         DetectorRun.isParked AdvancedTrafficDetector.archiveSnapshots
         AdvancedTrafficDetector.archiveFrequency
         AdvancedTrafficDetector.indexedPages AdvancedTrafficDetector.mailScore
         AdvancedTrafficDetector.hasRedirect AdvancedTrafficDetector.isParked
         DetectorRun.add DetectorRun.mul DetectorRun.Math_min].
  reflexivity.
Qed.

Lemma estimatedTraffic_numbers (rnd q : Q) :
  DetectorRun.estimatedTraffic rnd (DetectorRun.Num q)
  = AdvancedTrafficDetector.estimatedTraffic rnd q.
Proof. reflexivity. Qed.

(** A count that is [NaN] makes the score [NaN]. *)
Lemma finalScore_NaN (p : DetectorRun.Probed) :
  DetectorRun.finalScore p = DetectorRun.NaN <->
  DetectorRun.indexedPages p = DetectorRun.NaN.
Proof.
  destruct p as [s f [|n] m hr ru ip]; cbn; split; try reflexivity; discriminate.
Qed.

Section DetectorRuns.
Variable dateOfParts : string -> string -> string -> TrafficAnalyzer.JsDate.
Variable oneYearBefore : Z -> Z.

Lemma probe_all_indexedPages (now : Z) (domain : string) (a : DetectorRun.Answers) :
  DetectorRun.indexedPages
    (DetectorRun.probe_all dateOfParts oneYearBefore now domain a)
  = DetectorRun.of_JsInt (DetectorProbes.checkIndexingStatus (DetectorRun.search a)).
Proof.
  unfold DetectorRun.probe_all.
  destruct (DetectorProbes.checkArchiveFrequency _ _ _ _),
    (DetectorProbes.checkForActiveRedirects _ _). reflexivity.
Qed.

Lemma probe_all_nonneg (now : Z) (domain : string) (a : DetectorRun.Answers) :
  let p := DetectorRun.probe_all dateOfParts oneYearBefore now domain a in
  0 <= DetectorRun.archiveSnapshots p /\ 0 <= DetectorRun.archiveFrequency p /\
  0 <= DetectorRun.mailScore p.
Proof.
  cbv zeta. unfold DetectorRun.probe_all.
  destruct (checkArchiveFrequency_recent dateOfParts oneYearBefore now
              (DetectorRun.cdx a)) as (n & _ & Hn & Hf).
  cbv zeta in Hn, Hf.
  destruct (DetectorProbes.checkArchiveFrequency _ _ _ _) as [s f],
    (DetectorProbes.checkForActiveRedirects _ _) as [hr ru].
  cbn [fst snd] in Hn, Hf.
  cbn [DetectorRun.archiveSnapshots DetectorRun.archiveFrequency DetectorRun.mailScore].
  assert (Hs : 0 <= s).
  { rewrite Hn. change 0 with (inject_Z 0). rewrite <- Zle_Qle. lia. }
  split; [exact Hs|]. split; [|apply mail_score_nonneg].
  rewrite Hf. unfold Qdiv. change (/ 12) with (1 # 12). lra.
Qed.

(** When the indexing probe answers a number, the record of the run is the
    record [AdvancedTrafficDetector.calculate_comprehensive_traffic_score]
    builds from the answers of the probes. *)
Lemma run_numbers (rnd : Q) (now : Z) (domain : string) (a : DetectorRun.Answers)
    (n : Z) :
  DetectorProbes.checkIndexingStatus (DetectorRun.search a) = DetectorProbes.Int n ->
  exists p' : AdvancedTrafficDetector.Probes,
    DetectorRun.numbers
      (DetectorRun.probe_all dateOfParts oneYearBefore now domain a) = Some p' /\
    AdvancedTrafficDetector.indexedPages p' = inject_Z n /\
    let r := DetectorRun.calculate_comprehensive_traffic_score
               dateOfParts oneYearBefore rnd now domain a in
    let r' := AdvancedTrafficDetector.calculate_comprehensive_traffic_score rnd p' in
    DetectorRun.traffic_score r
      = DetectorRun.Num (AdvancedTrafficDetector.traffic_score r') /\
    DetectorRun.indexed_pages r
      = DetectorRun.Num (AdvancedTrafficDetector.indexed_pages r') /\
    DetectorRun.estimated_traffic r = AdvancedTrafficDetector.estimated_traffic r' /\
    DetectorRun.has_traffic r = AdvancedTrafficDetector.has_traffic r' /\
    DetectorRun.archive_snapshots r = AdvancedTrafficDetector.archive_snapshots r' /\
    DetectorRun.archive_frequency r = AdvancedTrafficDetector.archive_frequency r' /\
    DetectorRun.mail_score r = AdvancedTrafficDetector.mail_score r' /\
    DetectorRun.has_redirect r = AdvancedTrafficDetector.has_redirect r' /\
    DetectorRun.redirect_url r = AdvancedTrafficDetector.redirect_url r' /\
    DetectorRun.is_parked r = AdvancedTrafficDetector.is_parked r'.
Proof.
  intros H.
  pose proof (probe_all_indexedPages now domain a) as Hi. rewrite H in Hi.
  unfold DetectorRun.calculate_comprehensive_traffic_score.
  set (p := DetectorRun.probe_all _ _ _ _ _) in *. clearbody p.
  destruct p as [s f ix m hr ru ip].
  cbn [DetectorRun.indexedPages DetectorRun.of_JsInt] in Hi. subst ix.
  set (p := DetectorRun.mkProbed s f (DetectorRun.Num (inject_Z n)) m hr ru ip).
  exists (AdvancedTrafficDetector.mkProbes s f (inject_Z n) m hr ru ip).
  pose proof (finalScore_numbers p _ eq_refl) as E.
  split; [reflexivity|]. split; [reflexivity|].
  cbv zeta. unfold AdvancedTrafficDetector.calculate_comprehensive_traffic_score.
  cbn [DetectorRun.traffic_score DetectorRun.indexed_pages
         DetectorRun.estimated_traffic DetectorRun.has_traffic
         DetectorRun.archive_snapshots DetectorRun.archive_frequency
         DetectorRun.mail_score DetectorRun.has_redirect
         DetectorRun.redirect_url DetectorRun.is_parked
         AdvancedTrafficDetector.traffic_score
         AdvancedTrafficDetector.indexed_pages
         AdvancedTrafficDetector.estimated_traffic
         AdvancedTrafficDetector.has_traffic
         AdvancedTrafficDetector.archive_snapshots
         AdvancedTrafficDetector.archive_frequency
         AdvancedTrafficDetector.mail_score
         AdvancedTrafficDetector.has_redirect
         AdvancedTrafficDetector.redirect_url
         AdvancedTrafficDetector.is_parked].
  rewrite E.
  split; [reflexivity|]. split; [reflexivity|].
  split; [apply estimatedTraffic_numbers|].
  split; [reflexivity|].
  subst p. cbn [DetectorRun.archiveSnapshots DetectorRun.archiveFrequency
    DetectorRun.mailScore DetectorRun.hasRedirect DetectorRun.redirectUrl
    DetectorRun.isParked AdvancedTrafficDetector.archiveSnapshots
    AdvancedTrafficDetector.archiveFrequency AdvancedTrafficDetector.mailScore
    AdvancedTrafficDetector.hasRedirect AdvancedTrafficDetector.redirectUrl
    AdvancedTrafficDetector.isParked].
  repeat split.
Qed.

(** C1. [calculate_comprehensive_traffic_score] does not normalise its
    score to [0,100]: the score is [NaN] exactly when the count of
    [checkIndexingStatus] is, which [Math.min(finalScore, 100)] lets
    through; every other score the probes lead to is a number of [0,100].
    A search page that shows "About ,,, results" gives such a count: the
    record then has the score [NaN], the count [NaN] and no
    [has_traffic]. *)
Theorem comprehensive_score_nan (rnd : Q) (now : Z) (domain : string)
    (a : DetectorRun.Answers) :
  let r := DetectorRun.calculate_comprehensive_traffic_score
             dateOfParts oneYearBefore rnd now domain a in
  (DetectorRun.traffic_score r = DetectorRun.NaN <->
   DetectorProbes.checkIndexingStatus (DetectorRun.search a) = DetectorProbes.NaN) /\
  (forall q : Q, DetectorRun.traffic_score r = DetectorRun.Num q -> 0 <= q <= 100) /\
  (DetectorRun.search a
     = AdvancedTrafficDetector.AxiosResponse 200 (Some "About ,,, results"%string) ->
   DetectorRun.traffic_score r = DetectorRun.NaN /\
   DetectorRun.indexed_pages r = DetectorRun.NaN /\
   DetectorRun.has_traffic r = false).
Proof.
  cbv zeta.
  unfold DetectorRun.calculate_comprehensive_traffic_score.
  cbn [DetectorRun.traffic_score DetectorRun.indexed_pages DetectorRun.has_traffic].
  pose proof (probe_all_indexedPages now domain a) as Hi.
  pose proof (probe_all_nonneg now domain a) as (Hs & Hf & Hm). cbv zeta in Hs, Hf, Hm.
  set (p := DetectorRun.probe_all _ _ _ _ _) in *.
  split; [|split].
  - rewrite finalScore_NaN, Hi.
    destruct (DetectorProbes.checkIndexingStatus _); cbn; split;
      try reflexivity; discriminate.
  - intros q Hq.
    destruct (DetectorProbes.checkIndexingStatus (DetectorRun.search a))
      as [|n] eqn:E; cbn [DetectorRun.of_JsInt] in Hi.
    + apply finalScore_NaN in Hi. congruence.
    + apply checkIndexingStatus_nonneg in E.
      destruct (DetectorRun.numbers p) as [p'|] eqn:Ep.
      * pose proof Ep as Ep'. unfold DetectorRun.numbers in Ep'.
        rewrite Hi in Ep'. injection Ep' as <-.
        rewrite (finalScore_numbers _ _ Ep) in Hq. injection Hq as <-.
        split; [|apply finalScore_le].
        apply finalScore_nonneg; cbn; try assumption.
        change 0 with (inject_Z 0). now rewrite <- Zle_Qle.
      * unfold DetectorRun.numbers in Ep. rewrite Hi in Ep. discriminate.
  - intros Hpage. rewrite Hpage in Hi.
    assert (En : DetectorProbes.checkIndexingStatus
                   (AdvancedTrafficDetector.AxiosResponse 200
                      (Some "About ,,, results"%string)) = DetectorProbes.NaN)
      by (vm_compute; reflexivity).
    rewrite En in Hi. cbn [DetectorRun.of_JsInt] in Hi.
    assert (E : DetectorRun.finalScore p = DetectorRun.NaN)
      by now apply finalScore_NaN.
    rewrite E. split; [reflexivity|]. split; [exact Hi | reflexivity].
Qed.

End DetectorRuns.


Lemma comprehensive_score_nan_witness :
  DetectorRun.traffic_score
    (DetectorRun.calculate_comprehensive_traffic_score no_parts same_instant
       (1 # 2) 0 "example.com" count_without_digits) = DetectorRun.NaN.
Proof.
  apply (comprehensive_score_nan no_parts same_instant (1 # 2) 0 "example.com"
           count_without_digits).
  reflexivity.
Defined.

(** ** When [analyzeDomain] throws *)

Section AnalyzeDomainOutcomes.
Variable dateOfTimestamp : string -> TrafficAnalyzer.JsDate.
Variable threeMonthsBefore : Z -> Z.

Lemma analyzeDomain_try_throws (e : TrafficAnalyzer.Env) (d : string) :
  TrafficAnalyzer.analyzeDomain_try dateOfTimestamp threeMonthsBefore e d
    = TrafficAnalyzer.Throws <->
  Progress.throws_on (TrafficAnalyzer.onProgress e) Progress.try_events.
Proof.
  unfold Progress.throws_on, Progress.try_events,
    TrafficAnalyzer.analyzeDomain_try, mbind, TrafficAnalyzer.outcome_bind,
    TrafficAnalyzer.emitProgress.
  destruct (TrafficAnalyzer.onProgress e) as [f|].
  - split.
    + intros H.
      repeat match type of H with
        | match f ?ev with _ => _ end = _ =>
            destruct (f ev) as [[]|] eqn:?;
            [|exists f, ev; split; [reflexivity|]; split; [set_solver | assumption]]
        end.
      discriminate H.
    + intros (f' & ev & [= <-] & Hin & Hthrow).
      repeat (apply elem_of_cons in Hin as [-> | Hin];
              [repeat match goal with
                 | |- match f ?ev with _ => _ end = _ =>
                     first [ rewrite Hthrow; reflexivity
                           | destruct (f ev) as [[]|]; [|reflexivity] ]
                 end|]).
      now apply elem_of_nil in Hin.
  - split; [discriminate|]. intros (f & ev & H & _). discriminate H.
Qed.

(** X20. [analyzeDomain] returns the record of its [try] block exactly when
    the progress callback throws on none of the five events of the block;
    it returns the all-zero 'error' record exactly when the callback throws
    on one of them and returns on the 'error' event; and it throws exactly
    when the callback throws on one of them and on the 'error' event too.
    Without callback it never throws. *)
Theorem analyzeDomain_outcomes (e : TrafficAnalyzer.Env) (d : string) :
  let run := TrafficAnalyzer.analyzeDomain dateOfTimestamp threeMonthsBefore e d in
  let thrown := Progress.throws_on (TrafficAnalyzer.onProgress e) in
  (~ thrown Progress.try_events ->
   run = TrafficAnalyzer.Returns
           (TrafficAnalyzer.try_record dateOfTimestamp threeMonthsBefore e)) /\
  (thrown Progress.try_events -> ~ thrown [Progress.error_event] ->
   run = TrafficAnalyzer.Returns (TrafficAnalyzer.catch_record e)) /\
  (run = TrafficAnalyzer.Throws <->
   thrown Progress.try_events /\ thrown [Progress.error_event]) /\
  (TrafficAnalyzer.onProgress e = None -> run <> TrafficAnalyzer.Throws).
Proof.
  cbv zeta.
  assert (Herr :
    TrafficAnalyzer.emitProgress (TrafficAnalyzer.onProgress e)
      "error" "Analysis failed" 100 = TrafficAnalyzer.Throws <->
    Progress.throws_on (TrafficAnalyzer.onProgress e) [Progress.error_event]).
  { unfold Progress.throws_on, TrafficAnalyzer.emitProgress.
    destruct (TrafficAnalyzer.onProgress e) as [f|].
    - split.
      + intros H. exists f, Progress.error_event. repeat split; [set_solver | exact H].
      + intros (f' & ev & [= <-] & Hin & Hthrow).
        apply list_elem_of_singleton in Hin as ->. exact Hthrow.
    - split; [discriminate|]. intros (f & ev & H & _). discriminate H. }
  pose proof (analyzeDomain_try_throws e d) as Htry.
  unfold TrafficAnalyzer.analyzeDomain, mbind, TrafficAnalyzer.outcome_bind.
  destruct (TrafficAnalyzer.analyzeDomain_try _ _ e d) as [a|] eqn:E.
  - apply analyzeDomain_try_returns in E as ->.
    split; [|split; [|split]].
    + reflexivity.
    + intros H. apply Htry in H. discriminate H.
    + split; [discriminate|]. intros [H _]. apply Htry in H. discriminate H.
    + discriminate.
  - assert (Hth : Progress.throws_on (TrafficAnalyzer.onProgress e)
                    Progress.try_events) by now apply Htry.
    destruct (TrafficAnalyzer.emitProgress _ "error" _ _) as [[]|] eqn:E2.
    + split; [|split; [|split]].
      * intros H. contradiction.
      * reflexivity.
      * split; [discriminate|]. intros [_ H]. apply Herr in H. discriminate H.
      * discriminate.
    + split; [|split; [|split]].
      * intros H. contradiction.
      * intros _ H. destruct H. now apply Herr.
      * split; [|reflexivity]. intros _. split; [exact Hth | now apply Herr].
      * intros Hnone. destruct Hth as (f & ev & H & _). congruence.
Qed.

End AnalyzeDomainOutcomes.

(** ** The import loops *)

Lemma insert_row_fields (d : string) (a : AdvancedTrafficDetector.Results) (now : Z) :
  Importer.insert_row d a now !! "domain"%string = Some (Store.JsString d) /\
  Importer.insert_row d a now !! "status"%string = Some (Store.JsString "available").
Proof.
  unfold Importer.insert_row. cbn [list_to_map foldr]. split.
  - apply lookup_insert_eq.
  - rewrite lookup_insert_ne by discriminate. apply lookup_insert_eq.
Qed.

Lemma import_one_lookup (store : gmap string (gmap string Store.JsValue))
    (t : Importer.Turn) (d k : string) :
  Importer.import_one store t d !! k = store !! k \/
  (k = d /\ store !! d = None /\
   exists a now,
     Importer.import_one store t d !! k = Some (Importer.insert_row d a now)).
Proof.
  unfold Importer.import_one, Importer.insert.
  destruct (Importer.select_fails t), (store !! d) eqn:E; try (now left);
    (destruct (Importer.insert_fails t); [now left|]);
    (destruct (decide (d = k)) as [<-|Hne];
     [ right; split; [reflexivity|]; split; [first [exact E | reflexivity]|];
       eexists _, _; apply lookup_insert_eq
     | left; now apply lookup_insert_ne ]).
Qed.

Lemma import_one_keeps (store : gmap string (gmap string Store.JsValue))
    (t : Importer.Turn) (d k : string) (row : gmap string Store.JsValue) :
  store !! k = Some row -> Importer.import_one store t d !! k = Some row.
Proof.
  intros H. destruct (import_one_lookup store t d k) as [-> | (-> & Hnone & _)].
  - exact H.
  - congruence.
Qed.

Lemma importDomains_keeps (turns : nat -> Importer.Turn) (i : nat)
    (store : gmap string (gmap string Store.JsValue)) (domains : list string)
    (k : string) (row : gmap string Store.JsValue) :
  store !! k = Some row ->
  Importer.importDomains turns i store domains !! k = Some row.
Proof.
  revert i store. induction domains as [|d rest IH]; intros i store H.
  - exact H.
  - cbn [Importer.importDomains]. apply IH. now apply import_one_keeps.
Qed.

(** X18. An import pass never changes a row that is in the store: whatever
    the queries and the inserts do, a name that had a row keeps that very
    row. *)
Theorem import_keeps_rows (turns : nat -> Importer.Turn) (i : nat)
    (store : gmap string (gmap string Store.JsValue)) (domains : list string)
    (k : string) (row : gmap string Store.JsValue) :
  store !! k = Some row ->
  Importer.importDomains turns i store domains !! k = Some row.
Proof. apply importDomains_keeps. Qed.

(** X19. Every row an import pass adds belongs to a name of the list.  It
    carries that name, and its status is 'available', which the status
    constraint of the table accepts. *)
Theorem import_adds_available (turns : nat -> Importer.Turn) (i : nat)
    (store : gmap string (gmap string Store.JsValue)) (domains : list string)
    (k : string) (row : gmap string Store.JsValue) :
  store !! k = None ->
  Importer.importDomains turns i store domains !! k = Some row ->
  k ∈ domains /\
  row !! "domain"%string = Some (Store.JsString k) /\
  row !! "status"%string = Some (Store.JsString "available") /\
  Store.domains_status_check "available" = true.
Proof.
  revert i store. induction domains as [|d rest IH]; intros i store Hnone H.
  - cbn in H. congruence.
  - cbn [Importer.importDomains] in H.
    destruct (import_one_lookup store (turns i) d k)
      as [E | (-> & _ & a & now & E)].
    + rewrite Hnone in E. destruct (IH _ _ E H) as (Hin & Hrow).
      split; [now apply elem_of_cons; right | exact Hrow].
    + rewrite (importDomains_keeps _ _ _ _ _ _ E) in H. injection H as <-.
      destruct (insert_row_fields d a now) as [Hd Hs].
      split; [apply elem_of_cons; now left|]. split; [exact Hd|].
      split; [exact Hs | reflexivity].
Qed.

Lemma import_one_present (store : gmap string (gmap string Store.JsValue))
    (t : Importer.Turn) (d : string) :
  Importer.insert_fails t = false ->
  is_Some (Importer.import_one store t d !! d).
Proof.
  intros Hins. unfold Importer.import_one, Importer.insert.
  destruct (Importer.select_fails t), (store !! d) eqn:E;
    rewrite ?E, ?Hins, ?lookup_insert_eq; eauto.
Qed.

Lemma import_no_change (turns : nat -> Importer.Turn) (i : nat)
    (store : gmap string (gmap string Store.JsValue)) (domains : list string) :
  (forall d, d ∈ domains -> is_Some (store !! d)) ->
  Importer.importDomains turns i store domains = store.
Proof.
  revert i store. induction domains as [|d rest IH]; intros i store Hall.
  - reflexivity.
  - cbn [Importer.importDomains].
    assert (E : Importer.import_one store (turns i) d = store).
    { destruct (Hall d ltac:(apply elem_of_cons; now left)) as [row Hrow].
      unfold Importer.import_one, Importer.insert. rewrite Hrow.
      now destruct (Importer.select_fails (turns i)). }
    rewrite E. apply IH. intros d' Hd'. apply Hall. apply elem_of_cons. now right.
Qed.

(** X21. When no insert of a pass is refused, every name of the list has a
    row afterwards, and a second pass over the same list, whatever its
    queries and inserts do, leaves the store as it is. *)
Theorem import_idempotent (turns turns' : nat -> Importer.Turn) (i i' : nat)
    (store : gmap string (gmap string Store.JsValue)) (domains : list string) :
  (forall k, Importer.insert_fails (turns k) = false) ->
  let store' := Importer.importDomains turns i store domains in
  (forall d, d ∈ domains -> is_Some (store' !! d)) /\
  Importer.importDomains turns' i' store' domains = store'.
Proof.
  intros Hok. cbv zeta.
  assert (Hall : forall d, d ∈ domains ->
            is_Some (Importer.importDomains turns i store domains !! d)).
  { revert i store. induction domains as [|d rest IH]; intros i store d' Hd'.
    - now apply elem_of_nil in Hd'.
    - cbn [Importer.importDomains].
      destruct (import_one_present store (turns i) d (Hok i)) as [row Hrow].
      destruct (decide (d' = d)) as [->|Hne].
      + rewrite (importDomains_keeps _ _ _ _ _ _ Hrow). eauto.
      + apply IH. apply elem_of_cons in Hd' as [?|?]; [contradiction | assumption]. }
  split; [exact Hall|]. now apply import_no_change.
Qed.

(** ** What the store accepts *)

(** X22. The status constraint of the table against what the code writes:
    the payload of the analyze-domain handler always passes; the payload of
    the client path passes for every record [HybridAnalyzer.analyze]
    returns on a cache it filled itself; and a record of
    [TrafficAnalyzer.analyzeDomain] passes exactly when it is not the
    'error' record of the [catch]. *)
Theorem status_check_of_payloads :
  (forall analysis now,
     exists s : string,
       Store.handler_update analysis now !! "status"%string
         = Some (Store.JsString s) /\
       Store.domains_status_check s = true) /\
  (forall cache e d now,
     CacheInv.statuses_known cache ->
     exists s : string,
       Store.client_update (HybridAnalyzer.analyze cache e d).1 now !! "status"%string
         = Some (Store.JsString s) /\
       Store.domains_status_check s = true) /\
  (forall dt tmb e d r,
     TrafficAnalyzer.analyzeDomain dt tmb e d = TrafficAnalyzer.Returns r ->
     (Store.domains_status_check (TrafficAnalyzer.status r) = true <->
      TrafficAnalyzer.status r <> "error"%string)).
Proof.
  split; [|split].
  - intros analysis now. exists "available"%string.
    split; [apply handler_update_status | reflexivity].
  - intros cache e d now Hc. eexists. split; [apply client_update_status|].
    destruct (hybrid_analyze_status cache e d Hc) as [[-> | ->] _]; reflexivity.
  - intros dt tmb e d r H. apply analyzeDomain_returns in H as [-> | ->].
    + cbn [TrafficAnalyzer.status TrafficAnalyzer.try_record].
      destruct (TrafficAnalyzer.hasNameservers _);
        (split; [discriminate | reflexivity]).
    + cbn. split; [discriminate | intros H; now elim H].
Qed.

(** ** [retryOperation] *)

Section RetryFacts.
Context {T : Type}.
Variable operation : nat -> Retry.attempt T.
Variable maxRetries : nat.
Variable delay : Z.

Lemma retry_loop_skip (n : nat) :
  forall (fuel a : nat) (lastError : option string) (waited : list Z),
    (a + n <= maxRetries)%nat ->
    (forall j, (a <= j < a + n)%nat -> Retry.retried operation j) ->
    Retry.retry_loop operation maxRetries delay (n + fuel) a lastError waited =
    Retry.retry_loop operation maxRetries delay fuel (a + n)
      (match n with
       | O => lastError
       | S _ =>
           match operation (a + n - 1)%nat with
           | Retry.Rejects error => Some (Retry.lastError_message error)
           | Retry.Resolves _ => lastError
           end
       end)
      (waited ++ List.map (fun j => (delay * Z.of_nat j)%Z) (List.seq a n)).
Proof.
  induction n as [|n IH]; intros fuel a lastError waited Hle Hrej.
  - cbn [List.seq List.map Nat.add]. now rewrite Nat.add_0_r, app_nil_r.
  - cbn [Nat.add Retry.retry_loop].
    destruct (Nat.leb_spec a maxRetries) as [_|Hgt]; [|lia].
    destruct (Hrej a ltac:(lia)) as (error & Eop & Hnn & Hto).
    rewrite Eop.
    destruct (Nat.eqb_spec a maxRetries) as [Heq|_]; [lia|].
    assert (Hstep :
      Retry.retry_loop operation maxRetries delay (n + fuel) (a + 1)
        (Some (Retry.lastError_message error))
        (waited ++ [(delay * Z.of_nat a)%Z]) =
      Retry.retry_loop operation maxRetries delay fuel (a + S n)
        match operation (a + S n - 1)%nat with
        | Retry.Resolves _ => lastError
        | Retry.Rejects error0 => Some (Retry.lastError_message error0)
        end
        (waited ++ List.map (fun j => (delay * Z.of_nat j)%Z) (List.seq a (S n)))).
    { rewrite IH; [|lia|intros j Hj; apply Hrej; lia].
      replace (a + 1 + n)%nat with (a + S n)%nat by lia.
      cbn [List.seq List.map]. rewrite <- app_assoc. cbn [app].
      replace (a + 1)%nat with (S a) by lia.
      f_equal. destruct n as [|n'].
      - replace (a + 1 - 1)%nat with a by lia. now rewrite Eop.
      - replace (a + S (S n') - 1)%nat with (S a + S n' - 1)%nat by lia.
        destruct (Hrej (S a + S n' - 1)%nat ltac:(lia)) as (e' & -> & _).
        reflexivity. }
    destruct error; try contradiction; rewrite Hto; exact Hstep.
Qed.

Lemma retry_reach (k : nat) :
  (1 <= k)%nat -> (k <= maxRetries)%nat ->
  (forall j, (1 <= j < k)%nat -> Retry.retried operation j) ->
  exists lastError : option string,
    Retry.retryOperation operation maxRetries delay =
    Retry.retry_loop operation maxRetries delay (S maxRetries - (k - 1)) k
      lastError (Retry.waits delay k) /\
    (k = 1%nat -> lastError = None) /\
    (forall error,
       (1 < k)%nat -> operation (k - 1)%nat = Retry.Rejects error ->
       lastError = Some (Retry.lastError_message error)).
Proof.
  intros Hk Hle Hrej.
  pose proof (retry_loop_skip (k - 1) (S maxRetries - (k - 1)) 1 None []) as Hskip.
  replace (k - 1 + (S maxRetries - (k - 1)))%nat with (S maxRetries) in Hskip by lia.
  replace (1 + (k - 1))%nat with k in Hskip by lia.
  eexists. split; [|split].
  - unfold Retry.retryOperation, Retry.waits. rewrite Hskip; [reflexivity | lia |].
    intros j Hj. apply Hrej. lia.
  - intros ->. reflexivity.
  - intros error Hgt Eop. destruct (k - 1)%nat as [|n] eqn:E; [lia|].
    replace (1 + S n - 1)%nat with (S n) by lia. now rewrite Eop.
Qed.

(** X15. [retryOperation] answers the value of the first attempt that
    resolves, when every attempt before it was rejected with an error that
    is no timeout: attempt k is reached after the waits
    [delay * 1, ..., delay * (k - 1)]. *)
Theorem retry_first_success (k : nat) (v : T) :
  (1 <= k <= maxRetries)%nat ->
  (forall j, (1 <= j < k)%nat -> Retry.retried operation j) ->
  operation k = Retry.Resolves v ->
  Retry.retryOperation operation maxRetries delay
    = Some (Retry.Fulfilled v, Retry.waits delay k).
Proof.
  intros Hk Hrej Eop.
  destruct (retry_reach k) as (lastError & -> & _); [lia | lia | exact Hrej |].
  replace (S maxRetries - (k - 1))%nat with (S (S (maxRetries - k)))%nat by lia.
  cbn [Retry.retry_loop].
  destruct (Nat.leb_spec k maxRetries); [|lia]. now rewrite Eop.
Qed.

(** X16. A timeout is never retried: when attempt k is rejected with an
    error whose message contains "timeout" or "57014", [retryOperation]
    rejects at once with "Operation timed out. Please try again.", whatever
    the later attempts would have answered. *)
Theorem retry_timeout_stops (k : nat) (error : Retry.thrown) :
  (1 <= k <= maxRetries)%nat ->
  (forall j, (1 <= j < k)%nat -> Retry.retried operation j) ->
  operation k = Retry.Rejects error ->
  Retry.is_timeout error = true ->
  Retry.retryOperation operation maxRetries delay
    = Some (Retry.RejectedWith (Some "Operation timed out. Please try again."%string),
            Retry.waits delay k).
Proof.
  intros Hk Hrej Eop Hto.
  destruct (retry_reach k) as (lastError & -> & _); [lia | lia | exact Hrej |].
  replace (S maxRetries - (k - 1))%nat with (S (S (maxRetries - k)))%nat by lia.
  cbn [Retry.retry_loop].
  destruct (Nat.leb_spec k maxRetries); [|lia]. rewrite Eop.
  destruct error; try discriminate Hto; now rewrite Hto.
Qed.

(** X17. When all [maxRetries] attempts are rejected with errors that are
    no timeouts, [retryOperation] rejects with the last of them after
    [maxRetries - 1] waits; with [maxRetries] = 0 no attempt is made and
    what is thrown is [null]. *)
Theorem retry_exhausted :
  (forall j, (1 <= j <= maxRetries)%nat -> Retry.retried operation j) ->
  exists message : option string,
    Retry.retryOperation operation maxRetries delay
      = Some (Retry.RejectedWith message, Retry.waits delay maxRetries) /\
    (maxRetries = O -> message = None) /\
    (forall error,
       operation maxRetries = Retry.Rejects error -> (1 <= maxRetries)%nat ->
       message = Some (Retry.lastError_message error)).
Proof.
  intros Hrej. destruct maxRetries as [|m] eqn:Em.
  - exists None. repeat split. intros error _ H. lia.
  - rewrite <- Em in *.
    destruct (retry_reach maxRetries) as (lastError & -> & _);
      [lia | lia | intros j Hj; apply Hrej; lia |].
    replace (S maxRetries - (maxRetries - 1))%nat with 2%nat by lia.
    cbn [Retry.retry_loop].
    destruct (Nat.leb_spec maxRetries maxRetries); [|lia].
    destruct (Hrej maxRetries ltac:(lia)) as (error & Eop & Hnn & Hto).
    rewrite Eop, Nat.eqb_refl.
    exists (Some (Retry.lastError_message error)).
    split; [destruct error; try contradiction; now rewrite Hto|].
    split; [lia|]. intros error' [= <-] _. reflexivity.
Qed.

End RetryFacts.

(** ** Runs *)

Lemma hybrid_signal_fields_witness :
  (exists k : Z, (0 <= k <= 9)%Z /\
     archive_snapshots (HybridAnalyzer.analyze_resume dns_active
       (InstantTrafficAnalyzer.analyze (1 # 2) 0 "example.com")) = inject_Z k) /\
  (exists k : Z, (0 <= k <= 99)%Z /\
     indexed_pages (HybridAnalyzer.analyze_resume dns_active
       (InstantTrafficAnalyzer.analyze (1 # 2) 0 "example.com")) = inject_Z k) /\
  (exists k : Z, (0 <= k <= 49)%Z /\
     social_mentions (HybridAnalyzer.analyze_resume dns_active
       (InstantTrafficAnalyzer.analyze (1 # 2) 0 "example.com")) = inject_Z k) /\
  (exists k : Z, (0 <= k <= 99)%Z /\
     web_presence (HybridAnalyzer.analyze_resume dns_active
       (InstantTrafficAnalyzer.analyze (1 # 2) 0 "example.com")) = inject_Z k) /\
  mail_score (HybridAnalyzer.analyze_resume dns_active
       (InstantTrafficAnalyzer.analyze (1 # 2) 0 "example.com")) = 0 /\
  has_redirect (HybridAnalyzer.analyze_resume dns_active
       (InstantTrafficAnalyzer.analyze (1 # 2) 0 "example.com")) = false /\
  redirect_url (HybridAnalyzer.analyze_resume dns_active
       (InstantTrafficAnalyzer.analyze (1 # 2) 0 "example.com")) = None /\
  is_parked (HybridAnalyzer.analyze_resume dns_active
       (InstantTrafficAnalyzer.analyze (1 # 2) 0 "example.com")) = false.
Proof.
  apply (hybrid_signal_fields dns_active
           (InstantTrafficAnalyzer.analyze (1 # 2) 0 "example.com"));
    cbn; lra.
Defined.

Lemma analyzeBatch_in_order_witness :
  HybridAnalyzer.analyzeBatch numbered (fun _ => [2; 0; 1]%nat) ∅
    ["a.com"; "b.net"; "c.org"; "d.io"]%string
  = Some (Sequential.analyze_each numbered 0 ∅
            ["a.com"; "b.net"; "c.org"; "d.io"]%string).
Proof.
  apply (analyzeBatch_in_order numbered (fun _ => [2; 0; 1]%nat) ∅
           ["a.com"; "b.net"; "c.org"; "d.io"]%string).
  - apply (bool_decide_unpack _). vm_compute. exact I.
  - intros i k Hi Hk. unfold HybridAnalyzer.BATCH_SIZE in Hk.
    destruct k as [|[|[|k]]]; [set_solver.. | lia].
Defined.

(** With a name twice in one group the two differ: both calls of the group
    start before either has written to the cache and both analyse afresh
    (their records are stamped 0 and 1), while one call after the other
    answers the first record twice. *)
Example analyzeBatch_repeated_name :
  (fun out => List.map last_checked out.1) <$>
    HybridAnalyzer.analyzeBatch numbered (fun _ => [0; 1]%nat) ∅
      ["a.com"; "a.com"]%string = Some [0; 1]%Z /\
  List.map last_checked
    (Sequential.analyze_each numbered 0 ∅ ["a.com"; "a.com"]%string).1
  = [0; 0]%Z.
Proof. split; vm_compute; reflexivity. Qed.

Lemma retry_first_success_witness :
  Retry.retryOperation flaky 3 1000
    = Some (Retry.Fulfilled 7%Z, Retry.waits 1000 3).
Proof.
  apply (retry_first_success flaky 3 1000 3 7%Z).
  - lia.
  - intros j Hj. exists (Retry.ThrownError "connection reset").
    destruct j as [|[|[|j]]]; try lia; repeat split; discriminate.
  - reflexivity.
Defined.

Lemma retry_timeout_stops_witness :
  Retry.retryOperation timing_out 3 1000
    = Some (Retry.RejectedWith (Some "Operation timed out. Please try again."%string),
            Retry.waits 1000 2).
Proof.
  apply (retry_timeout_stops timing_out 3 1000 2
           (Retry.ThrownObject "canceling statement due to statement timeout"
              "[object Object]")).
  - lia.
  - intros j Hj. exists (Retry.ThrownError "connection reset").
    destruct j as [|[|j]]; try lia; repeat split; discriminate.
  - reflexivity.
  - reflexivity.
Defined.

Lemma retry_exhausted_witness :
  exists message : option string,
    Retry.retryOperation always_down 3 1000
      = Some (Retry.RejectedWith message, Retry.waits 1000 3) /\
    (3%nat = O -> message = None) /\
    (forall error,
       always_down 3 = Retry.Rejects error -> (1 <= 3)%nat ->
       message = Some (Retry.lastError_message error)).
Proof.
  apply (retry_exhausted always_down 3 1000).
  intros j Hj. exists (Retry.ThrownError "connection reset").
  repeat split; discriminate.
Defined.

Lemma import_keeps_rows_witness :
  Importer.importDomains (fun _ => quiet_turn) 0 one_row
    ["old.com"; "new.org"]%string !! "old.com"%string = Some old_row.
Proof.
  apply (import_keeps_rows (fun _ => quiet_turn) 0 one_row
           ["old.com"; "new.org"]%string "old.com" old_row).
  unfold one_row. apply lookup_singleton_eq.
Defined.

Lemma import_adds_available_witness :
  "new.org"%string ∈ ["old.com"; "new.org"]%string /\
  Importer.insert_row "new.org"
    (AdvancedTrafficDetector.calculate_comprehensive_traffic_score (1 # 2) no_signal)
    0 !! "domain"%string = Some (Store.JsString "new.org") /\
  Importer.insert_row "new.org"
    (AdvancedTrafficDetector.calculate_comprehensive_traffic_score (1 # 2) no_signal)
    0 !! "status"%string = Some (Store.JsString "available") /\
  Store.domains_status_check "available" = true.
Proof.
  apply (import_adds_available (fun _ => quiet_turn) 0 one_row
           ["old.com"; "new.org"]%string "new.org").
  - unfold one_row. now apply lookup_singleton_ne.
  - cbn [Importer.importDomains].
    unfold Importer.import_one, Importer.insert, one_row, quiet_turn.
    cbn [Importer.select_fails Importer.insert_fails Importer.rnd
           Importer.probes Importer.now].
    rewrite lookup_singleton_eq.
    rewrite (lookup_singleton_ne "old.com"%string "new.org"%string) by discriminate.
    apply lookup_insert_eq.
Defined.

Lemma import_idempotent_witness :
  (forall d, d ∈ ["old.com"; "new.org"]%string ->
     is_Some (Importer.importDomains (fun _ => quiet_turn) 0 one_row
                ["old.com"; "new.org"]%string !! d)) /\
  Importer.importDomains (fun _ => quiet_turn) 0
    (Importer.importDomains (fun _ => quiet_turn) 0 one_row
       ["old.com"; "new.org"]%string)
    ["old.com"; "new.org"]%string
  = Importer.importDomains (fun _ => quiet_turn) 0 one_row
      ["old.com"; "new.org"]%string.
Proof.
  apply (import_idempotent (fun _ => quiet_turn) (fun _ => quiet_turn) 0 0 one_row
           ["old.com"; "new.org"]%string).
  intros k. reflexivity.
Defined.
